(** * The Intel winsys of the Vulkan ICD: buffer objects, relocations, submission

    A shallow embedding of the DRM winsys found in [src/layers/screenshot.cpp]
    (the part that starts at [struct intel_winsys]) and the properties its
    specification states about it.

    The winsys is a thin layer over libdrm.  Every function is a short,
    loop-free sequence of libdrm entry points, local computation and reads of
    fields of libdrm's public [drm_intel_bo] structure.  The embedding keeps
    exactly that shape: a C function becomes a finite program whose nodes are
    the external calls it makes, in order, with the arguments it passes, and
    whose leaves are the values it returns.  A program is then run against an
    arbitrary libdrm (any state type, any answers), which also records the log
    of calls that were made.

    Two more parts follow the same pattern: the pixel formats of
    [src/icd/common/icd-format.c] (the table, the predicates, the classes and
    the packing of raw values) and the screenshot layer at the start of
    [src/layers/screenshot.cpp], whose entry points are programs over the
    calls into the next layer and over the layer's static maps. *)

From stdpp Require Import base option list gmap gmultiset strings pretty.
From Stdlib Require Import ZArith Lia Ascii.
From coqutil Require Import Z.bitblast.
From Equations Require Import Equations.

Open Scope Z_scope.

(** ** C data *)

(** Non-null addresses of the opaque objects the winsys juggles.  A C pointer
    that may be NULL is an [option] of one of these. *)
Definition drm_intel_bo := positive.
Definition drm_intel_bufmgr := positive.
Definition drm_intel_context := positive.
Definition address := positive.

(** [struct intel_bo *] is [drm_intel_bo *] under a different name. *)
Definition intel_bo := drm_intel_bo.

Definition gem_bo (bo : intel_bo) : drm_intel_bo := bo.

(** Fixed-width integers are kept in [Z]; these are the conversions C applies
    when a value is stored in a narrower or unsigned type. *)
Definition to_uint32 (z : Z) : Z := z mod 2 ^ 32.
Definition to_uint64 (z : Z) : Z := z mod 2 ^ 64.
Definition to_int32 (z : Z) : Z := (z + 2 ^ 31) mod 2 ^ 32 - 2 ^ 31.

(** An integer used as a C condition. *)
Definition truthy (z : Z) : bool := negb (z =? 0).

Inductive intel_tiling_mode : Type :=
| INTEL_TILING_NONE
| INTEL_TILING_X
| INTEL_TILING_Y.

(** The last constructor stands for an integer that is none of the three
    enumerators, which a C enum object can hold and which the [default]
    branches of the code catch. *)
Inductive intel_winsys_handle_type : Type :=
| INTEL_WINSYS_HANDLE_SHARED
| INTEL_WINSYS_HANDLE_KMS
| INTEL_WINSYS_HANDLE_FD
| INTEL_WINSYS_HANDLE_unrecognized (raw : Z).

(** Modelled from the spec: [struct intel_winsys_handle] is declared in
    winsys.h, which is not among the sources; the spec gives a tagged handle
    holding an unsigned 32-bit payload, paired with the stride. *)
Record intel_winsys_handle : Type := {
  type : intel_winsys_handle_type;
  handle : Z;
  stride : Z
}.

(** Modelled from the spec: [struct intel_winsys_info] is declared in winsys.h
    as well; its fields are the ones [probe_winsys] assigns. *)
Record intel_winsys_info : Type := {
  devid : Z;
  aperture_mappable : Z;
  aperture_total : Z;
  has_llc : bool;
  has_address_swizzling : bool;
  has_logical_context : bool;
  has_ppgtt : bool;
  has_timestamp : bool;
  has_gen7_sol_reset : bool
}.

Record intel_winsys : Type := {
  instance : Z;
  fd : Z;
  bufmgr : option drm_intel_bufmgr;
  info : intel_winsys_info;
  ctx : option drm_intel_context
}.

(** What [memset(winsys, 0, sizeof( *winsys))] leaves behind. *)
Definition zeroed_info : intel_winsys_info :=
  {| devid := 0; aperture_mappable := 0; aperture_total := 0;
     has_llc := false; has_address_swizzling := false;
     has_logical_context := false; has_ppgtt := false;
     has_timestamp := false; has_gen7_sol_reset := false |}.

Definition zeroed_winsys : intel_winsys :=
  {| instance := 0; fd := 0; bufmgr := None; info := zeroed_info; ctx := None |}.

(** ** Compile-time environment

    The constants come from headers that are not part of the sources at hand
    (winsys.h of the driver, i915_drm.h of the kernel, errno.h, vulkan.h), so
    the development is parametric in them.  [NDEBUG] says whether [assert] is
    compiled out.  [i915_abi] further down is the usual Linux instance. *)
Class Headers : Type := {
  INTEL_RELOC_FENCE : Z;
  INTEL_RELOC_GGTT : Z;
  INTEL_RELOC_WRITE : Z;
  INTEL_RING_RENDER : Z;
  tiling_value : intel_tiling_mode -> Z;
  tiling_value_inj : Inj (=) (=) tiling_value;
  I915_GEM_DOMAIN_RENDER : Z;
  I915_GEM_DOMAIN_SAMPLER : Z;
  I915_GEM_DOMAIN_INSTRUCTION : Z;
  I915_GEM_DOMAIN_VERTEX : Z;
  I915_TILING_X : Z;
  I915_BIT_6_SWIZZLE_NONE : Z;
  DRM_I915_GETPARAM : Z;
  I915_PARAM_HAS_RELAXED_DELTA : Z;
  I915_PARAM_HAS_LLC : Z;
  I915_PARAM_HAS_ALIASING_PPGTT : Z;
  I915_PARAM_HAS_GEN7_SOL_RESET : Z;
  ETIME : Z;
  EINVAL : Z;
  VK_SYSTEM_ALLOC_INTERNAL : Z;
  sizeof_intel_winsys : Z;
  NDEBUG : bool
}.

(** ** External calls

    One constructor per foreign function called by the winsys functions
    embedded below, named after it and carrying the arguments the code passes
    (constant arguments included).  The index is what comes back: the return
    value together with the contents of the out-parameters after the call. *)
Inductive drmE : Type -> Type :=
| icd_instance_alloc (inst size alignment alloc_type : Z) : drmE (option address)
| icd_instance_free (inst : Z) (mem : address) : drmE unit
| drmCommandWriteRead_getparam (fd index param : Z) : drmE (Z * Z)
| drm_intel_bufmgr_gem_init (fd batch_size : Z) : drmE (option drm_intel_bufmgr)
| drm_intel_bufmgr_destroy (bufmgr : option drm_intel_bufmgr) : drmE unit
| drm_intel_bufmgr_gem_get_devid (bufmgr : option drm_intel_bufmgr) : drmE Z
| drm_intel_bufmgr_gem_enable_fenced_relocs (bufmgr : option drm_intel_bufmgr) : drmE unit
| drm_intel_bufmgr_gem_enable_reuse (bufmgr : option drm_intel_bufmgr) : drmE unit
| drm_intel_bufmgr_gem_set_vma_cache_size (bufmgr : option drm_intel_bufmgr) (limit : Z) : drmE unit
| drm_intel_get_aperture_sizes (fd : Z) : drmE (Z * Z * Z)
| drm_intel_reg_read (bufmgr : option drm_intel_bufmgr) (reg : Z) : drmE (Z * Z)
| drm_intel_gem_context_create (bufmgr : option drm_intel_bufmgr) : drmE (option drm_intel_context)
| drm_intel_gem_context_destroy (ctx : option drm_intel_context) : drmE unit
| drm_intel_bo_alloc_tiled (bufmgr : option drm_intel_bufmgr) (name : string)
    (x y cpp tiling flags : Z) : drmE (option drm_intel_bo)
| drm_intel_bo_get_tiling (bo : drm_intel_bo) : drmE (Z * Z * Z)
| drm_intel_bo_set_tiling (bo : drm_intel_bo) (tiling pitch : Z) : drmE (Z * Z)
| drm_intel_bo_reference (bo : drm_intel_bo) : drmE unit
| drm_intel_bo_unreference (bo : drm_intel_bo) : drmE unit
| drm_intel_bo_gem_create_from_name (bufmgr : option drm_intel_bufmgr) (name : string)
    (gem_name : Z) : drmE (option drm_intel_bo)
| drm_intel_bo_gem_create_from_prime (bufmgr : option drm_intel_bufmgr)
    (prime_fd size : Z) : drmE (option drm_intel_bo)
| drm_intel_bo_flink (bo : drm_intel_bo) : drmE (Z * Z)
| drm_intel_bo_gem_export_to_prime (bo : drm_intel_bo) : drmE (Z * Z)
| drm_intel_bufmgr_check_aperture_space (bo_array : list drm_intel_bo) (count : Z) : drmE Z
| drm_intel_gem_bo_context_exec (bo : drm_intel_bo) (ctx : drm_intel_context)
    (used flags : Z) : drmE Z
| drm_intel_bo_mrb_exec (bo : drm_intel_bo) (used : Z) (cliprects : option address)
    (num_cliprects DR4 flags : Z) : drmE Z
| drm_intel_bo_emit_reloc (bo : drm_intel_bo) (offset : Z) (target_bo : drm_intel_bo)
    (target_offset read_domains write_domain : Z) : drmE Z
| drm_intel_bo_emit_reloc_fence (bo : drm_intel_bo) (offset : Z) (target_bo : drm_intel_bo)
    (target_offset read_domains write_domain : Z) : drmE Z
| drm_intel_gem_bo_wait (bo : drm_intel_bo) (timeout_ns : Z) : drmE Z
| drm_intel_bo_wait_rendering (bo : drm_intel_bo) : drmE unit.

(** Fields of libdrm's [drm_intel_bo] that the winsys reads directly. *)
Inductive bo_field : Type :=
| offset64
| bo_handle.

(** ** Programs *)

Inductive prog (R : Type) : Type :=
| Ret (r : R)
| Call {X : Type} (e : drmE X) (k : X -> prog R)
| Field (bo : drm_intel_bo) (f : bo_field) (k : Z -> prog R)
| Crash (msg : string).

Arguments Ret {R} r.
Arguments Call {R X} e k.
Arguments Field {R} bo f k.
Arguments Crash {R} msg.

Fixpoint prog_bind {A B : Type} (f : A -> prog B) (p : prog A) : prog B :=
  match p with
  | Ret a => f a
  | Call e k => Call e (fun x => prog_bind f (k x))
  | Field bo fl k => Field bo fl (fun z => prog_bind f (k z))
  | Crash msg => Crash msg
  end.

#[global] Instance prog_ret : MRet prog := @Ret.
#[global] Instance prog_mbind : MBind prog := @prog_bind.

Definition call {X : Type} (e : drmE X) : prog X := Call e Ret.
Definition load (bo : drm_intel_bo) (f : bo_field) : prog Z := Field bo f Ret.

(** [assert(c)]: nothing when compiled out, otherwise [abort()] on a false
    condition. *)
Definition assert `{Headers} (c : bool) (msg : string) : prog unit :=
  if NDEBUG then Ret tt else if c then Ret tt else Crash msg.

(** ** Running a program against a libdrm *)

Record libdrm : Type := {
  world : Type;
  respond : forall X : Type, drmE X -> world -> X * world;
  field : world -> drm_intel_bo -> bo_field -> Z
}.

Arguments respond l {X} e w.

Inductive logged : Type :=
| Logged {X : Type} (e : drmE X) (answer : X).

Inductive outcome (R : Type) : Type :=
| Returned (r : R)
| Aborted (msg : string).

Arguments Returned {R} r.
Arguments Aborted {R} msg.

Record execution (R W : Type) : Type := {
  result : outcome R;
  final : W;
  calls : list logged
}.

Arguments result {R W} e.
Arguments final {R W} e.
Arguments calls {R W} e.

Definition logging {R W : Type} (ev : logged) (x : execution R W) : execution R W :=
  {| result := result x; final := final x; calls := ev :: calls x |}.

Fixpoint run {R : Type} (M : libdrm) (p : prog R) (w : world M) : execution R (world M) :=
  match p with
  | Ret r => {| result := Returned r; final := w; calls := [] |}
  | Call e k =>
      let '(x, w') := respond M e w in
      logging (Logged e x) (run M (k x) w')
  | Field bo fl k => run M (k (field M w bo fl)) w
  | Crash msg => {| result := Aborted msg; final := w; calls := [] |}
  end.

(** ** The winsys *)

(** Assignments to single members of the two structures. *)
Definition set_info (f : intel_winsys_info -> intel_winsys_info)
    (winsys : intel_winsys) : intel_winsys :=
  {| instance := instance winsys; fd := fd winsys; bufmgr := bufmgr winsys;
     info := f (info winsys); ctx := ctx winsys |}.

Definition set_ctx (c : option drm_intel_context) (winsys : intel_winsys) : intel_winsys :=
  {| instance := instance winsys; fd := fd winsys; bufmgr := bufmgr winsys;
     info := info winsys; ctx := c |}.

Definition set_instance_fd (inst fd_ : Z) (winsys : intel_winsys) : intel_winsys :=
  {| instance := inst; fd := fd_; bufmgr := bufmgr winsys;
     info := info winsys; ctx := ctx winsys |}.

Definition set_bufmgr (b : option drm_intel_bufmgr) (winsys : intel_winsys) : intel_winsys :=
  {| instance := instance winsys; fd := fd winsys; bufmgr := b;
     info := info winsys; ctx := ctx winsys |}.

Definition set_devid (v : Z) (i : intel_winsys_info) : intel_winsys_info :=
  {| devid := v; aperture_mappable := aperture_mappable i;
     aperture_total := aperture_total i; has_llc := has_llc i;
     has_address_swizzling := has_address_swizzling i;
     has_logical_context := has_logical_context i; has_ppgtt := has_ppgtt i;
     has_timestamp := has_timestamp i; has_gen7_sol_reset := has_gen7_sol_reset i |}.

Definition set_aperture (mappable total : Z) (i : intel_winsys_info) : intel_winsys_info :=
  {| devid := devid i; aperture_mappable := mappable;
     aperture_total := total; has_llc := has_llc i;
     has_address_swizzling := has_address_swizzling i;
     has_logical_context := has_logical_context i; has_ppgtt := has_ppgtt i;
     has_timestamp := has_timestamp i; has_gen7_sol_reset := has_gen7_sol_reset i |}.

Definition set_llc_swizzling (llc swizzling : bool) (i : intel_winsys_info) : intel_winsys_info :=
  {| devid := devid i; aperture_mappable := aperture_mappable i;
     aperture_total := aperture_total i; has_llc := llc;
     has_address_swizzling := swizzling;
     has_logical_context := has_logical_context i; has_ppgtt := has_ppgtt i;
     has_timestamp := has_timestamp i; has_gen7_sol_reset := has_gen7_sol_reset i |}.

Definition set_tail (logical_context ppgtt timestamp sol_reset : bool)
    (i : intel_winsys_info) : intel_winsys_info :=
  {| devid := devid i; aperture_mappable := aperture_mappable i;
     aperture_total := aperture_total i; has_llc := has_llc i;
     has_address_swizzling := has_address_swizzling i;
     has_logical_context := logical_context; has_ppgtt := ppgtt;
     has_timestamp := timestamp; has_gen7_sol_reset := sol_reset |}.

Definition set_handle (v : Z) (h : intel_winsys_handle) : intel_winsys_handle :=
  {| type := type h; handle := to_uint32 v; stride := stride h |}.

Definition set_stride (v : Z) (h : intel_winsys_handle) : intel_winsys_handle :=
  {| type := type h; handle := handle h; stride := v |}.

Section Winsys.

Context `{Headers}.

(** The pair returned is the function's result and [*value] on return. *)
Definition get_param (winsys : intel_winsys) (param : Z) : prog (bool * Z) :=
  '(err, value) ← call (drmCommandWriteRead_getparam (fd winsys) DRM_I915_GETPARAM param);
  if truthy err then mret (false, 0) else mret (true, value).

Definition test_address_swizzling (winsys : intel_winsys) : prog bool :=
  bo ← call (drm_intel_bo_alloc_tiled (bufmgr winsys) "address swizzling test"
               64 64 4 I915_TILING_X 0);
  swizzle ← match bo with
            | Some bo =>
                '(_, _, swizzle) ← call (drm_intel_bo_get_tiling bo);
                call (drm_intel_bo_unreference bo);;
                mret swizzle
            | None => mret I915_BIT_6_SWIZZLE_NONE
            end;
  mret (negb (swizzle =? I915_BIT_6_SWIZZLE_NONE)).

Definition test_reg_read (winsys : intel_winsys) (reg : Z) : prog bool :=
  '(err, _) ← call (drm_intel_reg_read (bufmgr winsys) reg);
  mret (negb (truthy err)).

(** The winsys is updated in place by the C code; here the updated structure
    is returned next to the result. *)
Definition probe_winsys (winsys : intel_winsys) : prog (bool * intel_winsys) :=
  '(_, val) ← get_param winsys I915_PARAM_HAS_RELAXED_DELTA;
  if negb (truthy val) then mret (false, winsys) else
  id ← call (drm_intel_bufmgr_gem_get_devid (bufmgr winsys));
  let winsys := set_info (set_devid id) winsys in
  '(err, mappable, total) ← call (drm_intel_get_aperture_sizes (fd winsys));
  let winsys := set_info (set_aperture mappable total) winsys in
  if truthy err then mret (false, winsys) else
  '(_, val) ← get_param winsys I915_PARAM_HAS_LLC;
  swizzling ← test_address_swizzling winsys;
  let winsys := set_info (set_llc_swizzling (truthy val) swizzling) winsys in
  c ← call (drm_intel_gem_context_create (bufmgr winsys));
  let winsys := set_ctx c winsys in
  if negb (bool_decide (is_Some (ctx winsys))) then mret (false, winsys) else
  let logical_context := bool_decide (is_Some (ctx winsys)) in
  '(_, val) ← get_param winsys I915_PARAM_HAS_ALIASING_PPGTT;
  let ppgtt := truthy val in
  timestamp ← test_reg_read winsys 0x2358;
  '(_, val) ← get_param winsys I915_PARAM_HAS_GEN7_SOL_RESET;
  let winsys :=
    set_info (set_tail logical_context ppgtt timestamp (truthy val)) winsys in
  mret (true, winsys).

(** [sizeof(uint32_t) * 150 * 1024] *)
Definition batch_size : Z := 4 * 150 * 1024.

(** A winsys that was created is returned with the address of its storage. *)
Definition intel_winsys_create_for_fd (inst fd_ : Z) : prog (option (address * intel_winsys)) :=
  mem ← call (icd_instance_alloc inst sizeof_intel_winsys 0 VK_SYSTEM_ALLOC_INTERNAL);
  match mem with
  | None => mret None
  | Some mem =>
      let winsys := set_instance_fd inst fd_ zeroed_winsys in
      b ← call (drm_intel_bufmgr_gem_init (fd winsys) batch_size);
      let winsys := set_bufmgr b winsys in
      if negb (bool_decide (is_Some (bufmgr winsys))) then
        call (icd_instance_free inst mem);;
        mret None
      else
        '(ok, winsys) ← probe_winsys winsys;
        if negb ok then
          call (drm_intel_bufmgr_destroy (bufmgr winsys));;
          call (icd_instance_free inst mem);;
          mret None
        else
          call (drm_intel_bufmgr_gem_enable_fenced_relocs (bufmgr winsys));;
          call (drm_intel_bufmgr_gem_enable_reuse (bufmgr winsys));;
          call (drm_intel_bufmgr_gem_set_vma_cache_size (bufmgr winsys) (-1));;
          mret (Some (mem, winsys))
  end.

Definition intel_winsys_destroy (mem : address) (winsys : intel_winsys) : prog unit :=
  call (drm_intel_gem_context_destroy (ctx winsys));;
  call (drm_intel_bufmgr_destroy (bufmgr winsys));;
  call (icd_instance_free (instance winsys) mem).

(** On success the buffer object comes with the values stored to [*tiling]
    and [*pitch]; on failure neither is written.  The size handed to
    [drm_intel_bo_gem_create_from_prime] is the product as the code computes
    it, in unsigned long. *)
Definition intel_winsys_import_handle (winsys : intel_winsys) (name : string)
    (h : intel_winsys_handle) (height : Z) : prog (option (intel_bo * Z * Z)) :=
  bo ← match type h with
       | INTEL_WINSYS_HANDLE_SHARED =>
           let gem_name := to_uint32 (handle h) in
           call (drm_intel_bo_gem_create_from_name (bufmgr winsys) name gem_name)
       | INTEL_WINSYS_HANDLE_FD =>
           let fd_ := to_int32 (handle h) in
           call (drm_intel_bo_gem_create_from_prime (bufmgr winsys) fd_
                   (to_uint64 (height * stride h)))
       | _ => mret None
       end;
  match bo with
  | None => mret None
  | Some bo =>
      '(err, real_tiling, swizzle) ← call (drm_intel_bo_get_tiling bo);
      if truthy err then
        call (drm_intel_bo_unreference bo);;
        mret None
      else mret (Some (bo, real_tiling, stride h))
  end.

(** Returns the status and the handle structure as the call leaves it. *)
Definition intel_winsys_export_handle (winsys : intel_winsys) (bo : intel_bo)
    (tiling : intel_tiling_mode) (pitch height : Z) (h : intel_winsys_handle)
    : prog (Z * intel_winsys_handle) :=
  '(err, h) ← match type h with
              | INTEL_WINSYS_HANDLE_SHARED =>
                  '(err, name) ← call (drm_intel_bo_flink (gem_bo bo));
                  mret (err, if negb (truthy err) then set_handle name h else h)
              | INTEL_WINSYS_HANDLE_KMS =>
                  v ← load (gem_bo bo) bo_handle;
                  mret (0, set_handle v h)
              | INTEL_WINSYS_HANDLE_FD =>
                  '(err, fd_) ← call (drm_intel_bo_gem_export_to_prime (gem_bo bo));
                  mret (err, if negb (truthy err) then set_handle fd_ h else h)
              | _ => mret (- EINVAL, h)
              end;
  if truthy err then mret (err, h) else mret (0, set_stride pitch h).

Definition intel_winsys_can_submit_bo (winsys : intel_winsys)
    (bo_array : list intel_bo) (count : Z) : prog bool :=
  r ← call (drm_intel_bufmgr_check_aperture_space bo_array count);
  mret (negb (truthy r)).

(** [exec_flags] is an [unsigned long]; libdrm declares the last parameter
    of both execution calls as [unsigned int flags] (intel_bufmgr.h, which is
    not under src/), so the value is converted to 32 bits on the way in. *)
Definition intel_winsys_submit_bo (winsys : intel_winsys) (ring : Z)
    (bo : intel_bo) (used flags : Z) : prog Z :=
  let exec_flags := Z.lor (to_uint64 ring) flags in
  (* logical contexts are only available for the render ring *)
  let c := if ring =? INTEL_RING_RENDER then ctx winsys else None in
  match c with
  | Some c =>
      call (drm_intel_gem_bo_context_exec (gem_bo bo) c used (to_uint32 exec_flags))
  | None =>
      call (drm_intel_bo_mrb_exec (gem_bo bo) used None 0 0 (to_uint32 exec_flags))
  end.

Definition intel_bo_ref (bo : option intel_bo) : prog (option intel_bo) :=
  match bo with
  | Some b => call (drm_intel_bo_reference (gem_bo b))
  | None => mret tt
  end;;
  mret bo.

Definition intel_bo_unref (bo : option intel_bo) : prog unit :=
  match bo with
  | Some b => call (drm_intel_bo_unreference (gem_bo b))
  | None => mret tt
  end.

Definition intel_bo_set_tiling (bo : intel_bo) (tiling : intel_tiling_mode)
    (pitch : Z) : prog Z :=
  let real_tiling := to_uint32 (tiling_value tiling) in
  let misaligned :=
    match tiling with
    | INTEL_TILING_X => truthy (pitch mod 512)
    | INTEL_TILING_Y => truthy (pitch mod 128)
    | _ => false
    end in
  if misaligned then mret (-1) else
  '(err, real_tiling) ← call (drm_intel_bo_set_tiling (gem_bo bo) real_tiling pitch);
  if truthy err || negb (real_tiling =? to_uint32 (tiling_value tiling)) then
    assert false "tiling mismatch";;
    mret (-1)
  else mret 0.

(** Returns the status and the value stored to [*presumed_offset]. *)
Definition intel_bo_add_reloc (bo : intel_bo) (offset : Z) (target_bo : intel_bo)
    (target_offset flags : Z) : prog (Z * Z) :=
  let '(read_domains, write_domain) :=
    if truthy (Z.land flags INTEL_RELOC_WRITE) then
      let write_domain :=
        if truthy (Z.land flags INTEL_RELOC_GGTT)
        then I915_GEM_DOMAIN_INSTRUCTION else I915_GEM_DOMAIN_RENDER in
      (write_domain, write_domain)
    else
      (Z.lor (Z.lor (Z.lor I915_GEM_DOMAIN_RENDER I915_GEM_DOMAIN_SAMPLER)
                I915_GEM_DOMAIN_INSTRUCTION) I915_GEM_DOMAIN_VERTEX, 0) in
  err ← (if truthy (Z.land flags INTEL_RELOC_FENCE) then
           call (drm_intel_bo_emit_reloc_fence (gem_bo bo) offset
                   (gem_bo target_bo) target_offset read_domains write_domain)
         else
           call (drm_intel_bo_emit_reloc (gem_bo bo) offset
                   (gem_bo target_bo) target_offset read_domains write_domain));
  base ← load (gem_bo target_bo) offset64;
  mret (err, to_uint64 (base + target_offset)).

Definition intel_bo_wait (bo : intel_bo) (timeout : Z) : prog Z :=
  err ← (if 0 <=? timeout then call (drm_intel_gem_bo_wait (gem_bo bo) timeout)
         else call (drm_intel_bo_wait_rendering (gem_bo bo));; mret 0);
  (* consider the bo idle on errors *)
  mret (if truthy err && negb (err =? - ETIME) then 0 else err).

End Winsys.

(** The pitch passes the alignment test of the given mode. *)
Definition pitch_aligned (tiling : intel_tiling_mode) (pitch : Z) : Prop :=
  match tiling with
  | INTEL_TILING_X => pitch mod 512 = 0
  | INTEL_TILING_Y => pitch mod 128 = 0
  | INTEL_TILING_NONE => True
  end.

(** ** Reading a log *)

(** The access domains a relocation was recorded with. *)
Definition reloc_domains (ev : logged) : option (Z * Z) :=
  match ev with
  | Logged (drm_intel_bo_emit_reloc _ _ _ _ rd wd) _ => Some (rd, wd)
  | Logged (drm_intel_bo_emit_reloc_fence _ _ _ _ rd wd) _ => Some (rd, wd)
  | _ => None
  end.

(** For an execution call: the logical context it was bound to (if any) and
    the execution flags it was given. *)
Definition exec_request (ev : logged) : option (option drm_intel_context * Z) :=
  match ev with
  | Logged (drm_intel_gem_bo_context_exec _ c _ flags) _ => Some (Some c, flags)
  | Logged (drm_intel_bo_mrb_exec _ _ _ _ _ flags) _ => Some (None, flags)
  | _ => None
  end.

(** Things a caller of libdrm and of the instance allocator owns and has to
    give back: a block of memory, a buffer manager, a logical context, a
    reference to a buffer object. *)
Inductive resource : Type :=
| Memory (a : address)
| Manager (b : drm_intel_bufmgr)
| Context (c : drm_intel_context)
| Reference (bo : drm_intel_bo).

#[global] Instance resource_eq_dec : EqDecision resource.
Proof. solve_decision. Defined.

#[global] Instance resource_countable : Countable resource.
Proof.
  refine (inj_countable'
            (fun r => match r with
                      | Memory a => inl (inl a)
                      | Manager b => inl (inr b)
                      | Context c => inr (inl c)
                      | Reference bo => inr (inr bo)
                      end)
            (fun s => match s with
                      | inl (inl a) => Memory a
                      | inl (inr b) => Manager b
                      | inr (inl c) => Context c
                      | inr (inr bo) => Reference bo
                      end) _).
  by intros [].
Defined.

Definition acquired (ev : logged) : option resource :=
  match ev with
  | Logged e x =>
      match e in drmE X return X -> option resource with
      | icd_instance_alloc _ _ _ _ => fun a => Memory <$> a
      | drm_intel_bufmgr_gem_init _ _ => fun b => Manager <$> b
      | drm_intel_gem_context_create _ => fun c => Context <$> c
      | drm_intel_bo_alloc_tiled _ _ _ _ _ _ _ => fun bo => Reference <$> bo
      | drm_intel_bo_gem_create_from_name _ _ _ => fun bo => Reference <$> bo
      | drm_intel_bo_gem_create_from_prime _ _ _ => fun bo => Reference <$> bo
      | drm_intel_bo_reference bo => fun _ => Some (Reference bo)
      | _ => fun _ => None
      end x
  end.

Definition released (ev : logged) : option resource :=
  match ev with
  | Logged (icd_instance_free _ a) _ => Some (Memory a)
  | Logged (drm_intel_bufmgr_destroy b) _ => Manager <$> b
  | Logged (drm_intel_gem_context_destroy c) _ => Context <$> c
  | Logged (drm_intel_bo_unreference bo) _ => Some (Reference bo)
  | _ => None
  end.

(** Book-keeping of one call: what it hands out is added, what it takes back
    is removed. *)
Definition account (held : gmultiset resource) (ev : logged) : gmultiset resource :=
  let held := match acquired ev with Some r => held ⊎ {[+ r +]} | None => held end in
  match released ev with Some r => held ∖ {[+ r +]} | None => held end.

(** What is still owned after a log of calls, starting from [held]. *)
Definition outstanding (held : gmultiset resource) (log : list logged) : gmultiset resource :=
  foldl account held log.

(** A log that gives back all it took. *)
Definition neutral (log : list logged) : Prop :=
  forall held, outstanding held log = held.

(** Answers that make the construction of a winsys fail: no memory for the
    structure, no buffer manager, no aperture sizes, no logical context. *)
Definition refused (ev : logged) : bool :=
  match ev with
  | Logged e x =>
      match e in drmE X return X -> bool with
      | icd_instance_alloc _ _ _ _ => fun a => negb (bool_decide (is_Some a))
      | drm_intel_bufmgr_gem_init _ _ => fun b => negb (bool_decide (is_Some b))
      | drm_intel_get_aperture_sizes _ => fun r => truthy r.1.1
      | drm_intel_gem_context_create _ => fun c => negb (bool_decide (is_Some c))
      | _ => fun _ => false
      end x
  end.

(** A capability query that failed or reported 0. *)
Definition capability_absent (ev : logged) : bool :=
  match ev with
  | Logged e x =>
      match e in drmE X return X -> bool with
      | drmCommandWriteRead_getparam _ _ _ => fun r => truthy r.1 || (r.2 =? 0)
      | _ => fun _ => false
      end x
  end.

(** The probe starts with the query for the one capability it insists on. *)
Definition probe_refused (log : list logged) : bool :=
  from_option capability_absent false (head log) || existsb refused log.

(** In the log of [intel_winsys_create_for_fd] the probe begins at the third
    call, after the allocation and the creation of the buffer manager. *)
Definition construction_failed (log : list logged) : bool :=
  existsb refused (take 2 log) || probe_refused (drop 2 log).

(** ** The aperture check, as the specification describes it *)

(** The buffer objects handed to a capacity check: the first [count] entries
    of the array. *)
Definition working_set (bo_array : list drm_intel_bo) (count : Z) : list drm_intel_bo :=
  take (Z.to_nat count) bo_array.

(** Total size of a working set, every buffer object counted once however
    often it is listed. *)
Definition deduplicated_size (size_of : drm_intel_bo -> Z) (bos : list drm_intel_bo) : Z :=
  foldr Z.add 0 (size_of <$> remove_dups bos).

(** Modelled from the spec: [drm_intel_bufmgr_check_aperture_space] belongs to
    libdrm and is not among the sources.  The specification says the working
    set fits when its deduplicated total size does not exceed the aperture;
    libdrm reports that with 0 and anything else with a non-zero status. *)
Definition check_aperture_space_spec (size_of : drm_intel_bo -> Z) (aperture : Z)
    (bo_array : list drm_intel_bo) (count : Z) (status : Z) : Prop :=
  status = 0 <-> deduplicated_size size_of (working_set bo_array count) <= aperture.

(** ** A simulated device

    A small executable libdrm, used to run the winsys on concrete inputs.  It
    keeps a table of buffer objects, hands out fresh addresses, answers
    capability queries from a table, and can be told to misbehave: to refuse
    to create a buffer manager, to apply another tiling than the one asked
    for, to keep a buffer object busy. *)

Record sim_bo : Type := {
  refcount : Z;
  bo_size : Z;
  gpu_address : Z;
  bo_tiling : Z
}.

Record sim : Type := {
  objects : gmap drm_intel_bo sim_bo;
  next_address : positive;
  getparam_table : gmap Z Z;
  gtt_mappable : Z;
  gtt_total : Z;
  manager_available : bool;
  forced_tiling : option Z;
  busy_for : gmap drm_intel_bo Z
}.

Definition advance (s : sim) : sim :=
  {| objects := objects s; next_address := Pos.succ (next_address s);
     getparam_table := getparam_table s; gtt_mappable := gtt_mappable s;
     gtt_total := gtt_total s; manager_available := manager_available s;
     forced_tiling := forced_tiling s; busy_for := busy_for s |}.

Definition with_objects (f : gmap drm_intel_bo sim_bo -> gmap drm_intel_bo sim_bo)
    (s : sim) : sim :=
  {| objects := f (objects s); next_address := next_address s;
     getparam_table := getparam_table s; gtt_mappable := gtt_mappable s;
     gtt_total := gtt_total s; manager_available := manager_available s;
     forced_tiling := forced_tiling s; busy_for := busy_for s |}.

Definition sim_size (s : sim) (bo : drm_intel_bo) : Z :=
  default 0 (bo_size <$> objects s !! bo).

Definition retain (o : sim_bo) : sim_bo :=
  {| refcount := refcount o + 1; bo_size := bo_size o;
     gpu_address := gpu_address o; bo_tiling := bo_tiling o |}.

Definition release_ref (o : sim_bo) : option sim_bo :=
  if refcount o <=? 1 then None
  else Some {| refcount := refcount o - 1; bo_size := bo_size o;
               gpu_address := gpu_address o; bo_tiling := bo_tiling o |}.

Definition retile (t : Z) (o : sim_bo) : sim_bo :=
  {| refcount := refcount o; bo_size := bo_size o;
     gpu_address := gpu_address o; bo_tiling := t |}.

Definition sim_respond `{Headers} (X : Type) (e : drmE X) (s : sim) : X * sim :=
  match e in drmE X return X * sim with
  | icd_instance_alloc _ _ _ _ => (Some (next_address s), advance s)
  | icd_instance_free _ _ => (tt, s)
  | drmCommandWriteRead_getparam _ _ param =>
      match getparam_table s !! param with
      | Some v => ((0, v), s)
      | None => ((- EINVAL, 0), s)
      end
  | drm_intel_bufmgr_gem_init _ _ =>
      if manager_available s then (Some (next_address s), advance s) else (None, s)
  | drm_intel_bufmgr_destroy _ => (tt, s)
  | drm_intel_bufmgr_gem_get_devid _ => (0x0166, s)
  | drm_intel_bufmgr_gem_enable_fenced_relocs _ => (tt, s)
  | drm_intel_bufmgr_gem_enable_reuse _ => (tt, s)
  | drm_intel_bufmgr_gem_set_vma_cache_size _ _ => (tt, s)
  | drm_intel_get_aperture_sizes _ => ((0, gtt_mappable s, gtt_total s), s)
  | drm_intel_reg_read _ _ => ((0, 0), s)
  | drm_intel_gem_context_create _ => (Some (next_address s), advance s)
  | drm_intel_gem_context_destroy _ => (tt, s)
  | drm_intel_bo_alloc_tiled _ _ x y cpp tiling _ =>
      let o := {| refcount := 1; bo_size := x * y * cpp;
                  gpu_address := 0; bo_tiling := tiling |} in
      (Some (next_address s), with_objects <[next_address s := o]> (advance s))
  | drm_intel_bo_get_tiling bo =>
      match objects s !! bo with
      | Some o => ((0, bo_tiling o, I915_BIT_6_SWIZZLE_NONE), s)
      | None => ((- EINVAL, 0, I915_BIT_6_SWIZZLE_NONE), s)
      end
  | drm_intel_bo_set_tiling bo tiling _ =>
      match objects s !! bo with
      | Some o =>
          let applied := default tiling (forced_tiling s) in
          ((0, applied), with_objects <[bo := retile applied o]> s)
      | None => ((- EINVAL, tiling), s)
      end
  | drm_intel_bo_reference bo => (tt, with_objects (alter retain bo) s)
  | drm_intel_bo_unreference bo =>
      (tt, with_objects (fun m => match m !! bo with
                                  | Some o => match release_ref o with
                                              | Some o' => <[bo := o']> m
                                              | None => delete bo m
                                              end
                                  | None => m
                                  end) s)
  | drm_intel_bo_gem_create_from_name _ _ gem_name =>
      match Z.to_pos gem_name with
      | bo => if bool_decide (is_Some (objects s !! bo))
              then (Some bo, with_objects (alter retain bo) s) else (None, s)
      end
  | drm_intel_bo_gem_create_from_prime _ prime_fd _ =>
      match Z.to_pos prime_fd with
      | bo => if bool_decide (is_Some (objects s !! bo))
              then (Some bo, with_objects (alter retain bo) s) else (None, s)
      end
  | drm_intel_bo_flink bo => ((0, Z.pos bo), s)
  | drm_intel_bo_gem_export_to_prime bo => ((0, Z.pos bo), s)
  | drm_intel_bufmgr_check_aperture_space bo_array count =>
      (if bool_decide (deduplicated_size (sim_size s) (working_set bo_array count)
                       <= gtt_total s)
       then 0 else -28, s)
  | drm_intel_gem_bo_context_exec _ _ _ _ => (0, s)
  | drm_intel_bo_mrb_exec _ _ _ _ _ _ => (0, s)
  | drm_intel_bo_emit_reloc _ _ _ _ _ _ => (0, s)
  | drm_intel_bo_emit_reloc_fence _ _ _ _ _ _ => (0, s)
  | drm_intel_gem_bo_wait bo timeout_ns =>
      (if timeout_ns <? default 0 (busy_for s !! bo) then - ETIME else 0, s)
  | drm_intel_bo_wait_rendering _ => (tt, s)
  end.

Definition sim_field (s : sim) (bo : drm_intel_bo) (f : bo_field) : Z :=
  match f with
  | offset64 => default 0 (gpu_address <$> objects s !! bo)
  | bo_handle => Z.pos bo
  end.

Definition simulator `{Headers} : libdrm :=
  {| world := sim; respond := sim_respond; field := sim_field |}.

(** The constants as Linux on x86-64 defines them, assertions enabled. *)
#[global, refine] Instance i915_abi : Headers :=
  {| INTEL_RELOC_FENCE := 1;
     INTEL_RELOC_GGTT := 2;
     INTEL_RELOC_WRITE := 4;
     INTEL_RING_RENDER := 1;
     tiling_value := fun t => match t with
                              | INTEL_TILING_NONE => 0
                              | INTEL_TILING_X => 1
                              | INTEL_TILING_Y => 2
                              end;
     I915_GEM_DOMAIN_RENDER := 0x2;
     I915_GEM_DOMAIN_SAMPLER := 0x4;
     I915_GEM_DOMAIN_INSTRUCTION := 0x10;
     I915_GEM_DOMAIN_VERTEX := 0x20;
     I915_TILING_X := 1;
     I915_BIT_6_SWIZZLE_NONE := 0;
     DRM_I915_GETPARAM := 0x06;
     I915_PARAM_HAS_RELAXED_DELTA := 15;
     I915_PARAM_HAS_LLC := 17;
     I915_PARAM_HAS_ALIASING_PPGTT := 18;
     I915_PARAM_HAS_GEN7_SOL_RESET := 16;
     ETIME := 62;
     EINVAL := 22;
     VK_SYSTEM_ALLOC_INTERNAL := 1;
     sizeof_intel_winsys := 96;
     NDEBUG := false |}.
Proof. by intros [] [] ?. Defined.

(** The same build with assertions compiled out. *)
#[refine] Definition i915_abi_release : Headers :=
  {| INTEL_RELOC_FENCE := 1;
     INTEL_RELOC_GGTT := 2;
     INTEL_RELOC_WRITE := 4;
     INTEL_RING_RENDER := 1;
     tiling_value := @tiling_value i915_abi;
     I915_GEM_DOMAIN_RENDER := 0x2;
     I915_GEM_DOMAIN_SAMPLER := 0x4;
     I915_GEM_DOMAIN_INSTRUCTION := 0x10;
     I915_GEM_DOMAIN_VERTEX := 0x20;
     I915_TILING_X := 1;
     I915_BIT_6_SWIZZLE_NONE := 0;
     DRM_I915_GETPARAM := 0x06;
     I915_PARAM_HAS_RELAXED_DELTA := 15;
     I915_PARAM_HAS_LLC := 17;
     I915_PARAM_HAS_ALIASING_PPGTT := 18;
     I915_PARAM_HAS_GEN7_SOL_RESET := 16;
     ETIME := 62;
     EINVAL := 22;
     VK_SYSTEM_ALLOC_INTERNAL := 1;
     sizeof_intel_winsys := 96;
     NDEBUG := true |}.
Proof. apply (@tiling_value_inj i915_abi). Defined.

(** A device with two buffer objects: one of 4096 bytes at GPU address
    0x10000 and one of 8192 bytes at 0x20000; an aperture of 12288 bytes. *)
Definition two_buffers : gmap drm_intel_bo sim_bo :=
  <[1%positive := {| refcount := 1; bo_size := 4096; gpu_address := 0x10000; bo_tiling := 0 |}]>
  (<[2%positive := {| refcount := 1; bo_size := 8192; gpu_address := 0x20000; bo_tiling := 0 |}]> ∅).

Definition sim0 : sim :=
  {| objects := two_buffers; next_address := 100;
     getparam_table := <[15 := 1]> (<[17 := 1]> (<[18 := 1]> (<[16 := 1]> ∅)));
     gtt_mappable := 12288; gtt_total := 12288; manager_available := true;
     forced_tiling := None; busy_for := ∅ |}.

(** The same device in four kinds of trouble: the buffer manager cannot be
    created; the kernel lacks the relaxed-delta capability; the kernel applies
    linear tiling whatever is asked for; buffer object 1 stays busy for 5000
    ns. *)
Definition sim_no_manager : sim :=
  {| objects := two_buffers; next_address := 100;
     getparam_table := getparam_table sim0;
     gtt_mappable := 12288; gtt_total := 12288; manager_available := false;
     forced_tiling := None; busy_for := ∅ |}.

Definition sim_no_relaxed_delta : sim :=
  {| objects := two_buffers; next_address := 100;
     getparam_table := delete 15 (getparam_table sim0);
     gtt_mappable := 12288; gtt_total := 12288; manager_available := true;
     forced_tiling := None; busy_for := ∅ |}.

Definition sim_downgrading : sim :=
  {| objects := two_buffers; next_address := 100;
     getparam_table := getparam_table sim0;
     gtt_mappable := 12288; gtt_total := 12288; manager_available := true;
     forced_tiling := Some 0; busy_for := ∅ |}.

Definition sim_busy : sim :=
  {| objects := two_buffers; next_address := 100;
     getparam_table := getparam_table sim0;
     gtt_mappable := 12288; gtt_total := 12288; manager_available := true;
     forced_tiling := None; busy_for := <[1%positive := 5000]> ∅ |}.

(** A winsys on the render context 9. *)
Definition winsys9 : intel_winsys :=
  {| instance := 7; fd := 3; bufmgr := Some 8%positive; info := zeroed_info;
     ctx := Some 9%positive |}.

(** A third buffer object of one byte, which no longer fits next to the
    other two. *)
Definition sim_one_byte_over : sim :=
  with_objects
    <[3%positive := {| refcount := 1; bo_size := 1; gpu_address := 0x30000;
                       bo_tiling := 0 |}]> sim0.

(** ** Pixel formats: [src/icd/common/icd-format.c]

    [VK_FORMAT] and [VK_IMAGE_FORMAT_CLASS] are declared in vulkan.h, which is
    not among the sources; their enumerators are taken from the places that
    name them: every entry of [icd_format_table] for the former, the [return]
    statements of [icd_format_get_class] for the latter. *)
Inductive VK_FORMAT : Type :=
| VK_FMT_UNDEFINED
| VK_FMT_R4G4_UNORM
| VK_FMT_R4G4_USCALED
| VK_FMT_R4G4B4A4_UNORM
| VK_FMT_R4G4B4A4_USCALED
| VK_FMT_R5G6B5_UNORM
| VK_FMT_R5G6B5_USCALED
| VK_FMT_R5G5B5A1_UNORM
| VK_FMT_R5G5B5A1_USCALED
| VK_FMT_R8_UNORM
| VK_FMT_R8_SNORM
| VK_FMT_R8_USCALED
| VK_FMT_R8_SSCALED
| VK_FMT_R8_UINT
| VK_FMT_R8_SINT
| VK_FMT_R8_SRGB
| VK_FMT_R8G8_UNORM
| VK_FMT_R8G8_SNORM
| VK_FMT_R8G8_USCALED
| VK_FMT_R8G8_SSCALED
| VK_FMT_R8G8_UINT
| VK_FMT_R8G8_SINT
| VK_FMT_R8G8_SRGB
| VK_FMT_R8G8B8_UNORM
| VK_FMT_R8G8B8_SNORM
| VK_FMT_R8G8B8_USCALED
| VK_FMT_R8G8B8_SSCALED
| VK_FMT_R8G8B8_UINT
| VK_FMT_R8G8B8_SINT
| VK_FMT_R8G8B8_SRGB
| VK_FMT_R8G8B8A8_UNORM
| VK_FMT_R8G8B8A8_SNORM
| VK_FMT_R8G8B8A8_USCALED
| VK_FMT_R8G8B8A8_SSCALED
| VK_FMT_R8G8B8A8_UINT
| VK_FMT_R8G8B8A8_SINT
| VK_FMT_R8G8B8A8_SRGB
| VK_FMT_R10G10B10A2_UNORM
| VK_FMT_R10G10B10A2_SNORM
| VK_FMT_R10G10B10A2_USCALED
| VK_FMT_R10G10B10A2_SSCALED
| VK_FMT_R10G10B10A2_UINT
| VK_FMT_R10G10B10A2_SINT
| VK_FMT_R16_UNORM
| VK_FMT_R16_SNORM
| VK_FMT_R16_USCALED
| VK_FMT_R16_SSCALED
| VK_FMT_R16_UINT
| VK_FMT_R16_SINT
| VK_FMT_R16_SFLOAT
| VK_FMT_R16G16_UNORM
| VK_FMT_R16G16_SNORM
| VK_FMT_R16G16_USCALED
| VK_FMT_R16G16_SSCALED
| VK_FMT_R16G16_UINT
| VK_FMT_R16G16_SINT
| VK_FMT_R16G16_SFLOAT
| VK_FMT_R16G16B16_UNORM
| VK_FMT_R16G16B16_SNORM
| VK_FMT_R16G16B16_USCALED
| VK_FMT_R16G16B16_SSCALED
| VK_FMT_R16G16B16_UINT
| VK_FMT_R16G16B16_SINT
| VK_FMT_R16G16B16_SFLOAT
| VK_FMT_R16G16B16A16_UNORM
| VK_FMT_R16G16B16A16_SNORM
| VK_FMT_R16G16B16A16_USCALED
| VK_FMT_R16G16B16A16_SSCALED
| VK_FMT_R16G16B16A16_UINT
| VK_FMT_R16G16B16A16_SINT
| VK_FMT_R16G16B16A16_SFLOAT
| VK_FMT_R32_UINT
| VK_FMT_R32_SINT
| VK_FMT_R32_SFLOAT
| VK_FMT_R32G32_UINT
| VK_FMT_R32G32_SINT
| VK_FMT_R32G32_SFLOAT
| VK_FMT_R32G32B32_UINT
| VK_FMT_R32G32B32_SINT
| VK_FMT_R32G32B32_SFLOAT
| VK_FMT_R32G32B32A32_UINT
| VK_FMT_R32G32B32A32_SINT
| VK_FMT_R32G32B32A32_SFLOAT
| VK_FMT_R64_SFLOAT
| VK_FMT_R64G64_SFLOAT
| VK_FMT_R64G64B64_SFLOAT
| VK_FMT_R64G64B64A64_SFLOAT
| VK_FMT_R11G11B10_UFLOAT
| VK_FMT_R9G9B9E5_UFLOAT
| VK_FMT_D16_UNORM
| VK_FMT_D24_UNORM
| VK_FMT_D32_SFLOAT
| VK_FMT_S8_UINT
| VK_FMT_D16_UNORM_S8_UINT
| VK_FMT_D24_UNORM_S8_UINT
| VK_FMT_D32_SFLOAT_S8_UINT
| VK_FMT_BC1_RGB_UNORM
| VK_FMT_BC1_RGB_SRGB
| VK_FMT_BC1_RGBA_UNORM
| VK_FMT_BC1_RGBA_SRGB
| VK_FMT_BC2_UNORM
| VK_FMT_BC2_SRGB
| VK_FMT_BC3_UNORM
| VK_FMT_BC3_SRGB
| VK_FMT_BC4_UNORM
| VK_FMT_BC4_SNORM
| VK_FMT_BC5_UNORM
| VK_FMT_BC5_SNORM
| VK_FMT_BC6H_UFLOAT
| VK_FMT_BC6H_SFLOAT
| VK_FMT_BC7_UNORM
| VK_FMT_BC7_SRGB
| VK_FMT_ETC2_R8G8B8_UNORM
| VK_FMT_ETC2_R8G8B8A1_UNORM
| VK_FMT_ETC2_R8G8B8A8_UNORM
| VK_FMT_EAC_R11_UNORM
| VK_FMT_EAC_R11_SNORM
| VK_FMT_EAC_R11G11_UNORM
| VK_FMT_EAC_R11G11_SNORM
| VK_FMT_ASTC_4x4_UNORM
| VK_FMT_ASTC_4x4_SRGB
| VK_FMT_ASTC_5x4_UNORM
| VK_FMT_ASTC_5x4_SRGB
| VK_FMT_ASTC_5x5_UNORM
| VK_FMT_ASTC_5x5_SRGB
| VK_FMT_ASTC_6x5_UNORM
| VK_FMT_ASTC_6x5_SRGB
| VK_FMT_ASTC_6x6_UNORM
| VK_FMT_ASTC_6x6_SRGB
| VK_FMT_ASTC_8x5_UNORM
| VK_FMT_ASTC_8x5_SRGB
| VK_FMT_ASTC_8x6_UNORM
| VK_FMT_ASTC_8x6_SRGB
| VK_FMT_ASTC_8x8_UNORM
| VK_FMT_ASTC_8x8_SRGB
| VK_FMT_ASTC_10x5_UNORM
| VK_FMT_ASTC_10x5_SRGB
| VK_FMT_ASTC_10x6_UNORM
| VK_FMT_ASTC_10x6_SRGB
| VK_FMT_ASTC_10x8_UNORM
| VK_FMT_ASTC_10x8_SRGB
| VK_FMT_ASTC_10x10_UNORM
| VK_FMT_ASTC_10x10_SRGB
| VK_FMT_ASTC_12x10_UNORM
| VK_FMT_ASTC_12x10_SRGB
| VK_FMT_ASTC_12x12_UNORM
| VK_FMT_ASTC_12x12_SRGB
| VK_FMT_B5G6R5_UNORM
| VK_FMT_B5G6R5_USCALED
| VK_FMT_B8G8R8_UNORM
| VK_FMT_B8G8R8_SNORM
| VK_FMT_B8G8R8_USCALED
| VK_FMT_B8G8R8_SSCALED
| VK_FMT_B8G8R8_UINT
| VK_FMT_B8G8R8_SINT
| VK_FMT_B8G8R8_SRGB
| VK_FMT_B8G8R8A8_UNORM
| VK_FMT_B8G8R8A8_SNORM
| VK_FMT_B8G8R8A8_USCALED
| VK_FMT_B8G8R8A8_SSCALED
| VK_FMT_B8G8R8A8_UINT
| VK_FMT_B8G8R8A8_SINT
| VK_FMT_B8G8R8A8_SRGB
| VK_FMT_B10G10R10A2_UNORM
| VK_FMT_B10G10R10A2_SNORM
| VK_FMT_B10G10R10A2_USCALED
| VK_FMT_B10G10R10A2_SSCALED
| VK_FMT_B10G10R10A2_UINT
| VK_FMT_B10G10R10A2_SINT.

Inductive VK_IMAGE_FORMAT_CLASS : Type :=
| VK_IMAGE_FORMAT_CLASS_128_BIT_BLOCK
| VK_IMAGE_FORMAT_CLASS_64_BIT_BLOCK
| VK_IMAGE_FORMAT_CLASS_128_BITS
| VK_IMAGE_FORMAT_CLASS_96_BITS
| VK_IMAGE_FORMAT_CLASS_64_BITS
| VK_IMAGE_FORMAT_CLASS_48_BITS
| VK_IMAGE_FORMAT_CLASS_32_BITS
| VK_IMAGE_FORMAT_CLASS_24_BITS
| VK_IMAGE_FORMAT_CLASS_16_BITS
| VK_IMAGE_FORMAT_CLASS_8_BITS
| VK_IMAGE_FORMAT_CLASS_D32S8
| VK_IMAGE_FORMAT_CLASS_D24S8
| VK_IMAGE_FORMAT_CLASS_D32
| VK_IMAGE_FORMAT_CLASS_D24
| VK_IMAGE_FORMAT_CLASS_D16S8
| VK_IMAGE_FORMAT_CLASS_D16
| VK_IMAGE_FORMAT_CLASS_S8.

Record icd_format_info : Type := {
  format_size : Z;
  channel_count : Z
}.

Definition icd_format_table (format : VK_FORMAT) : icd_format_info :=
  match format with
  | VK_FMT_UNDEFINED => {| format_size := 0; channel_count := 0 |}
  | VK_FMT_R4G4_UNORM => {| format_size := 1; channel_count := 2 |}
  | VK_FMT_R4G4_USCALED => {| format_size := 1; channel_count := 2 |}
  | VK_FMT_R4G4B4A4_UNORM => {| format_size := 2; channel_count := 4 |}
  | VK_FMT_R4G4B4A4_USCALED => {| format_size := 2; channel_count := 4 |}
  | VK_FMT_R5G6B5_UNORM => {| format_size := 2; channel_count := 3 |}
  | VK_FMT_R5G6B5_USCALED => {| format_size := 2; channel_count := 3 |}
  | VK_FMT_R5G5B5A1_UNORM => {| format_size := 2; channel_count := 4 |}
  | VK_FMT_R5G5B5A1_USCALED => {| format_size := 2; channel_count := 4 |}
  | VK_FMT_R8_UNORM => {| format_size := 1; channel_count := 1 |}
  | VK_FMT_R8_SNORM => {| format_size := 1; channel_count := 1 |}
  | VK_FMT_R8_USCALED => {| format_size := 1; channel_count := 1 |}
  | VK_FMT_R8_SSCALED => {| format_size := 1; channel_count := 1 |}
  | VK_FMT_R8_UINT => {| format_size := 1; channel_count := 1 |}
  | VK_FMT_R8_SINT => {| format_size := 1; channel_count := 1 |}
  | VK_FMT_R8_SRGB => {| format_size := 1; channel_count := 1 |}
  | VK_FMT_R8G8_UNORM => {| format_size := 2; channel_count := 2 |}
  | VK_FMT_R8G8_SNORM => {| format_size := 2; channel_count := 2 |}
  | VK_FMT_R8G8_USCALED => {| format_size := 2; channel_count := 2 |}
  | VK_FMT_R8G8_SSCALED => {| format_size := 2; channel_count := 2 |}
  | VK_FMT_R8G8_UINT => {| format_size := 2; channel_count := 2 |}
  | VK_FMT_R8G8_SINT => {| format_size := 2; channel_count := 2 |}
  | VK_FMT_R8G8_SRGB => {| format_size := 2; channel_count := 2 |}
  | VK_FMT_R8G8B8_UNORM => {| format_size := 3; channel_count := 3 |}
  | VK_FMT_R8G8B8_SNORM => {| format_size := 3; channel_count := 3 |}
  | VK_FMT_R8G8B8_USCALED => {| format_size := 3; channel_count := 3 |}
  | VK_FMT_R8G8B8_SSCALED => {| format_size := 3; channel_count := 3 |}
  | VK_FMT_R8G8B8_UINT => {| format_size := 3; channel_count := 3 |}
  | VK_FMT_R8G8B8_SINT => {| format_size := 3; channel_count := 3 |}
  | VK_FMT_R8G8B8_SRGB => {| format_size := 3; channel_count := 3 |}
  | VK_FMT_R8G8B8A8_UNORM => {| format_size := 4; channel_count := 4 |}
  | VK_FMT_R8G8B8A8_SNORM => {| format_size := 4; channel_count := 4 |}
  | VK_FMT_R8G8B8A8_USCALED => {| format_size := 4; channel_count := 4 |}
  | VK_FMT_R8G8B8A8_SSCALED => {| format_size := 4; channel_count := 4 |}
  | VK_FMT_R8G8B8A8_UINT => {| format_size := 4; channel_count := 4 |}
  | VK_FMT_R8G8B8A8_SINT => {| format_size := 4; channel_count := 4 |}
  | VK_FMT_R8G8B8A8_SRGB => {| format_size := 4; channel_count := 4 |}
  | VK_FMT_R10G10B10A2_UNORM => {| format_size := 4; channel_count := 4 |}
  | VK_FMT_R10G10B10A2_SNORM => {| format_size := 4; channel_count := 4 |}
  | VK_FMT_R10G10B10A2_USCALED => {| format_size := 4; channel_count := 4 |}
  | VK_FMT_R10G10B10A2_SSCALED => {| format_size := 4; channel_count := 4 |}
  | VK_FMT_R10G10B10A2_UINT => {| format_size := 4; channel_count := 4 |}
  | VK_FMT_R10G10B10A2_SINT => {| format_size := 4; channel_count := 4 |}
  | VK_FMT_R16_UNORM => {| format_size := 2; channel_count := 1 |}
  | VK_FMT_R16_SNORM => {| format_size := 2; channel_count := 1 |}
  | VK_FMT_R16_USCALED => {| format_size := 2; channel_count := 1 |}
  | VK_FMT_R16_SSCALED => {| format_size := 2; channel_count := 1 |}
  | VK_FMT_R16_UINT => {| format_size := 2; channel_count := 1 |}
  | VK_FMT_R16_SINT => {| format_size := 2; channel_count := 1 |}
  | VK_FMT_R16_SFLOAT => {| format_size := 2; channel_count := 1 |}
  | VK_FMT_R16G16_UNORM => {| format_size := 4; channel_count := 2 |}
  | VK_FMT_R16G16_SNORM => {| format_size := 4; channel_count := 2 |}
  | VK_FMT_R16G16_USCALED => {| format_size := 4; channel_count := 2 |}
  | VK_FMT_R16G16_SSCALED => {| format_size := 4; channel_count := 2 |}
  | VK_FMT_R16G16_UINT => {| format_size := 4; channel_count := 2 |}
  | VK_FMT_R16G16_SINT => {| format_size := 4; channel_count := 2 |}
  | VK_FMT_R16G16_SFLOAT => {| format_size := 4; channel_count := 2 |}
  | VK_FMT_R16G16B16_UNORM => {| format_size := 6; channel_count := 3 |}
  | VK_FMT_R16G16B16_SNORM => {| format_size := 6; channel_count := 3 |}
  | VK_FMT_R16G16B16_USCALED => {| format_size := 6; channel_count := 3 |}
  | VK_FMT_R16G16B16_SSCALED => {| format_size := 6; channel_count := 3 |}
  | VK_FMT_R16G16B16_UINT => {| format_size := 6; channel_count := 3 |}
  | VK_FMT_R16G16B16_SINT => {| format_size := 6; channel_count := 3 |}
  | VK_FMT_R16G16B16_SFLOAT => {| format_size := 6; channel_count := 3 |}
  | VK_FMT_R16G16B16A16_UNORM => {| format_size := 8; channel_count := 4 |}
  | VK_FMT_R16G16B16A16_SNORM => {| format_size := 8; channel_count := 4 |}
  | VK_FMT_R16G16B16A16_USCALED => {| format_size := 8; channel_count := 4 |}
  | VK_FMT_R16G16B16A16_SSCALED => {| format_size := 8; channel_count := 4 |}
  | VK_FMT_R16G16B16A16_UINT => {| format_size := 8; channel_count := 4 |}
  | VK_FMT_R16G16B16A16_SINT => {| format_size := 8; channel_count := 4 |}
  | VK_FMT_R16G16B16A16_SFLOAT => {| format_size := 8; channel_count := 4 |}
  | VK_FMT_R32_UINT => {| format_size := 4; channel_count := 1 |}
  | VK_FMT_R32_SINT => {| format_size := 4; channel_count := 1 |}
  | VK_FMT_R32_SFLOAT => {| format_size := 4; channel_count := 1 |}
  | VK_FMT_R32G32_UINT => {| format_size := 8; channel_count := 2 |}
  | VK_FMT_R32G32_SINT => {| format_size := 8; channel_count := 2 |}
  | VK_FMT_R32G32_SFLOAT => {| format_size := 8; channel_count := 2 |}
  | VK_FMT_R32G32B32_UINT => {| format_size := 12; channel_count := 3 |}
  | VK_FMT_R32G32B32_SINT => {| format_size := 12; channel_count := 3 |}
  | VK_FMT_R32G32B32_SFLOAT => {| format_size := 12; channel_count := 3 |}
  | VK_FMT_R32G32B32A32_UINT => {| format_size := 16; channel_count := 4 |}
  | VK_FMT_R32G32B32A32_SINT => {| format_size := 16; channel_count := 4 |}
  | VK_FMT_R32G32B32A32_SFLOAT => {| format_size := 16; channel_count := 4 |}
  | VK_FMT_R64_SFLOAT => {| format_size := 8; channel_count := 1 |}
  | VK_FMT_R64G64_SFLOAT => {| format_size := 16; channel_count := 2 |}
  | VK_FMT_R64G64B64_SFLOAT => {| format_size := 24; channel_count := 3 |}
  | VK_FMT_R64G64B64A64_SFLOAT => {| format_size := 32; channel_count := 4 |}
  | VK_FMT_R11G11B10_UFLOAT => {| format_size := 4; channel_count := 3 |}
  | VK_FMT_R9G9B9E5_UFLOAT => {| format_size := 4; channel_count := 3 |}
  | VK_FMT_D16_UNORM => {| format_size := 2; channel_count := 1 |}
  | VK_FMT_D24_UNORM => {| format_size := 3; channel_count := 1 |}
  | VK_FMT_D32_SFLOAT => {| format_size := 4; channel_count := 1 |}
  | VK_FMT_S8_UINT => {| format_size := 1; channel_count := 1 |}
  | VK_FMT_D16_UNORM_S8_UINT => {| format_size := 3; channel_count := 2 |}
  | VK_FMT_D24_UNORM_S8_UINT => {| format_size := 4; channel_count := 2 |}
  | VK_FMT_D32_SFLOAT_S8_UINT => {| format_size := 4; channel_count := 2 |}
  | VK_FMT_BC1_RGB_UNORM => {| format_size := 8; channel_count := 4 |}
  | VK_FMT_BC1_RGB_SRGB => {| format_size := 8; channel_count := 4 |}
  | VK_FMT_BC1_RGBA_UNORM => {| format_size := 8; channel_count := 4 |}
  | VK_FMT_BC1_RGBA_SRGB => {| format_size := 8; channel_count := 4 |}
  | VK_FMT_BC2_UNORM => {| format_size := 16; channel_count := 4 |}
  | VK_FMT_BC2_SRGB => {| format_size := 16; channel_count := 4 |}
  | VK_FMT_BC3_UNORM => {| format_size := 16; channel_count := 4 |}
  | VK_FMT_BC3_SRGB => {| format_size := 16; channel_count := 4 |}
  | VK_FMT_BC4_UNORM => {| format_size := 8; channel_count := 4 |}
  | VK_FMT_BC4_SNORM => {| format_size := 8; channel_count := 4 |}
  | VK_FMT_BC5_UNORM => {| format_size := 16; channel_count := 4 |}
  | VK_FMT_BC5_SNORM => {| format_size := 16; channel_count := 4 |}
  | VK_FMT_BC6H_UFLOAT => {| format_size := 16; channel_count := 4 |}
  | VK_FMT_BC6H_SFLOAT => {| format_size := 16; channel_count := 4 |}
  | VK_FMT_BC7_UNORM => {| format_size := 16; channel_count := 4 |}
  | VK_FMT_BC7_SRGB => {| format_size := 16; channel_count := 4 |}
  | VK_FMT_ETC2_R8G8B8_UNORM => {| format_size := 0; channel_count := 0 |}
  | VK_FMT_ETC2_R8G8B8A1_UNORM => {| format_size := 0; channel_count := 0 |}
  | VK_FMT_ETC2_R8G8B8A8_UNORM => {| format_size := 0; channel_count := 0 |}
  | VK_FMT_EAC_R11_UNORM => {| format_size := 0; channel_count := 0 |}
  | VK_FMT_EAC_R11_SNORM => {| format_size := 0; channel_count := 0 |}
  | VK_FMT_EAC_R11G11_UNORM => {| format_size := 0; channel_count := 0 |}
  | VK_FMT_EAC_R11G11_SNORM => {| format_size := 0; channel_count := 0 |}
  | VK_FMT_ASTC_4x4_UNORM => {| format_size := 0; channel_count := 0 |}
  | VK_FMT_ASTC_4x4_SRGB => {| format_size := 0; channel_count := 0 |}
  | VK_FMT_ASTC_5x4_UNORM => {| format_size := 0; channel_count := 0 |}
  | VK_FMT_ASTC_5x4_SRGB => {| format_size := 0; channel_count := 0 |}
  | VK_FMT_ASTC_5x5_UNORM => {| format_size := 0; channel_count := 0 |}
  | VK_FMT_ASTC_5x5_SRGB => {| format_size := 0; channel_count := 0 |}
  | VK_FMT_ASTC_6x5_UNORM => {| format_size := 0; channel_count := 0 |}
  | VK_FMT_ASTC_6x5_SRGB => {| format_size := 0; channel_count := 0 |}
  | VK_FMT_ASTC_6x6_UNORM => {| format_size := 0; channel_count := 0 |}
  | VK_FMT_ASTC_6x6_SRGB => {| format_size := 0; channel_count := 0 |}
  | VK_FMT_ASTC_8x5_UNORM => {| format_size := 0; channel_count := 0 |}
  | VK_FMT_ASTC_8x5_SRGB => {| format_size := 0; channel_count := 0 |}
  | VK_FMT_ASTC_8x6_UNORM => {| format_size := 0; channel_count := 0 |}
  | VK_FMT_ASTC_8x6_SRGB => {| format_size := 0; channel_count := 0 |}
  | VK_FMT_ASTC_8x8_UNORM => {| format_size := 0; channel_count := 0 |}
  | VK_FMT_ASTC_8x8_SRGB => {| format_size := 0; channel_count := 0 |}
  | VK_FMT_ASTC_10x5_UNORM => {| format_size := 0; channel_count := 0 |}
  | VK_FMT_ASTC_10x5_SRGB => {| format_size := 0; channel_count := 0 |}
  | VK_FMT_ASTC_10x6_UNORM => {| format_size := 0; channel_count := 0 |}
  | VK_FMT_ASTC_10x6_SRGB => {| format_size := 0; channel_count := 0 |}
  | VK_FMT_ASTC_10x8_UNORM => {| format_size := 0; channel_count := 0 |}
  | VK_FMT_ASTC_10x8_SRGB => {| format_size := 0; channel_count := 0 |}
  | VK_FMT_ASTC_10x10_UNORM => {| format_size := 0; channel_count := 0 |}
  | VK_FMT_ASTC_10x10_SRGB => {| format_size := 0; channel_count := 0 |}
  | VK_FMT_ASTC_12x10_UNORM => {| format_size := 0; channel_count := 0 |}
  | VK_FMT_ASTC_12x10_SRGB => {| format_size := 0; channel_count := 0 |}
  | VK_FMT_ASTC_12x12_UNORM => {| format_size := 0; channel_count := 0 |}
  | VK_FMT_ASTC_12x12_SRGB => {| format_size := 0; channel_count := 0 |}
  | VK_FMT_B5G6R5_UNORM => {| format_size := 2; channel_count := 3 |}
  | VK_FMT_B5G6R5_USCALED => {| format_size := 2; channel_count := 3 |}
  | VK_FMT_B8G8R8_UNORM => {| format_size := 3; channel_count := 3 |}
  | VK_FMT_B8G8R8_SNORM => {| format_size := 3; channel_count := 3 |}
  | VK_FMT_B8G8R8_USCALED => {| format_size := 3; channel_count := 3 |}
  | VK_FMT_B8G8R8_SSCALED => {| format_size := 3; channel_count := 3 |}
  | VK_FMT_B8G8R8_UINT => {| format_size := 3; channel_count := 3 |}
  | VK_FMT_B8G8R8_SINT => {| format_size := 3; channel_count := 3 |}
  | VK_FMT_B8G8R8_SRGB => {| format_size := 3; channel_count := 3 |}
  | VK_FMT_B8G8R8A8_UNORM => {| format_size := 4; channel_count := 4 |}
  | VK_FMT_B8G8R8A8_SNORM => {| format_size := 4; channel_count := 4 |}
  | VK_FMT_B8G8R8A8_USCALED => {| format_size := 4; channel_count := 4 |}
  | VK_FMT_B8G8R8A8_SSCALED => {| format_size := 4; channel_count := 4 |}
  | VK_FMT_B8G8R8A8_UINT => {| format_size := 4; channel_count := 4 |}
  | VK_FMT_B8G8R8A8_SINT => {| format_size := 4; channel_count := 4 |}
  | VK_FMT_B8G8R8A8_SRGB => {| format_size := 4; channel_count := 4 |}
  | VK_FMT_B10G10R10A2_UNORM => {| format_size := 4; channel_count := 4 |}
  | VK_FMT_B10G10R10A2_SNORM => {| format_size := 4; channel_count := 4 |}
  | VK_FMT_B10G10R10A2_USCALED => {| format_size := 4; channel_count := 4 |}
  | VK_FMT_B10G10R10A2_SSCALED => {| format_size := 4; channel_count := 4 |}
  | VK_FMT_B10G10R10A2_UINT => {| format_size := 4; channel_count := 4 |}
  | VK_FMT_B10G10R10A2_SINT => {| format_size := 4; channel_count := 4 |}
  end.

Definition icd_format_is_ds (format : VK_FORMAT) : bool :=
  match format with
  | VK_FMT_D16_UNORM
  | VK_FMT_D24_UNORM
  | VK_FMT_D32_SFLOAT
  | VK_FMT_S8_UINT
  | VK_FMT_D16_UNORM_S8_UINT
  | VK_FMT_D24_UNORM_S8_UINT
  | VK_FMT_D32_SFLOAT_S8_UINT => true
  | _ => false
  end.

Definition icd_format_is_norm (format : VK_FORMAT) : bool :=
  match format with
  | VK_FMT_R4G4_UNORM
  | VK_FMT_R4G4B4A4_UNORM
  | VK_FMT_R5G6B5_UNORM
  | VK_FMT_R5G5B5A1_UNORM
  | VK_FMT_R8_UNORM
  | VK_FMT_R8_SNORM
  | VK_FMT_R8G8_UNORM
  | VK_FMT_R8G8_SNORM
  | VK_FMT_R8G8B8_UNORM
  | VK_FMT_R8G8B8_SNORM
  | VK_FMT_R8G8B8A8_UNORM
  | VK_FMT_R8G8B8A8_SNORM
  | VK_FMT_R10G10B10A2_UNORM
  | VK_FMT_R10G10B10A2_SNORM
  | VK_FMT_R16_UNORM
  | VK_FMT_R16_SNORM
  | VK_FMT_R16G16_UNORM
  | VK_FMT_R16G16_SNORM
  | VK_FMT_R16G16B16_UNORM
  | VK_FMT_R16G16B16_SNORM
  | VK_FMT_R16G16B16A16_UNORM
  | VK_FMT_R16G16B16A16_SNORM
  | VK_FMT_BC1_RGB_UNORM
  | VK_FMT_BC2_UNORM
  | VK_FMT_BC3_UNORM
  | VK_FMT_BC4_UNORM
  | VK_FMT_BC4_SNORM
  | VK_FMT_BC5_UNORM
  | VK_FMT_BC5_SNORM
  | VK_FMT_BC7_UNORM
  | VK_FMT_ETC2_R8G8B8_UNORM
  | VK_FMT_ETC2_R8G8B8A1_UNORM
  | VK_FMT_ETC2_R8G8B8A8_UNORM
  | VK_FMT_EAC_R11_UNORM
  | VK_FMT_EAC_R11_SNORM
  | VK_FMT_EAC_R11G11_UNORM
  | VK_FMT_EAC_R11G11_SNORM
  | VK_FMT_ASTC_4x4_UNORM
  | VK_FMT_ASTC_5x4_UNORM
  | VK_FMT_ASTC_5x5_UNORM
  | VK_FMT_ASTC_6x5_UNORM
  | VK_FMT_ASTC_6x6_UNORM
  | VK_FMT_ASTC_8x5_UNORM
  | VK_FMT_ASTC_8x6_UNORM
  | VK_FMT_ASTC_8x8_UNORM
  | VK_FMT_ASTC_10x5_UNORM
  | VK_FMT_ASTC_10x6_UNORM
  | VK_FMT_ASTC_10x8_UNORM
  | VK_FMT_ASTC_10x10_UNORM
  | VK_FMT_ASTC_12x10_UNORM
  | VK_FMT_ASTC_12x12_UNORM
  | VK_FMT_B5G6R5_UNORM
  | VK_FMT_B8G8R8_UNORM
  | VK_FMT_B8G8R8_SNORM
  | VK_FMT_B8G8R8A8_UNORM
  | VK_FMT_B8G8R8A8_SNORM
  | VK_FMT_B10G10R10A2_UNORM
  | VK_FMT_B10G10R10A2_SNORM => true
  | _ => false
  end.

Definition icd_format_is_int (format : VK_FORMAT) : bool :=
  match format with
  | VK_FMT_R8_UINT
  | VK_FMT_R8_SINT
  | VK_FMT_R8G8_UINT
  | VK_FMT_R8G8_SINT
  | VK_FMT_R8G8B8_UINT
  | VK_FMT_R8G8B8_SINT
  | VK_FMT_R8G8B8A8_UINT
  | VK_FMT_R8G8B8A8_SINT
  | VK_FMT_R10G10B10A2_UINT
  | VK_FMT_R10G10B10A2_SINT
  | VK_FMT_R16_UINT
  | VK_FMT_R16_SINT
  | VK_FMT_R16G16_UINT
  | VK_FMT_R16G16_SINT
  | VK_FMT_R16G16B16_UINT
  | VK_FMT_R16G16B16_SINT
  | VK_FMT_R16G16B16A16_UINT
  | VK_FMT_R16G16B16A16_SINT
  | VK_FMT_R32_UINT
  | VK_FMT_R32_SINT
  | VK_FMT_R32G32_UINT
  | VK_FMT_R32G32_SINT
  | VK_FMT_R32G32B32_UINT
  | VK_FMT_R32G32B32_SINT
  | VK_FMT_R32G32B32A32_UINT
  | VK_FMT_R32G32B32A32_SINT
  | VK_FMT_B8G8R8_UINT
  | VK_FMT_B8G8R8_SINT
  | VK_FMT_B8G8R8A8_UINT
  | VK_FMT_B8G8R8A8_SINT
  | VK_FMT_B10G10R10A2_UINT
  | VK_FMT_B10G10R10A2_SINT => true
  | _ => false
  end.

Definition icd_format_is_float (format : VK_FORMAT) : bool :=
  match format with
  | VK_FMT_R16_SFLOAT
  | VK_FMT_R16G16_SFLOAT
  | VK_FMT_R16G16B16_SFLOAT
  | VK_FMT_R16G16B16A16_SFLOAT
  | VK_FMT_R32_SFLOAT
  | VK_FMT_R32G32_SFLOAT
  | VK_FMT_R32G32B32_SFLOAT
  | VK_FMT_R32G32B32A32_SFLOAT
  | VK_FMT_R64_SFLOAT
  | VK_FMT_R64G64_SFLOAT
  | VK_FMT_R64G64B64_SFLOAT
  | VK_FMT_R64G64B64A64_SFLOAT
  | VK_FMT_R11G11B10_UFLOAT
  | VK_FMT_R9G9B9E5_UFLOAT
  | VK_FMT_BC6H_UFLOAT
  | VK_FMT_BC6H_SFLOAT => true
  | _ => false
  end.

Definition icd_format_is_srgb (format : VK_FORMAT) : bool :=
  match format with
  | VK_FMT_R8_SRGB
  | VK_FMT_R8G8_SRGB
  | VK_FMT_R8G8B8_SRGB
  | VK_FMT_R8G8B8A8_SRGB
  | VK_FMT_BC1_RGB_SRGB
  | VK_FMT_BC2_SRGB
  | VK_FMT_BC3_SRGB
  | VK_FMT_BC7_SRGB
  | VK_FMT_ASTC_4x4_SRGB
  | VK_FMT_ASTC_5x4_SRGB
  | VK_FMT_ASTC_5x5_SRGB
  | VK_FMT_ASTC_6x5_SRGB
  | VK_FMT_ASTC_6x6_SRGB
  | VK_FMT_ASTC_8x5_SRGB
  | VK_FMT_ASTC_8x6_SRGB
  | VK_FMT_ASTC_8x8_SRGB
  | VK_FMT_ASTC_10x5_SRGB
  | VK_FMT_ASTC_10x6_SRGB
  | VK_FMT_ASTC_10x8_SRGB
  | VK_FMT_ASTC_10x10_SRGB
  | VK_FMT_ASTC_12x10_SRGB
  | VK_FMT_ASTC_12x12_SRGB
  | VK_FMT_B8G8R8_SRGB
  | VK_FMT_B8G8R8A8_SRGB => true
  | _ => false
  end.

Definition icd_format_is_compressed (format : VK_FORMAT) : bool :=
  match format with
  | VK_FMT_BC1_RGB_UNORM
  | VK_FMT_BC1_RGB_SRGB
  | VK_FMT_BC2_UNORM
  | VK_FMT_BC2_SRGB
  | VK_FMT_BC3_UNORM
  | VK_FMT_BC3_SRGB
  | VK_FMT_BC4_UNORM
  | VK_FMT_BC4_SNORM
  | VK_FMT_BC5_UNORM
  | VK_FMT_BC5_SNORM
  | VK_FMT_BC6H_UFLOAT
  | VK_FMT_BC6H_SFLOAT
  | VK_FMT_BC7_UNORM
  | VK_FMT_BC7_SRGB
  | VK_FMT_ETC2_R8G8B8_UNORM
  | VK_FMT_ETC2_R8G8B8A1_UNORM
  | VK_FMT_ETC2_R8G8B8A8_UNORM
  | VK_FMT_EAC_R11_UNORM
  | VK_FMT_EAC_R11_SNORM
  | VK_FMT_EAC_R11G11_UNORM
  | VK_FMT_EAC_R11G11_SNORM
  | VK_FMT_ASTC_4x4_UNORM
  | VK_FMT_ASTC_4x4_SRGB
  | VK_FMT_ASTC_5x4_UNORM
  | VK_FMT_ASTC_5x4_SRGB
  | VK_FMT_ASTC_5x5_UNORM
  | VK_FMT_ASTC_5x5_SRGB
  | VK_FMT_ASTC_6x5_UNORM
  | VK_FMT_ASTC_6x5_SRGB
  | VK_FMT_ASTC_6x6_UNORM
  | VK_FMT_ASTC_6x6_SRGB
  | VK_FMT_ASTC_8x5_UNORM
  | VK_FMT_ASTC_8x5_SRGB
  | VK_FMT_ASTC_8x6_UNORM
  | VK_FMT_ASTC_8x6_SRGB
  | VK_FMT_ASTC_8x8_UNORM
  | VK_FMT_ASTC_8x8_SRGB
  | VK_FMT_ASTC_10x5_UNORM
  | VK_FMT_ASTC_10x5_SRGB
  | VK_FMT_ASTC_10x6_UNORM
  | VK_FMT_ASTC_10x6_SRGB
  | VK_FMT_ASTC_10x8_UNORM
  | VK_FMT_ASTC_10x8_SRGB
  | VK_FMT_ASTC_10x10_UNORM
  | VK_FMT_ASTC_10x10_SRGB
  | VK_FMT_ASTC_12x10_UNORM
  | VK_FMT_ASTC_12x10_SRGB
  | VK_FMT_ASTC_12x12_UNORM
  | VK_FMT_ASTC_12x12_SRGB => true
  | _ => false
  end.
Definition icd_format_get_size (format : VK_FORMAT) : Z :=
  format_size (icd_format_table format).

Definition icd_format_get_channel_count (format : VK_FORMAT) : Z :=
  channel_count (icd_format_table format).

Section FormatClass.

Context `{Headers}.

(** [icd_format_is_undef] is an inline function of icd-format.h, which is not
    among the sources: it is a parameter. *)
Variable icd_format_is_undef : VK_FORMAT -> bool.

(** The result is [None] when control reaches the end of the function without
    a [return], which can only happen when the assertions are compiled out.  A
    [default] of an inner [switch] that does not stop falls through to the
    next [case] of the outer one, as in C. *)
Definition icd_format_get_class (format : VK_FORMAT)
    : prog (option VK_IMAGE_FORMAT_CLASS) :=
  (if icd_format_is_undef format then assert false "undefined format" else mret tt);;
  if icd_format_is_compressed format then
    match icd_format_get_size format with
    | 8 => mret (Some VK_IMAGE_FORMAT_CLASS_64_BIT_BLOCK)
    | 16 => mret (Some VK_IMAGE_FORMAT_CLASS_128_BIT_BLOCK)
    | _ => assert false "illegal compressed format";; mret None
    end
  else if icd_format_is_ds format then
    let case_5 := mret (Some VK_IMAGE_FORMAT_CLASS_D32S8) in
    let case_4 :=
      match icd_format_get_channel_count format with
      | 1 => mret (Some VK_IMAGE_FORMAT_CLASS_D32)
      | 2 => mret (Some VK_IMAGE_FORMAT_CLASS_D24S8)
      | _ => assert false "illegal depth stencil format channels";; case_5
      end in
    match icd_format_get_size format with
    | 1 => mret (Some VK_IMAGE_FORMAT_CLASS_S8)
    | 2 => mret (Some VK_IMAGE_FORMAT_CLASS_D16)
    | 3 =>
        match icd_format_get_channel_count format with
        | 1 => mret (Some VK_IMAGE_FORMAT_CLASS_D24)
        | 2 => mret (Some VK_IMAGE_FORMAT_CLASS_D16S8)
        | _ => assert false "illegal depth stencil format channels";; case_4
        end
    | 4 => case_4
    | 5 => case_5
    | _ => assert false "illegal depth stencil format";; mret None
    end
  else (* uncompressed color format *)
    match icd_format_get_size format with
    | 1 => mret (Some VK_IMAGE_FORMAT_CLASS_8_BITS)
    | 2 => mret (Some VK_IMAGE_FORMAT_CLASS_16_BITS)
    | 3 => mret (Some VK_IMAGE_FORMAT_CLASS_24_BITS)
    | 4 => mret (Some VK_IMAGE_FORMAT_CLASS_32_BITS)
    | 6 => mret (Some VK_IMAGE_FORMAT_CLASS_48_BITS)
    | 8 => mret (Some VK_IMAGE_FORMAT_CLASS_64_BITS)
    | 12 => mret (Some VK_IMAGE_FORMAT_CLASS_96_BITS)
    | 16 => mret (Some VK_IMAGE_FORMAT_CLASS_128_BITS)
    | _ => assert false "illegal uncompressed color format";; mret None
    end.

End FormatClass.

(** *** Raw values

    [icd_format_get_raw_value] stores into the buffer [value] through casts
    of the pointer.  A store is kept as the list of (byte offset, byte) pairs
    it performs, least significant byte first ("assume little-endian"). *)
Definition to_uint8 (z : Z) : Z := z mod 2 ^ 8.
Definition to_uint16 (z : Z) : Z := z mod 2 ^ 16.

(** [color[i]], a uint32_t. *)
Definition channel (color : list Z) (i : nat) : Z := to_uint32 (color !!! i).

Definition byte_of (v : Z) (k : nat) : Z :=
  Z.land (Z.shiftr v (8 * Z.of_nat k)) 0xff.

(** [((T * ) value)[index] = v] for an unsigned type [T] of [width] bytes. *)
Definition store_le (width index : nat) (v : Z) : list (nat * Z) :=
  (fun k => ((index * width + k)%nat, byte_of v k)) <$> seq 0 width.

Definition store_uint8 : nat -> Z -> list (nat * Z) := store_le 1.
Definition store_char : nat -> Z -> list (nat * Z) := store_le 1.
Definition store_uint16 : nat -> Z -> list (nat * Z) := store_le 2.
Definition store_uint32 : nat -> Z -> list (nat * Z) := store_le 4.
Definition store_uint64 : nat -> Z -> list (nat * Z) := store_le 8.

(** [memcpy(value, color, n)]: the first [n] bytes of the array of four
    uint32_t. *)
Definition memcpy_color (n : nat) (color : list Z) : list (nat * Z) :=
  take n (mjoin ((fun i => store_uint32 i (channel color i)) <$> seq 0 4)).

Definition raw_value_stores (format : VK_FORMAT) (color : list Z)
    : option (list (nat * Z)) :=
  match format with
  | VK_FMT_UNDEFINED =>
      Some []
  | VK_FMT_R4G4_UNORM
  | VK_FMT_R4G4_USCALED =>
      Some (store_uint8 0
         (Z.lor (Z.shiftl (Z.land (channel color 0) 0xf) 0)
            (Z.shiftl (Z.land (channel color 1) 0xf) 4)))
  | VK_FMT_R4G4B4A4_UNORM
  | VK_FMT_R4G4B4A4_USCALED =>
      Some (store_uint16 0
         (Z.lor (Z.lor (Z.lor (Z.shiftl (Z.land (channel color 0) 0xf) 0)
            (Z.shiftl (Z.land (channel color 1) 0xf) 4))
            (Z.shiftl (Z.land (channel color 2) 0xf) 8))
            (Z.shiftl (Z.land (channel color 3) 0xf) 12)))
  | VK_FMT_R5G6B5_UNORM
  | VK_FMT_R5G6B5_USCALED =>
      Some (store_uint16 0
         (Z.lor (Z.lor (Z.shiftl (Z.land (channel color 0) 0x1f) 0)
            (Z.shiftl (Z.land (channel color 1) 0x3f) 5))
            (Z.shiftl (Z.land (channel color 2) 0x1f) 11)))
  | VK_FMT_B5G6R5_UNORM =>
      Some (store_uint16 0
         (Z.lor (Z.lor (Z.shiftl (Z.land (channel color 2) 0x1f) 0)
            (Z.shiftl (Z.land (channel color 1) 0x3f) 5))
            (Z.shiftl (Z.land (channel color 0) 0x1f) 11)))
  | VK_FMT_R5G5B5A1_UNORM
  | VK_FMT_R5G5B5A1_USCALED =>
      Some (store_uint16 0
         (Z.lor (Z.lor (Z.lor (Z.shiftl (Z.land (channel color 0) 0x1f) 0)
            (Z.shiftl (Z.land (channel color 1) 0x1f) 5))
            (Z.shiftl (Z.land (channel color 2) 0x1f) 10))
            (Z.shiftl (Z.land (channel color 3) 0x1) 15)))
  | VK_FMT_R8_UNORM
  | VK_FMT_R8_SNORM
  | VK_FMT_R8_USCALED
  | VK_FMT_R8_SSCALED
  | VK_FMT_R8_UINT
  | VK_FMT_R8_SINT
  | VK_FMT_R8_SRGB =>
      Some (store_uint8 0
         (to_uint8 (channel color 0)))
  | VK_FMT_R8G8_UNORM
  | VK_FMT_R8G8_SNORM
  | VK_FMT_R8G8_USCALED
  | VK_FMT_R8G8_SSCALED
  | VK_FMT_R8G8_UINT
  | VK_FMT_R8G8_SINT
  | VK_FMT_R8G8_SRGB =>
      Some (store_uint8 0
         (to_uint8 (channel color 0)) ++
            store_uint8 1
         (to_uint8 (channel color 1)))
  | VK_FMT_R8G8B8A8_UNORM
  | VK_FMT_R8G8B8A8_SNORM
  | VK_FMT_R8G8B8A8_USCALED
  | VK_FMT_R8G8B8A8_SSCALED
  | VK_FMT_R8G8B8A8_UINT
  | VK_FMT_R8G8B8A8_SINT
  | VK_FMT_R8G8B8A8_SRGB =>
      Some (store_uint8 0
         (to_uint8 (channel color 0)) ++
            store_uint8 1
         (to_uint8 (channel color 1)) ++
            store_uint8 2
         (to_uint8 (channel color 2)) ++
            store_uint8 3
         (to_uint8 (channel color 3)))
  | VK_FMT_B8G8R8A8_UNORM
  | VK_FMT_B8G8R8A8_SRGB =>
      Some (store_uint8 0
         (to_uint8 (channel color 2)) ++
            store_uint8 1
         (to_uint8 (channel color 1)) ++
            store_uint8 2
         (to_uint8 (channel color 0)) ++
            store_uint8 3
         (to_uint8 (channel color 3)))
  | VK_FMT_R11G11B10_UFLOAT =>
      Some (store_uint32 0
         (Z.lor (Z.lor (Z.shiftl (Z.land (channel color 0) 0x7ff) 0)
            (Z.shiftl (Z.land (channel color 1) 0x7ff) 11))
            (Z.shiftl (Z.land (channel color 2) 0x3ff) 22)))
  | VK_FMT_R10G10B10A2_UNORM
  | VK_FMT_R10G10B10A2_SNORM
  | VK_FMT_R10G10B10A2_USCALED
  | VK_FMT_R10G10B10A2_SSCALED
  | VK_FMT_R10G10B10A2_UINT
  | VK_FMT_R10G10B10A2_SINT =>
      Some (store_uint32 0
         (Z.lor (Z.lor (Z.lor (Z.shiftl (Z.land (channel color 0) 0x3ff) 0)
            (Z.shiftl (Z.land (channel color 1) 0x3ff) 10))
            (Z.shiftl (Z.land (channel color 2) 0x3ff) 20))
            (Z.shiftl (Z.land (channel color 3) 0x3) 30)))
  | VK_FMT_R16_UNORM
  | VK_FMT_R16_SNORM
  | VK_FMT_R16_USCALED
  | VK_FMT_R16_SSCALED
  | VK_FMT_R16_UINT
  | VK_FMT_R16_SINT
  | VK_FMT_R16_SFLOAT =>
      Some (store_uint16 0
         (to_uint16 (channel color 0)))
  | VK_FMT_R16G16_UNORM
  | VK_FMT_R16G16_SNORM
  | VK_FMT_R16G16_USCALED
  | VK_FMT_R16G16_SSCALED
  | VK_FMT_R16G16_UINT
  | VK_FMT_R16G16_SINT
  | VK_FMT_R16G16_SFLOAT =>
      Some (store_uint16 0
         (to_uint16 (channel color 0)) ++
            store_uint16 1
         (to_uint16 (channel color 1)))
  | VK_FMT_R16G16B16A16_UNORM
  | VK_FMT_R16G16B16A16_SNORM
  | VK_FMT_R16G16B16A16_USCALED
  | VK_FMT_R16G16B16A16_SSCALED
  | VK_FMT_R16G16B16A16_UINT
  | VK_FMT_R16G16B16A16_SINT
  | VK_FMT_R16G16B16A16_SFLOAT =>
      Some (store_uint16 0
         (to_uint16 (channel color 0)) ++
            store_uint16 1
         (to_uint16 (channel color 1)) ++
            store_uint16 2
         (to_uint16 (channel color 2)) ++
            store_uint16 3
         (to_uint16 (channel color 3)))
  | VK_FMT_R32_UINT
  | VK_FMT_R32_SINT
  | VK_FMT_R32_SFLOAT =>
      Some (store_uint32 0
         (channel color 0))
  | VK_FMT_R32G32_UINT
  | VK_FMT_R32G32_SINT
  | VK_FMT_R32G32_SFLOAT =>
      Some (store_uint32 0
         (channel color 0) ++
            store_uint32 1
         (channel color 1))
  | VK_FMT_R32G32B32_UINT
  | VK_FMT_R32G32B32_SINT
  | VK_FMT_R32G32B32_SFLOAT =>
      Some (store_uint32 0
         (channel color 0) ++
            store_uint32 1
         (channel color 1) ++
            store_uint32 2
         (channel color 2))
  | VK_FMT_R32G32B32A32_UINT
  | VK_FMT_R32G32B32A32_SINT
  | VK_FMT_R32G32B32A32_SFLOAT =>
      Some (store_uint32 0
         (channel color 0) ++
            store_uint32 1
         (channel color 1) ++
            store_uint32 2
         (channel color 2) ++
            store_uint32 3
         (channel color 3))
  | VK_FMT_D16_UNORM_S8_UINT =>
      Some (store_uint16 0
         (to_uint16 (channel color 0)) ++
            store_char 2
         (to_uint8 (channel color 1)))
  | VK_FMT_D32_SFLOAT_S8_UINT =>
      Some (store_uint32 0
         (to_uint32 (channel color 0)) ++
            store_char 4
         (to_uint8 (channel color 1)))
  | VK_FMT_R9G9B9E5_UFLOAT =>
      Some (store_uint32 0
         (Z.lor (Z.lor (Z.lor (Z.shiftl (Z.land (channel color 0) 0x1ff) 0)
            (Z.shiftl (Z.land (channel color 1) 0x1ff) 9))
            (Z.shiftl (Z.land (channel color 2) 0x1ff) 18))
            (Z.shiftl (Z.land (channel color 3) 0x1f) 27)))
  | VK_FMT_BC1_RGB_UNORM
  | VK_FMT_BC1_RGB_SRGB
  | VK_FMT_BC4_UNORM
  | VK_FMT_BC4_SNORM =>
      Some (memcpy_color 8 color)
  | VK_FMT_BC2_UNORM
  | VK_FMT_BC2_SRGB
  | VK_FMT_BC3_UNORM
  | VK_FMT_BC3_SRGB
  | VK_FMT_BC5_UNORM
  | VK_FMT_BC5_SNORM
  | VK_FMT_BC6H_UFLOAT
  | VK_FMT_BC6H_SFLOAT
  | VK_FMT_BC7_UNORM
  | VK_FMT_BC7_SRGB =>
      Some (memcpy_color 16 color)
  | VK_FMT_R8G8B8_UNORM
  | VK_FMT_R8G8B8_SNORM
  | VK_FMT_R8G8B8_USCALED
  | VK_FMT_R8G8B8_SSCALED
  | VK_FMT_R8G8B8_UINT
  | VK_FMT_R8G8B8_SINT
  | VK_FMT_R8G8B8_SRGB =>
      Some (store_uint8 0
         (to_uint8 (channel color 0)) ++
            store_uint8 1
         (to_uint8 (channel color 1)) ++
            store_uint8 2
         (to_uint8 (channel color 2)))
  | VK_FMT_R16G16B16_UNORM
  | VK_FMT_R16G16B16_SNORM
  | VK_FMT_R16G16B16_USCALED
  | VK_FMT_R16G16B16_SSCALED
  | VK_FMT_R16G16B16_UINT
  | VK_FMT_R16G16B16_SINT
  | VK_FMT_R16G16B16_SFLOAT =>
      Some (store_uint16 0
         (to_uint16 (channel color 0)) ++
            store_uint16 1
         (to_uint16 (channel color 1)) ++
            store_uint16 2
         (to_uint16 (channel color 2)))
  | VK_FMT_B10G10R10A2_UNORM
  | VK_FMT_B10G10R10A2_SNORM
  | VK_FMT_B10G10R10A2_USCALED
  | VK_FMT_B10G10R10A2_SSCALED
  | VK_FMT_B10G10R10A2_UINT
  | VK_FMT_B10G10R10A2_SINT =>
      Some (store_uint32 0
         (Z.lor (Z.lor (Z.lor (Z.shiftl (Z.land (channel color 2) 0x3ff) 0)
            (Z.shiftl (Z.land (channel color 1) 0x3ff) 10))
            (Z.shiftl (Z.land (channel color 0) 0x3ff) 20))
            (Z.shiftl (Z.land (channel color 3) 0x3) 30)))
  | VK_FMT_R64_SFLOAT =>
      Some (store_uint64 0
         (channel color 0))
  | VK_FMT_R64G64_SFLOAT =>
      Some (store_uint64 0
         (channel color 0) ++
            store_uint64 1
         (channel color 1))
  | VK_FMT_R64G64B64_SFLOAT =>
      Some (store_uint64 0
         (channel color 0) ++
            store_uint64 1
         (channel color 1) ++
            store_uint64 2
         (channel color 2))
  | VK_FMT_R64G64B64A64_SFLOAT =>
      Some (store_uint64 0
         (channel color 0) ++
            store_uint64 1
         (channel color 1) ++
            store_uint64 2
         (channel color 2) ++
            store_uint64 3
         (channel color 3))
  | _ => None
  end.
(** Carrying out the stores on a buffer; [None] when one of them falls
    outside the buffer, which C leaves undefined. *)
Fixpoint write_all (stores : list (nat * Z)) (value : list Z) : option (list Z) :=
  match stores with
  | [] => Some value
  | (i, b) :: stores =>
      if decide (i < length value)%nat
      then write_all stores (<[i := b]> value)
      else None
  end.

(** [raw_value_stores] is the [switch]; a format it has no [case] for ends in
    the [default], with its assertion. *)
Definition icd_format_get_raw_value `{Headers} (format : VK_FORMAT)
    (color : list Z) (value : list Z) : prog (option (list Z)) :=
  match raw_value_stores format color with
  | Some stores => mret (write_all stores value)
  | None => assert false "unknown format";; mret (Some value)
  end.

(** Reading a byte string as a little-endian number, and a bit field of a
    number. *)
Definition load_le (bs : list Z) : Z :=
  foldr (fun b acc => Z.lor b (Z.shiftl acc 8)) 0 bs.

Definition bit_field (raw shift width : Z) : Z :=
  Z.land (Z.shiftr raw shift) (Z.ones width).

(** Where the packed formats keep their channels: index in [color], first
    bit, number of bits. *)
Definition packed_fields (format : VK_FORMAT) : option (list (nat * Z * Z)) :=
  match format with
  | VK_FMT_R4G4_UNORM
  | VK_FMT_R4G4_USCALED => Some [(0%nat, 0, 4); (1%nat, 4, 4)]
  | VK_FMT_R4G4B4A4_UNORM
  | VK_FMT_R4G4B4A4_USCALED =>
      Some [(0%nat, 0, 4); (1%nat, 4, 4); (2%nat, 8, 4); (3%nat, 12, 4)]
  | VK_FMT_R5G6B5_UNORM
  | VK_FMT_R5G6B5_USCALED => Some [(0%nat, 0, 5); (1%nat, 5, 6); (2%nat, 11, 5)]
  | VK_FMT_B5G6R5_UNORM => Some [(2%nat, 0, 5); (1%nat, 5, 6); (0%nat, 11, 5)]
  | VK_FMT_R5G5B5A1_UNORM
  | VK_FMT_R5G5B5A1_USCALED =>
      Some [(0%nat, 0, 5); (1%nat, 5, 5); (2%nat, 10, 5); (3%nat, 15, 1)]
  | VK_FMT_R11G11B10_UFLOAT => Some [(0%nat, 0, 11); (1%nat, 11, 11); (2%nat, 22, 10)]
  | VK_FMT_R10G10B10A2_UNORM
  | VK_FMT_R10G10B10A2_SNORM
  | VK_FMT_R10G10B10A2_USCALED
  | VK_FMT_R10G10B10A2_SSCALED
  | VK_FMT_R10G10B10A2_UINT
  | VK_FMT_R10G10B10A2_SINT =>
      Some [(0%nat, 0, 10); (1%nat, 10, 10); (2%nat, 20, 10); (3%nat, 30, 2)]
  | VK_FMT_R9G9B9E5_UFLOAT =>
      Some [(0%nat, 0, 9); (1%nat, 9, 9); (2%nat, 18, 9); (3%nat, 27, 5)]
  | VK_FMT_B10G10R10A2_UNORM
  | VK_FMT_B10G10R10A2_SNORM
  | VK_FMT_B10G10R10A2_USCALED
  | VK_FMT_B10G10R10A2_SSCALED
  | VK_FMT_B10G10R10A2_UINT
  | VK_FMT_B10G10R10A2_SINT =>
      Some [(2%nat, 0, 10); (1%nat, 10, 10); (0%nat, 20, 10); (3%nat, 30, 2)]
  | _ => None
  end.

(** Bytes per texel, or per block, that the name of a class announces. *)
Definition class_bytes (c : VK_IMAGE_FORMAT_CLASS) : Z :=
  match c with
  | VK_IMAGE_FORMAT_CLASS_128_BIT_BLOCK => 16
  | VK_IMAGE_FORMAT_CLASS_64_BIT_BLOCK => 8
  | VK_IMAGE_FORMAT_CLASS_128_BITS => 16
  | VK_IMAGE_FORMAT_CLASS_96_BITS => 12
  | VK_IMAGE_FORMAT_CLASS_64_BITS => 8
  | VK_IMAGE_FORMAT_CLASS_48_BITS => 6
  | VK_IMAGE_FORMAT_CLASS_32_BITS => 4
  | VK_IMAGE_FORMAT_CLASS_24_BITS => 3
  | VK_IMAGE_FORMAT_CLASS_16_BITS => 2
  | VK_IMAGE_FORMAT_CLASS_8_BITS => 1
  | VK_IMAGE_FORMAT_CLASS_D32S8 => 5
  | VK_IMAGE_FORMAT_CLASS_D24S8 => 4
  | VK_IMAGE_FORMAT_CLASS_D32 => 4
  | VK_IMAGE_FORMAT_CLASS_D24 => 3
  | VK_IMAGE_FORMAT_CLASS_D16S8 => 3
  | VK_IMAGE_FORMAT_CLASS_D16 => 2
  | VK_IMAGE_FORMAT_CLASS_S8 => 1
  end.

(** ** The screenshot layer: [src/layers/screenshot.cpp]

    [memory_type_from_properties] looks at
    [memory_properties->memoryTypes[i].propertyFlags] only, given here as a
    function of [i].  The result is the value stored to [*typeIndex] when the
    function returns true and [None] when it returns false. *)
Fixpoint memory_type_search (remaining : nat) (i : Z) (propertyFlags : Z -> Z)
    (typeBits requirements_mask : Z) : option Z :=
  match remaining with
  | O => None
  | S remaining =>
      if (Z.land typeBits 1 =? 1) &&
         (Z.land (propertyFlags i) requirements_mask =? requirements_mask)
      then Some i
      else memory_type_search remaining (i + 1) propertyFlags
             (Z.shiftr typeBits 1) requirements_mask
  end.

Definition memory_type_from_properties (propertyFlags : Z -> Z)
    (typeBits requirements_mask : Z) : option Z :=
  memory_type_search 32 0 propertyFlags typeBits requirements_mask.

(** Memory type [i] is allowed by [typeBits] and has all the properties of
    the mask. *)
Definition memory_type_suits (propertyFlags : Z -> Z) (typeBits requirements_mask i : Z)
    : Prop :=
  Z.testbit typeBits i = true /\
  Z.land (propertyFlags i) requirements_mask = requirements_mask.

(** *** The list of frames to capture

    [vkQueuePresentKHR] reads the environment variable _VK_SCREENSHOT once and
    takes the frame numbers from it.  [atoi] belongs to the C library and is
    a parameter. *)

(** [s.find(c, pos)]: the first position from [pos] on where [c] occurs;
    [None] stands for [npos]. *)
Fixpoint string_find (c : ascii) (s : string) (pos : nat) : option nat :=
  match s with
  | EmptyString => None
  | String a s' =>
      match pos with
      | O => if decide (a = c) then Some O else S <$> string_find c s' O
      | S pos' => S <$> string_find c s' pos'
      end
  end.

(** [*(word.c_str()) >= '0' && *(word.c_str()) <= '9'] *)
Definition starts_with_digit (word : string) : bool :=
  match String.get 0 word with
  | Some ch => (48 <=? nat_of_ascii ch)%nat && (nat_of_ascii ch <=? 57)%nat
  | None => false
  end.

(** The body of the loop after the word has been cut out. *)
Definition add_frame (atoi : string -> Z) (word : string) (frames : list Z) : list Z :=
  let frameToAdd := atoi word in
  if starts_with_digit word && bool_decide (frameToAdd ∉ frames)
  then frames ++ [frameToAdd]
  else frames.

Definition inspect {A : Type} (a : A) : {b : A | a = b} := exist _ a eq_refl.

(** The [while] loop, from position [start] on. *)
Equations? parse_frames_loop (atoi : string -> Z) (spec : string) (start : nat)
    (frames : list Z) : list Z by wf (String.length spec - start)%nat lt :=
parse_frames_loop atoi spec start frames with decide (start < String.length spec)%nat := {
  | right _ => frames
  | left _ with inspect (string_find ","%char spec start) := {
      | exist _ None _ =>
          add_frame atoi (String.substring start (String.length spec - start) spec) frames
      | exist _ (Some comma) _ =>
          parse_frames_loop atoi spec (comma + 1)
            (add_frame atoi (String.substring start (comma - start) spec) frames) } }.
Proof.
  enough (Hbounds : forall s pos i,
             string_find ","%char s pos = Some i -> (pos <= i < String.length s)%nat)
    by (apply Hbounds in e; lia).
  clear. intros s. induction s as [|a s IH]; intros pos i; simpl; [done|].
  destruct pos as [|pos].
  - case_decide; [intros [= <-]; lia|].
    destruct (string_find ","%char s 0) as [j|] eqn:Hj; [|done].
    intros [= <-]. apply IH in Hj. lia.
  - destruct (string_find ","%char s pos) as [j|] eqn:Hj; [|done].
    intros [= <-]. apply IH in Hj. lia.
Qed.

(** [getenv] gives NULL or a string; an empty string is ignored. *)
Definition parse_screenshot_env (atoi : string -> Z) (env : option string)
    (frames : list Z) : list Z :=
  match env with
  | Some (String _ _ as spec) => parse_frames_loop atoi spec 0 frames
  | _ => frames
  end.


(** The words of a string between its commas, for comparison with the
    loop. *)
Fixpoint split_commas_from (word : string) (s : string) : list string :=
  match s with
  | EmptyString => [word]
  | String a s' =>
      if decide (a = ","%char)
      then word :: split_commas_from EmptyString s'
      else split_commas_from (word +:+ String a EmptyString) s'
  end.

Definition split_commas (s : string) : list string :=
  split_commas_from EmptyString s.

(** [s] without its first [n] characters. *)
Fixpoint string_drop (n : nat) (s : string) : string :=
  match n, s with
  | O, _ => s
  | S n, String _ s' => string_drop n s'
  | S _, EmptyString => EmptyString
  end.

(** *** The layer's book-keeping

    The layer sits between the application and the next layer.  What it
    calls -- the next layer's entry points, the mutex, [getenv], the output
    stream -- are the events of [vkE]; each carries the arguments that vary
    and is indexed by what comes back, out-parameters included.  The
    dispatch tables and the map that holds them ([screenshot_device_table_map],
    [get_dispatch_table], [instance_dispatch_table], declared in
    vk_layer_table.h) are on the other side as well: looking a table up,
    registering an object and reading or assigning a member are events, and
    a call to the next layer names the table it goes through. *)

(** Constants of vulkan.h and functions of the C and C++ libraries. *)
Class Vulkan : Type := {
  VK_SUCCESS : Z;
  VK_FORMAT_B8G8R8A8_UNORM : Z;
  VK_FORMAT_R8G8B8A8_UNORM : Z;
  VK_MEMORY_PROPERTY_HOST_VISIBLE_BIT : Z;
  VK_EXT_KHR_DEVICE_SWAPCHAIN_EXTENSION_NAME : string;
  (** [atoi] *)
  atoi : string -> Z;
  (** [std::to_string(int)] *)
  to_string : Z -> string;
  (** the characters [ostream << int] produces *)
  put_int : Z -> list Z
}.

Record VkExtent2D : Type := {
  extent_width : Z;
  extent_height : Z
}.

(** The members are prefixed with the structure they belong to.  A member
    that [new] leaves indeterminate until some function assigns it is an
    option. *)
Record SwapchainMapStruct : Type := {
  sc_device : Z;
  sc_imageExtent : VkExtent2D;
  sc_format : Z;
  sc_imageList : option (list Z)
}.

Record ImageMapStruct : Type := {
  im_device : Z;
  im_imageExtent : VkExtent2D;
  im_format : Z
}.

Record DeviceMapStruct : Type := {
  dm_queue : option Z;
  dm_commandPool : option Z;
  dm_physicalDevice : option Z
}.

Record PhysDeviceMapStruct : Type := {
  pd_instance : Z
}.

(** The file's static variables, [frameNumber] of [vkQueuePresentKHR]
    included.  [deviceExtMap] gives [wsi_enabled] by dispatch table.  The
    other maps hold pointers: [Some None] is a key with a null pointer. *)
Record layer : Type := {
  deviceExtMap : gmap Z bool;
  globalLockInitialized : Z;
  swapchainMap : gmap Z (option SwapchainMapStruct);
  imageMap : gmap Z (option ImageMapStruct);
  deviceMap : gmap Z (option DeviceMapStruct);
  physDeviceMap : gmap Z (option PhysDeviceMapStruct);
  screenshotFrames : list Z;
  screenshotEnvQueried : bool;
  frameNumber : Z
}.

Definition set_deviceExtMap (v : gmap Z bool) (st : layer) : layer :=
  {| deviceExtMap := v;
     globalLockInitialized := globalLockInitialized st;
     swapchainMap := swapchainMap st;
     imageMap := imageMap st;
     deviceMap := deviceMap st;
     physDeviceMap := physDeviceMap st;
     screenshotFrames := screenshotFrames st;
     screenshotEnvQueried := screenshotEnvQueried st;
     frameNumber := frameNumber st |}.

Definition set_globalLockInitialized (v : Z) (st : layer) : layer :=
  {| deviceExtMap := deviceExtMap st;
     globalLockInitialized := v;
     swapchainMap := swapchainMap st;
     imageMap := imageMap st;
     deviceMap := deviceMap st;
     physDeviceMap := physDeviceMap st;
     screenshotFrames := screenshotFrames st;
     screenshotEnvQueried := screenshotEnvQueried st;
     frameNumber := frameNumber st |}.

Definition set_swapchainMap (v : gmap Z (option SwapchainMapStruct)) (st : layer) : layer :=
  {| deviceExtMap := deviceExtMap st;
     globalLockInitialized := globalLockInitialized st;
     swapchainMap := v;
     imageMap := imageMap st;
     deviceMap := deviceMap st;
     physDeviceMap := physDeviceMap st;
     screenshotFrames := screenshotFrames st;
     screenshotEnvQueried := screenshotEnvQueried st;
     frameNumber := frameNumber st |}.

Definition set_imageMap (v : gmap Z (option ImageMapStruct)) (st : layer) : layer :=
  {| deviceExtMap := deviceExtMap st;
     globalLockInitialized := globalLockInitialized st;
     swapchainMap := swapchainMap st;
     imageMap := v;
     deviceMap := deviceMap st;
     physDeviceMap := physDeviceMap st;
     screenshotFrames := screenshotFrames st;
     screenshotEnvQueried := screenshotEnvQueried st;
     frameNumber := frameNumber st |}.

Definition set_deviceMap (v : gmap Z (option DeviceMapStruct)) (st : layer) : layer :=
  {| deviceExtMap := deviceExtMap st;
     globalLockInitialized := globalLockInitialized st;
     swapchainMap := swapchainMap st;
     imageMap := imageMap st;
     deviceMap := v;
     physDeviceMap := physDeviceMap st;
     screenshotFrames := screenshotFrames st;
     screenshotEnvQueried := screenshotEnvQueried st;
     frameNumber := frameNumber st |}.

Definition set_physDeviceMap (v : gmap Z (option PhysDeviceMapStruct)) (st : layer) : layer :=
  {| deviceExtMap := deviceExtMap st;
     globalLockInitialized := globalLockInitialized st;
     swapchainMap := swapchainMap st;
     imageMap := imageMap st;
     deviceMap := deviceMap st;
     physDeviceMap := v;
     screenshotFrames := screenshotFrames st;
     screenshotEnvQueried := screenshotEnvQueried st;
     frameNumber := frameNumber st |}.

Definition set_screenshotFrames (v : list Z) (st : layer) : layer :=
  {| deviceExtMap := deviceExtMap st;
     globalLockInitialized := globalLockInitialized st;
     swapchainMap := swapchainMap st;
     imageMap := imageMap st;
     deviceMap := deviceMap st;
     physDeviceMap := physDeviceMap st;
     screenshotFrames := v;
     screenshotEnvQueried := screenshotEnvQueried st;
     frameNumber := frameNumber st |}.

Definition set_screenshotEnvQueried (v : bool) (st : layer) : layer :=
  {| deviceExtMap := deviceExtMap st;
     globalLockInitialized := globalLockInitialized st;
     swapchainMap := swapchainMap st;
     imageMap := imageMap st;
     deviceMap := deviceMap st;
     physDeviceMap := physDeviceMap st;
     screenshotFrames := screenshotFrames st;
     screenshotEnvQueried := v;
     frameNumber := frameNumber st |}.

Definition set_frameNumber (v : Z) (st : layer) : layer :=
  {| deviceExtMap := deviceExtMap st;
     globalLockInitialized := globalLockInitialized st;
     swapchainMap := swapchainMap st;
     imageMap := imageMap st;
     deviceMap := deviceMap st;
     physDeviceMap := physDeviceMap st;
     screenshotFrames := screenshotFrames st;
     screenshotEnvQueried := screenshotEnvQueried st;
     frameNumber := v |}.

(** The state the program starts in. *)
Definition layer_start : layer :=
  {| deviceExtMap := ∅; globalLockInitialized := 0;
     swapchainMap := ∅; imageMap := ∅; deviceMap := ∅; physDeviceMap := ∅;
     screenshotFrames := []; screenshotEnvQueried := false; frameNumber := 0 |}.

(** [swapchains] and [imageIndices] of [VkPresentInfoKHR], as the arrays
    they point to. *)
Record VkPresentInfoKHR : Type := {
  swapchains : list Z;
  imageIndices : list Z
}.

(** What [vkGetDeviceProcAddr] and [vkGetInstanceProcAddr] return: one of
    the layer's own functions, or a pointer obtained elsewhere (0 for NULL). *)
Inductive PFN_vkVoidFunction : Type :=
| own_function (name : string)
| pointer_value (p : Z).

Inductive vkE : Type -> Type :=
| loader_platform_thread_create_mutex : vkE unit
| loader_platform_thread_lock_mutex : vkE unit
| loader_platform_thread_unlock_mutex : vkE unit
| getenv (name : string) : vkE (option string)
| fflush_stdout : vkE unit
| printf (text : string) : vkE unit
(** a file opened, written and closed with these bytes sent to it *)
| ofstream (filename : string) (content : list Z) : vkE unit
(** the dispatch tables *)
| table_map_index (key : Z) : vkE Z
| table_map_emplace (key table : Z) : vkE unit
| get_dispatch_table (object : Z) : vkE Z
| instance_dispatch_table (object : Z) : vkE Z
| initDeviceTable (dev : Z) : vkE unit
| initInstanceTable (instance_ : Z) : vkE unit
| table_member (table : Z) (member : string) : vkE Z
| table_assign (table : Z) (member : string) (value : Z) : vkE unit
(** the next layer, through a table or a function pointer; the answer is
    the result, if the function has one, followed by what it stored through
    its pointer arguments *)
| GetDeviceProcAddr (gpa device : Z) (name : string) : vkE Z
| GetInstanceProcAddr (gpa instance_ : Z) (name : string) : vkE Z
| CreateDevice (table gpu : Z) (ppEnabledExtensionNames : list string) : vkE (Z * Z)
| EnumeratePhysicalDevices (table instance_ : Z) (array_given : bool) : vkE (Z * Z * list Z)
| GetDeviceQueue (table device queueNodeIndex queueIndex : Z) : vkE Z
| CreateCommandPool (table device : Z) : vkE (Z * Z)
| CreateSwapchainKHR (table device : Z) (imageExtent : VkExtent2D) (imageFormat : Z)
    : vkE (Z * Z)
| GetSwapchainImagesKHR (table device swapchain : Z) (array_given : bool)
    : vkE (Z * Z * list Z)
| QueuePresentKHR (table queue : Z) (pPresentInfo : VkPresentInfoKHR) : vkE Z
| CreateImage (table device format_ width height : Z) : vkE (Z * Z)
| GetImageMemoryRequirements (table device image : Z) : vkE (Z * Z)
| GetPhysicalDeviceMemoryProperties (table physicalDevice : Z) : vkE (Z -> Z)
| AllocateMemory (table device allocationSize memoryTypeIndex : Z) : vkE (Z * Z)
| BindImageMemory (table device image mem : Z) : vkE Z
| AllocateCommandBuffers (table device commandPool : Z) : vkE (Z * Z)
| BeginCommandBuffer (table commandBuffer : Z) : vkE Z
| CmdCopyImage (table commandBuffer srcImage dstImage width height : Z) : vkE unit
| EndCommandBuffer (table commandBuffer : Z) : vkE Z
| QueueSubmit (table queue commandBuffer : Z) : vkE Z
| QueueWaitIdle (table queue : Z) : vkE Z
| DeviceWaitIdle (table device : Z) : vkE Z
| GetImageSubresourceLayout (table device image : Z) : vkE (Z * Z)
(** the status, the pointer and the bytes found behind it, by address *)
| MapMemory (table device mem : Z) : vkE (Z * Z * (Z -> Z))
| UnmapMemory (table device mem : Z) : vkE unit
| FreeMemory (table device mem : Z) : vkE unit
| FreeCommandBuffers (table device commandPool commandBuffer : Z) : vkE unit.

(** Programs of the layer: external calls, access to the static variables,
    undefined behaviour (a null or indeterminate pointer followed, an array
    read past its end, [int] overflow) and failed assertions. *)
Inductive vk (R : Type) : Type :=
| Done (r : R)
| Ask {X : Type} (e : vkE X) (k : X -> vk R)
| GetState (k : layer -> vk R)
| PutState (st : layer) (k : vk R)
| Undefined
| Failed (msg : string).

Arguments Done {R} r.
Arguments Ask {R X} e k.
Arguments GetState {R} k.
Arguments PutState {R} st k.
Arguments Undefined {R}.
Arguments Failed {R} msg.

Fixpoint vk_bind {A B : Type} (f : A -> vk B) (p : vk A) : vk B :=
  match p with
  | Done a => f a
  | Ask e k => Ask e (fun x => vk_bind f (k x))
  | GetState k => GetState (fun st => vk_bind f (k st))
  | PutState st k => PutState st (vk_bind f k)
  | Undefined => Undefined
  | Failed msg => Failed msg
  end.

#[global] Instance vk_ret : MRet vk := @Done.
#[global] Instance vk_mbind : MBind vk := @vk_bind.

Definition ask {X : Type} (e : vkE X) : vk X := Ask e Done.
Definition get_state : vk layer := GetState Done.
Definition put_state (st : layer) : vk unit := PutState st (Done tt).
Definition modify_state (f : layer -> layer) : vk unit := st ← get_state; put_state (f st).

Definition vk_assert `{Headers} (c : bool) (msg : string) : vk unit :=
  if NDEBUG then Done tt else if c then Done tt else Failed msg.

(** [m[key]->...]: the pointer stored under the key is followed.  For a
    missing key [operator[]] stores a null pointer first. *)
Definition deref {A : Type} (p : option (option A)) : vk A :=
  match p with
  | Some (Some a) => Done a
  | _ => Undefined
  end.

(** Reading a member or an array element that may not be there. *)
Definition determinate {A : Type} (v : option A) : vk A :=
  match v with
  | Some a => Done a
  | None => Undefined
  end.

(** A call or an access through a pointer to a dispatch table or to a
    function, which must not be null. *)
Definition through {X : Type} (p : Z) (e : vkE X) : vk X :=
  if p =? 0 then Undefined else ask e.

(** [m[key] == NULL] followed by [m[key] = new ...]: the structure under the
    key, a new one if there is none. *)
Definition existing_or {A : Type} (fresh : A) (p : option (option A)) : A :=
  match p with
  | Some (Some a) => a
  | _ => fresh
  end.

(** What the layer runs against. *)
Record platform : Type := {
  vk_world : Type;
  vk_respond : forall X : Type, vkE X -> vk_world -> X * vk_world
}.

Arguments vk_respond p {X} e w.

Inductive vk_logged : Type :=
| VkLogged {X : Type} (e : vkE X) (answer : X).

Inductive vk_outcome (R : Type) : Type :=
| Finished (r : R)
| UndefinedBehaviour
| AssertionFailed (msg : string).

Arguments Finished {R} r.
Arguments UndefinedBehaviour {R}.
Arguments AssertionFailed {R} msg.

Record vk_execution (R W : Type) : Type := {
  vk_result : vk_outcome R;
  vk_state : layer;
  vk_final : W;
  vk_calls : list vk_logged
}.

Arguments vk_result {R W} _.
Arguments vk_state {R W} _.
Arguments vk_final {R W} _.
Arguments vk_calls {R W} _.

Definition vk_logging {R W : Type} (ev : vk_logged) (x : vk_execution R W)
    : vk_execution R W :=
  {| vk_result := vk_result x; vk_state := vk_state x; vk_final := vk_final x;
     vk_calls := ev :: vk_calls x |}.

Fixpoint vk_run {R : Type} (P : platform) (p : vk R) (st : layer) (w : vk_world P)
    : vk_execution R (vk_world P) :=
  match p with
  | Done r => {| vk_result := Finished r; vk_state := st; vk_final := w; vk_calls := [] |}
  | Ask e k =>
      let '(x, w') := vk_respond P e w in
      vk_logging (VkLogged e x) (vk_run P (k x) st w')
  | GetState k => vk_run P (k st) st w
  | PutState st' k => vk_run P k st' w
  | Undefined =>
      {| vk_result := UndefinedBehaviour; vk_state := st; vk_final := w; vk_calls := [] |}
  | Failed msg =>
      {| vk_result := AssertionFailed msg; vk_state := st; vk_final := w; vk_calls := [] |}
  end.

(** *** [writePPM]: the pixels *)

(** [*row], an [unsigned int] read from the mapped memory. *)
Definition read_unsigned_int (memory : Z -> Z) (row : Z) : Z :=
  load_le ((fun k => to_uint8 (memory (row + Z.of_nat k))) <$> seq 0 4).

(** [( *row & 0xff00ff00) | ( *row & 0x000000ff) << 16 | ( *row & 0x00ff0000) >> 16] *)
Definition swapped (pixel : Z) : Z :=
  Z.lor (Z.lor (Z.land pixel 0xff00ff00)
               (to_uint32 (Z.shiftl (Z.land pixel 0x000000ff) 16)))
        (Z.shiftr (Z.land pixel 0x00ff0000) 16).

(** The inner loops: [width] pixels from [row] on, three bytes written for
    each. *)
Fixpoint bgra_pixels (memory : Z -> Z) (row : Z) (width : nat) : list Z :=
  match width with
  | O => []
  | S width =>
      (byte_of (swapped (read_unsigned_int memory row)) <$> seq 0 3) ++
      bgra_pixels memory (row + 4) width
  end.

Fixpoint rgba_pixels (memory : Z -> Z) (row : Z) (width : nat) : list Z :=
  match width with
  | O => []
  | S width =>
      ((fun k => to_uint8 (memory (row + Z.of_nat k))) <$> seq 0 3) ++
      rgba_pixels memory (row + 4) width
  end.

(** The loop over the rows: the bytes written, and whether the loop was left
    at the unrecognized format. *)
Fixpoint ppm_rows `{Vulkan} (format_ : Z) (memory : Z -> Z) (ptr rowPitch width : Z)
    (height : nat) : list Z * bool :=
  match height with
  | O => ([], false)
  | S height =>
      if format_ =? VK_FORMAT_B8G8R8A8_UNORM then
        let '(rest, unrecognized) :=
          ppm_rows format_ memory (ptr + rowPitch) rowPitch width height in
        (bgra_pixels memory ptr (Z.to_nat width) ++ rest, unrecognized)
      else if format_ =? VK_FORMAT_R8G8B8A8_UNORM then
        let '(rest, unrecognized) :=
          ppm_rows format_ memory (ptr + rowPitch) rowPitch width height in
        (rgba_pixels memory ptr (Z.to_nat width) ++ rest, unrecognized)
      else ([], true)
  end.

Definition string_bytes (s : string) : list Z :=
  (fun c => Z.of_nat (nat_of_ascii c)) <$> String.list_ascii_of_string s.

(** The four lines before the pixels. *)
Definition ppm_header `{Vulkan} (width height : Z) : list Z :=
  string_bytes "P6" ++ [10] ++ put_int width ++ [10] ++ put_int height ++ [10] ++
  put_int 255 ++ [10].

Definition unrecognized_message : string :=
  "Unrecognized image format" +:+ String "010"%char EmptyString.

Section Layer.

Context `{Headers} `{Vulkan}.

(** *** [writePPM] *)

Definition writePPM (filename : string) (image1 : Z) : vk unit :=
  st ← get_state;
  im ← deref (imageMap st !! image1);
  let device := im_device im in
  dm ← deref (deviceMap st !! device);
  physicalDevice ← determinate (dm_physicalDevice dm);
  pd ← deref (physDeviceMap st !! physicalDevice);
  let instance_ := pd_instance pd in
  queue ← determinate (dm_queue dm);
  let width := to_int32 (extent_width (im_imageExtent im)) in
  let height := to_int32 (extent_height (im_imageExtent im)) in
  let format_ := im_format im in
  commandPool ← determinate (dm_commandPool dm);
  pTableDevice ← ask (get_dispatch_table device);
  pTableQueue ← ask (get_dispatch_table queue);
  if bool_decide (imageMap st = ∅) || bool_decide (imageMap st !! image1 = None)
  then mret tt else
  '(err, image2) ← through pTableDevice (CreateImage pTableDevice device format_ width height);
  vk_assert (negb (truthy err)) "!err";;
  '(size, memoryTypeBits) ←
    through pTableDevice (GetImageMemoryRequirements pTableDevice device image2);
  pInstanceTable ← ask (instance_dispatch_table instance_);
  propertyFlags ←
    through pInstanceTable (GetPhysicalDeviceMemoryProperties pInstanceTable physicalDevice);
  let pass := memory_type_from_properties propertyFlags (to_uint32 memoryTypeBits)
                VK_MEMORY_PROPERTY_HOST_VISIBLE_BIT in
  vk_assert (bool_decide (is_Some pass)) "pass";;
  '(err, mem2) ←
    through pTableDevice (AllocateMemory pTableDevice device size (default 0 pass));
  vk_assert (negb (truthy err)) "!err";;
  err ← through pTableQueue (BindImageMemory pTableQueue device image2 mem2);
  vk_assert (negb (truthy err)) "!err";;
  '(err, commandBuffer) ←
    through pTableDevice (AllocateCommandBuffers pTableDevice device commandPool);
  vk_assert (negb (truthy err)) "!err";;
  ask (table_map_emplace commandBuffer pTableDevice);;
  pTableCommandBuffer ← ask (table_map_index commandBuffer);
  err ← through pTableCommandBuffer (BeginCommandBuffer pTableCommandBuffer commandBuffer);
  vk_assert (negb (truthy err)) "!err";;
  through pTableCommandBuffer
    (CmdCopyImage pTableCommandBuffer commandBuffer image1 image2 width height);;
  err ← through pTableCommandBuffer (EndCommandBuffer pTableCommandBuffer commandBuffer);
  vk_assert (negb (truthy err)) "!err";;
  err ← through pTableQueue (QueueSubmit pTableQueue queue commandBuffer);
  vk_assert (negb (truthy err)) "!err";;
  err ← through pTableQueue (QueueWaitIdle pTableQueue queue);
  vk_assert (negb (truthy err)) "!err";;
  err ← through pTableDevice (DeviceWaitIdle pTableDevice device);
  vk_assert (negb (truthy err)) "!err";;
  '(offset, rowPitch) ←
    through pTableDevice (GetImageSubresourceLayout pTableDevice device image2);
  '(err, ptr, memory) ← through pTableDevice (MapMemory pTableDevice device mem2);
  vk_assert (negb (truthy err)) "!err";;
  let '(pixels, unrecognized) :=
    ppm_rows format_ memory (ptr + offset) rowPitch width (Z.to_nat height) in
  (if unrecognized then ask (printf unrecognized_message) else mret tt);;
  ask (ofstream filename (ppm_header width height ++ pixels));;
  through pTableDevice (UnmapMemory pTableDevice device mem2);;
  through pTableDevice (FreeMemory pTableDevice device mem2);;
  st ← get_state;
  dm ← deref (deviceMap st !! device);
  commandPool ← determinate (dm_commandPool dm);
  through pTableDevice (FreeCommandBuffers pTableDevice device commandPool commandBuffer).

(** *** The entry points *)

(** [screenshotEnvQueried && screenshotFrames.empty()] *)
Definition all_done (st : layer) : bool :=
  screenshotEnvQueried st && bool_decide (screenshotFrames st = []).

Definition fresh_device : DeviceMapStruct :=
  {| dm_queue := None; dm_commandPool := None; dm_physicalDevice := None |}.

Definition assign_queue (v : Z) (d : DeviceMapStruct) : DeviceMapStruct :=
  {| dm_queue := Some v; dm_commandPool := dm_commandPool d;
     dm_physicalDevice := dm_physicalDevice d |}.

Definition assign_commandPool (v : Z) (d : DeviceMapStruct) : DeviceMapStruct :=
  {| dm_queue := dm_queue d; dm_commandPool := Some v;
     dm_physicalDevice := dm_physicalDevice d |}.

Definition assign_imageList (images : list Z) (sc : SwapchainMapStruct)
    : SwapchainMapStruct :=
  {| sc_device := sc_device sc; sc_imageExtent := sc_imageExtent sc;
     sc_format := sc_format sc; sc_imageList := Some images |}.

(** The loop of [vkEnumeratePhysicalDevices] over the first [count] entries
    of the array. *)
Fixpoint map_physical_devices (instance_ : Z) (pPhysicalDevices : list Z) (i : Z)
    (count : nat) : vk unit :=
  match count with
  | O => mret tt
  | S count =>
      physicalDevice ← determinate (pPhysicalDevices !! Z.to_nat i);
      modify_state (fun st =>
        set_physDeviceMap
          (<[physicalDevice := Some {| pd_instance := instance_ |}]> (physDeviceMap st)) st);;
      map_physical_devices instance_ pPhysicalDevices (i + 1) count
  end.

Definition assign_physicalDevice (v : Z) (d : DeviceMapStruct) : DeviceMapStruct :=
  {| dm_queue := dm_queue d; dm_commandPool := dm_commandPool d;
     dm_physicalDevice := Some v |}.

Definition init_screenshot : vk unit :=
  st ← get_state;
  if negb (truthy (globalLockInitialized st)) then
    ask loader_platform_thread_create_mutex;;
    put_state (set_globalLockInitialized 1 st)
  else mret tt.

(** [pDisp->member = gpa(device, "vk" member)] *)
Definition resolve (pDisp gpa device : Z) (member : string) : vk unit :=
  p ← through gpa (GetDeviceProcAddr gpa device ("vk" +:+ member));
  through pDisp (table_assign pDisp member p).

(** The loop over the names of the enabled extensions. *)
Fixpoint register_extensions (pDisp : Z) (ppEnabledExtensionNames : list string) (i : Z)
    (count : nat) : vk unit :=
  match count with
  | O => mret tt
  | S count =>
      name ← determinate (ppEnabledExtensionNames !! Z.to_nat i);
      (if bool_decide (name = VK_EXT_KHR_DEVICE_SWAPCHAIN_EXTENSION_NAME)
       then modify_state (fun st => set_deviceExtMap (<[pDisp := true]> (deviceExtMap st)) st)
       else mret tt);;
      register_extensions pDisp ppEnabledExtensionNames (i + 1) count
  end.

Definition createDeviceRegisterExtensions (ppEnabledExtensionNames : list string)
    (enabledExtensionNameCount : Z) (device : Z) : vk unit :=
  pDisp ← ask (get_dispatch_table device);
  gpa ← through pDisp (table_member pDisp "GetDeviceProcAddr");
  resolve pDisp gpa device "GetSurfacePropertiesKHR";;
  resolve pDisp gpa device "GetSurfaceFormatsKHR";;
  resolve pDisp gpa device "GetSurfacePresentModesKHR";;
  resolve pDisp gpa device "CreateSwapchainKHR";;
  resolve pDisp gpa device "DestroySwapchainKHR";;
  resolve pDisp gpa device "GetSwapchainImagesKHR";;
  resolve pDisp gpa device "AcquireNextImageKHR";;
  resolve pDisp gpa device "QueuePresentKHR";;
  modify_state (fun st => set_deviceExtMap (<[pDisp := false]> (deviceExtMap st)) st);;
  register_extensions pDisp ppEnabledExtensionNames 0
    (Z.to_nat (to_uint32 enabledExtensionNameCount)).

(** [device_before] is what [*pDevice] holds when the function is entered. *)
Definition vkCreateDevice (gpu : Z) (ppEnabledExtensionNames : list string)
    (enabledExtensionNameCount : Z) (device_before : Z) : vk (Z * Z) :=
  pDisp ← ask (get_dispatch_table device_before);
  '(result, device) ← through pDisp (CreateDevice pDisp gpu ppEnabledExtensionNames);
  (if result =? VK_SUCCESS then
     init_screenshot;;
     createDeviceRegisterExtensions ppEnabledExtensionNames enabledExtensionNameCount device;;
     (* Create a mapping from a device to a physicalDevice *)
     st ← get_state;
     let d := existing_or fresh_device (deviceMap st !! device) in
     put_state (set_deviceMap (<[device := Some (assign_physicalDevice gpu d)]> (deviceMap st)) st)
   else mret tt);;
  mret (result, device).

Definition vkEnumeratePhysicalDevices (instance_ : Z) (array_given : bool) : vk Z :=
  pTable ← ask (instance_dispatch_table instance_);
  '(result, count, pPhysicalDevices) ←
    through pTable (EnumeratePhysicalDevices pTable instance_ array_given);
  (if (result =? VK_SUCCESS) && (0 <? to_uint32 count) && array_given
   then map_physical_devices instance_ pPhysicalDevices 0 (Z.to_nat (to_uint32 count))
   else mret tt);;
  mret result.

(** Returns what is in [*pQueue] at the end. *)
Definition vkGetDeviceQueue (device queueNodeIndex queueIndex : Z) : vk Z :=
  pTable ← ask (table_map_index device);
  t ← ask (get_dispatch_table device);
  queue ← through t (GetDeviceQueue t device queueNodeIndex queueIndex);
  ask loader_platform_thread_lock_mutex;;
  st ← get_state;
  if all_done st then
    (* We are all done taking screenshots, so don't do anything else *)
    ask loader_platform_thread_unlock_mutex;;
    mret queue
  else
    ask (table_map_emplace queue pTable);;
    let d := existing_or fresh_device (deviceMap st !! device) in
    put_state (set_deviceMap (<[device := Some (assign_queue queue d)]> (deviceMap st)) st);;
    ask loader_platform_thread_unlock_mutex;;
    mret queue.

(** The result and what is in [*pCommandPool] at the end. *)
Definition vkCreateCommandPool (device : Z) : vk (Z * Z) :=
  pTable ← ask (table_map_index device);
  t ← ask (get_dispatch_table device);
  '(result, commandPool) ← through t (CreateCommandPool t device);
  ask loader_platform_thread_lock_mutex;;
  st ← get_state;
  if all_done st then
    ask loader_platform_thread_unlock_mutex;;
    mret (result, commandPool)
  else
    let d := existing_or fresh_device (deviceMap st !! device) in
    put_state (set_deviceMap
                 (<[device := Some (assign_commandPool commandPool d)]> (deviceMap st)) st);;
    ask loader_platform_thread_unlock_mutex;;
    mret (result, commandPool).

(** [swapchainMap.insert] leaves an entry that is there alone.  The object
    registered with the dispatch tables is the pointer [pSwapchain] itself.
    The result comes with what is in [*pSwapchain] at the end. *)
Definition vkCreateSwapchainKHR (device : Z) (imageExtent : VkExtent2D) (imageFormat : Z)
    (pSwapchain : Z) : vk (Z * Z) :=
  pTable ← ask (table_map_index device);
  t ← ask (get_dispatch_table device);
  '(result, swapchain) ← through t (CreateSwapchainKHR t device imageExtent imageFormat);
  ask loader_platform_thread_lock_mutex;;
  st ← get_state;
  if all_done st then
    ask loader_platform_thread_unlock_mutex;;
    mret (result, swapchain)
  else
    (if result =? VK_SUCCESS then
       let swapchainMapElem :=
         {| sc_device := device; sc_imageExtent := imageExtent;
            sc_format := imageFormat; sc_imageList := None |} in
       match swapchainMap st !! swapchain with
       | Some _ => mret tt
       | None =>
           put_state (set_swapchainMap
                        (<[swapchain := Some swapchainMapElem]> (swapchainMap st)) st)
       end;;
       (* Create a mapping for the swapchain object into the dispatch table *)
       ask (table_map_emplace pSwapchain pTable)
     else mret tt);;
    ask loader_platform_thread_unlock_mutex;;
    mret (result, swapchain).

(** The first loop of [vkGetSwapchainImagesKHR]. *)
Fixpoint map_images (swapchain : Z) (pSwapchainImages : list Z) (i : Z) (count : nat)
    : vk unit :=
  match count with
  | O => mret tt
  | S count =>
      image ← determinate (pSwapchainImages !! Z.to_nat i);
      st ← get_state;
      sc ← deref (swapchainMap st !! swapchain);
      put_state (set_imageMap
                   (<[image := Some {| im_device := sc_device sc;
                                       im_imageExtent := sc_imageExtent sc;
                                       im_format := sc_format sc |}]> (imageMap st)) st);;
      map_images swapchain pSwapchainImages (i + 1) count
  end.

Definition vkGetSwapchainImagesKHR (device swapchain : Z) (array_given : bool) : vk Z :=
  t ← ask (get_dispatch_table device);
  '(result, count, pSwapchainImages) ←
    through t (GetSwapchainImagesKHR t device swapchain array_given);
  ask loader_platform_thread_lock_mutex;;
  st ← get_state;
  if all_done st then
    ask loader_platform_thread_unlock_mutex;;
    mret result
  else
    (if (result =? VK_SUCCESS) && array_given &&
        negb (bool_decide (swapchainMap st = ∅)) &&
        bool_decide (is_Some (swapchainMap st !! swapchain))
     then
       let i := Z.to_nat (to_uint32 count) in
       map_images swapchain pSwapchainImages 0 i;;
       st ← get_state;
       match swapchainMap st !! swapchain with
       | Some (Some swapchainMapElem) =>
           if (1 <=? Z.of_nat i) then
             let imageList := take i pSwapchainImages in
             put_state (set_swapchainMap
                          (<[swapchain := Some (assign_imageList imageList swapchainMapElem)]>
                             (swapchainMap st)) st)
           else mret tt
       | _ => mret tt
       end
     else mret tt);;
    ask loader_platform_thread_unlock_mutex;;
    mret result.

(** [INT_MAX], past which [frameNumber++] is undefined. *)
Definition INT_MAX : Z := 2 ^ 31 - 1.

(** The four maps freed and cleared. *)
Definition clear_maps (st : layer) : layer :=
  set_swapchainMap ∅ (set_imageMap ∅ (set_deviceMap ∅ (set_physDeviceMap ∅ st))).

(** The first block of [vkQueuePresentKHR] under the mutex: the environment
    is read once. *)
Definition query_environment : vk unit :=
  st ← get_state;
  if negb (screenshotEnvQueried st) then
    _vk_screenshot ← ask (getenv "_VK_SCREENSHOT");
    put_state (set_screenshotEnvQueried true
                 (set_screenshotFrames
                    (parse_screenshot_env atoi _vk_screenshot (screenshotFrames st)) st))
  else mret tt.

(** The second block, entered after a successful present while frames are
    left to capture. *)
Definition capture_frame (pPresentInfo : VkPresentInfoKHR) : vk unit :=
  st ← get_state;
  match list_find (eq (frameNumber st)) (screenshotFrames st) with
  | Some (it, _) =>
      let fileName := to_string (frameNumber st) +:+ ".ppm" in
      (* We'll dump only one image: the first *)
      swapchain ← determinate (swapchains pPresentInfo !! 0%nat);
      sc ← deref (swapchainMap st !! swapchain);
      imageList ← determinate (sc_imageList sc);
      index ← determinate (imageIndices pPresentInfo !! 0%nat);
      image ← determinate (imageList !! Z.to_nat (to_uint32 index));
      writePPM fileName image;;
      st ← get_state;
      let st := set_screenshotFrames (delete it (screenshotFrames st)) st in
      (* Free all our maps since we are done with them. *)
      put_state (if bool_decide (screenshotFrames st = []) then clear_maps st else st)
  | None => mret tt
  end.

Definition vkQueuePresentKHR (queue : Z) (pPresentInfo : VkPresentInfoKHR) : vk Z :=
  st ← get_state;
  (if frameNumber st =? 10 then ask fflush_stdout else mret tt);;
  t ← ask (get_dispatch_table queue);
  result ← through t (QueuePresentKHR t queue pPresentInfo);
  ask loader_platform_thread_lock_mutex;;
  query_environment;;
  st ← get_state;
  (if (result =? VK_SUCCESS) && negb (bool_decide (screenshotFrames st = []))
   then capture_frame pPresentInfo else mret tt);;
  st ← get_state;
  (if frameNumber st =? INT_MAX then Undefined
   else put_state (set_frameNumber (frameNumber st + 1) st));;
  ask loader_platform_thread_unlock_mutex;;
  mret result.

(** [deviceExtMap.size() != 0 && deviceExtMap[pDisp].wsi_enabled]; indexing
    the map makes an entry for a key that has none. *)
Definition wsi_enabled (pDisp : Z) : vk bool :=
  st ← get_state;
  if negb (bool_decide (deviceExtMap st = ∅)) then
    let enabled := default false (deviceExtMap st !! pDisp) in
    put_state (set_deviceExtMap (<[pDisp := enabled]> (deviceExtMap st)) st);;
    mret enabled
  else mret false.

Definition vkGetDeviceProcAddr (dev : Z) (funcName : string) : vk PFN_vkVoidFunction :=
  if dev =? 0 then mret (pointer_value 0) else
  (* loader uses this to force layer initialization; device object is wrapped *)
  if bool_decide (funcName = "vkGetDeviceProcAddr") then
    ask (initDeviceTable dev);;
    mret (own_function "vkGetDeviceProcAddr")
  else if bool_decide (funcName = "vkCreateDevice") then mret (own_function "vkCreateDevice")
  else if bool_decide (funcName = "vkGetDeviceQueue") then mret (own_function "vkGetDeviceQueue")
  else if bool_decide (funcName = "vkCreateCommandPool")
  then mret (own_function "vkCreateCommandPool")
  else
    pDisp ← ask (get_dispatch_table dev);
    enabled ← wsi_enabled pDisp;
    if enabled && bool_decide (funcName = "vkCreateSwapchainKHR")
    then mret (own_function "vkCreateSwapchainKHR")
    else if enabled && bool_decide (funcName = "vkGetSwapchainImagesKHR")
    then mret (own_function "vkGetSwapchainImagesKHR")
    else if enabled && bool_decide (funcName = "vkQueuePresentKHR")
    then mret (own_function "vkQueuePresentKHR")
    else
      gpa ← through pDisp (table_member pDisp "GetDeviceProcAddr");
      if gpa =? 0 then mret (pointer_value 0) else
      p ← ask (GetDeviceProcAddr gpa dev funcName);
      mret (pointer_value p).

Definition vkGetInstanceProcAddr (instance_ : Z) (funcName : string)
    : vk PFN_vkVoidFunction :=
  if instance_ =? 0 then mret (pointer_value 0) else
  (* loader uses this to force layer initialization; instance object is wrapped *)
  if bool_decide (funcName = "vkGetInstanceProcAddr") then
    ask (initInstanceTable instance_);;
    mret (own_function "vkGetInstanceProcAddr")
  else if bool_decide (funcName = "vkEnumeratePhysicalDevices")
  then mret (own_function "vkEnumeratePhysicalDevices")
  else if bool_decide (funcName = "vkEnumerateDeviceExtensionProperties")
  then mret (own_function "vkEnumerateDeviceExtensionProperties")
  else
    pTable ← ask (instance_dispatch_table instance_);
    gpa ← through pTable (table_member pTable "GetInstanceProcAddr");
    if gpa =? 0 then mret (pointer_value 0) else
    p ← ask (GetInstanceProcAddr gpa instance_ funcName);
    mret (pointer_value p).

(** *** Calls into the layer, one after the other *)

Inductive entry_call : Type :=
| call_vkCreateDevice (gpu : Z) (ppEnabledExtensionNames : list string)
    (enabledExtensionNameCount device_before : Z)
| call_vkEnumeratePhysicalDevices (instance_ : Z) (array_given : bool)
| call_vkGetDeviceQueue (device queueNodeIndex queueIndex : Z)
| call_vkCreateCommandPool (device : Z)
| call_vkCreateSwapchainKHR (device : Z) (imageExtent : VkExtent2D)
    (imageFormat pSwapchain : Z)
| call_vkGetSwapchainImagesKHR (device swapchain : Z) (array_given : bool)
| call_vkQueuePresentKHR (queue : Z) (pPresentInfo : VkPresentInfoKHR)
| call_vkGetDeviceProcAddr (dev : Z) (funcName : string)
| call_vkGetInstanceProcAddr (instance_ : Z) (funcName : string).

Definition entry (c : entry_call) : vk unit :=
  match c with
  | call_vkCreateDevice gpu names count device_before =>
      vkCreateDevice gpu names count device_before;; mret tt
  | call_vkEnumeratePhysicalDevices instance_ array_given =>
      vkEnumeratePhysicalDevices instance_ array_given;; mret tt
  | call_vkGetDeviceQueue device queueNodeIndex queueIndex =>
      vkGetDeviceQueue device queueNodeIndex queueIndex;; mret tt
  | call_vkCreateCommandPool device => vkCreateCommandPool device;; mret tt
  | call_vkCreateSwapchainKHR device imageExtent imageFormat pSwapchain =>
      vkCreateSwapchainKHR device imageExtent imageFormat pSwapchain;; mret tt
  | call_vkGetSwapchainImagesKHR device swapchain array_given =>
      vkGetSwapchainImagesKHR device swapchain array_given;; mret tt
  | call_vkQueuePresentKHR queue pPresentInfo =>
      vkQueuePresentKHR queue pPresentInfo;; mret tt
  | call_vkGetDeviceProcAddr dev funcName => vkGetDeviceProcAddr dev funcName;; mret tt
  | call_vkGetInstanceProcAddr instance_ funcName =>
      vkGetInstanceProcAddr instance_ funcName;; mret tt
  end.

(** What an application does to the layer, as far as the layer can tell: a
    sequence of calls. *)
Fixpoint application (cs : list entry_call) : vk unit :=
  match cs with
  | [] => mret tt
  | c :: cs => entry c;; application cs
  end.

End Layer.

(** *** Reading a log of the layer *)

(** The files written. *)
Definition file_written (ev : vk_logged) : option (string * list Z) :=
  match ev with
  | VkLogged (ofstream filename content) _ => Some (filename, content)
  | _ => None
  end.

Definition files_written (log : list vk_logged) : list (string * list Z) :=
  omap file_written log.

(** What a call does to the mutex: [Some true] takes it, [Some false] gives
    it up. *)
Definition mutex_op (ev : vk_logged) : option bool :=
  match ev with
  | VkLogged loader_platform_thread_lock_mutex _ => Some true
  | VkLogged loader_platform_thread_unlock_mutex _ => Some false
  | _ => None
  end.

(** The mutex followed through a log: whether it is held at the end, or
    [None] if it is taken while held or given up while free. *)
Fixpoint mutex_run (held : bool) (log : list vk_logged) : option bool :=
  match log with
  | [] => Some held
  | ev :: log =>
      match mutex_op ev with
      | Some true => if held then None else mutex_run true log
      | Some false => if held then mutex_run false log else None
      | None => mutex_run held log
      end
  end.

(** The answers of [getenv]. *)
Definition env_answer (ev : vk_logged) : option (option string) :=
  match ev with
  | VkLogged e a =>
      match e in vkE X return X -> option (option string) with
      | getenv _ => fun a => Some a
      | _ => fun _ => None
      end a
  end.

Definition env_answers (log : list vk_logged) : list (option string) :=
  omap env_answer log.

(** The results the next layer gave to [QueuePresentKHR]. *)
Definition present_result (ev : vk_logged) : option Z :=
  match ev with
  | VkLogged e a =>
      match e in vkE X return X -> option Z with
      | QueuePresentKHR _ _ _ => fun a => Some a
      | _ => fun _ => None
      end a
  end.

Definition present_results (log : list vk_logged) : list Z :=
  omap present_result log.

(** The dispatch tables that [get_dispatch_table] returned for an object. *)
Definition dispatch_table_of (object : Z) (ev : vk_logged) : option Z :=
  match ev with
  | VkLogged e a =>
      match e in vkE X return X -> option Z with
      | get_dispatch_table o => fun a => if bool_decide (o = object) then Some a else None
      | _ => fun _ => None
      end a
  end.

Definition dispatch_tables (object : Z) (log : list vk_logged) : list Z :=
  omap (dispatch_table_of object) log.

(** *** Reading the pixels of a file

    Where the colour component [c] of a pixel is taken from: for
    B8G8R8A8 the bytes of a pixel are written in reverse. *)
Definition component_offset `{Vulkan} (format_ : Z) (c : nat) : Z :=
  if format_ =? VK_FORMAT_B8G8R8A8_UNORM then 2 - Z.of_nat c else Z.of_nat c.

Definition recognized `{Vulkan} (format_ : Z) : bool :=
  (format_ =? VK_FORMAT_B8G8R8A8_UNORM) || (format_ =? VK_FORMAT_R8G8B8A8_UNORM).

(** What holds of the outcome, the final state and the log of a program of
    the layer whatever the other side answers. *)
Fixpoint vk_always {R : Type} (p : vk R) (st : layer)
    (Q : vk_outcome R -> layer -> list vk_logged -> Prop) : Prop :=
  match p with
  | Done r => Q (Finished r) st []
  | Ask e k => forall a, vk_always (k a) st (fun r st' log => Q r st' (VkLogged e a :: log))
  | GetState k => vk_always (k st) st Q
  | PutState st' k => vk_always k st' Q
  | Undefined => Q UndefinedBehaviour st []
  | Failed msg => Q (AssertionFailed msg) st []
  end.

(** The outcome of a first part passed on to what follows it. *)
Definition vk_then {A B : Type} (f : A -> vk B)
    (Q : vk_outcome B -> layer -> list vk_logged -> Prop)
    (r : vk_outcome A) (st : layer) (log : list vk_logged) : Prop :=
  match r with
  | Finished a => vk_always (f a) st (fun r' st' log' => Q r' st' (log ++ log'))
  | UndefinedBehaviour => Q UndefinedBehaviour st log
  | AssertionFailed msg => Q (AssertionFailed msg) st log
  end.

(** The file [writePPM] writes for an image with the given record: the
    header for its size, then the rows read from [start] on in [memory]. *)
Definition ppm_content `{Vulkan} (im : ImageMapStruct) (memory : Z -> Z)
    (start rowPitch : Z) : list Z :=
  let width := to_int32 (extent_width (im_imageExtent im)) in
  let height := to_int32 (extent_height (im_imageExtent im)) in
  ppm_header width height ++
  (ppm_rows (im_format im) memory start rowPitch width (Z.to_nat height)).1.

(** What [writePPM] guarantees. *)
Definition writePPM_post `{Headers} `{Vulkan} (filename : string) (image1 : Z) (st : layer)
    (r : vk_outcome unit) (st' : layer) (log : list vk_logged) : Prop :=
  st' = st /\
  Forall (fun ev => mutex_op ev = None) log /\
  env_answers log = [] /\
  present_results log = [] /\
  match r with
  | Finished _ =>
      exists im t device mem err ptr memory t' image2 offset rowPitch,
        imageMap st !! image1 = Some (Some im) /\
        VkLogged (MapMemory t device mem) (err, ptr, memory) ∈ log /\
        VkLogged (GetImageSubresourceLayout t' device image2) (offset, rowPitch) ∈ log /\
        (NDEBUG = false -> err = 0) /\
        files_written log = [(filename, ppm_content im memory (ptr + offset) rowPitch)]
  | _ => files_written log = []
  end.

(** *** What the entry points guarantee *)

Definition finished {R : Type} (r : vk_outcome R) : bool :=
  match r with
  | Finished _ => true
  | _ => false
  end.

(** The two entry points that fill a map without looking at the list of
    frames. *)
Definition creates_device (c : entry_call) : bool :=
  match c with
  | call_vkCreateDevice _ _ _ _ => true
  | _ => false
  end.

Definition enumerates (c : entry_call) : bool :=
  match c with
  | call_vkEnumeratePhysicalDevices _ _ => true
  | _ => false
  end.

(** An entry point other than [vkQueuePresentKHR]: no file, no look at the
    environment, the list of frames and the frame counter untouched, the
    mutex free at the end; and once all screenshots are taken, the maps of
    swapchains and images are left alone. *)
Definition quiet_post `{Vulkan} (c : entry_call) (st : layer) (returned : bool)
    (st' : layer) (log : list vk_logged) : Prop :=
  files_written log = [] /\
  env_answers log = [] /\
  present_results log = [] /\
  screenshotFrames st' = screenshotFrames st /\
  screenshotEnvQueried st' = screenshotEnvQueried st /\
  frameNumber st' = frameNumber st /\
  is_Some (mutex_run false log) /\
  (returned = true -> mutex_run false log = Some false) /\
  (all_done st = true ->
   swapchainMap st' = swapchainMap st /\
   imageMap st' = imageMap st /\
   (creates_device c = false -> deviceMap st' = deviceMap st) /\
   (enumerates c = false -> physDeviceMap st' = physDeviceMap st)).

(** The list of frames a present works with: the one read from the
    environment if this present is the first. *)
Definition present_frames `{Vulkan} (st : layer) (log : list vk_logged) : list Z :=
  if screenshotEnvQueried st then screenshotFrames st
  else match env_answers log with
       | env :: _ => parse_screenshot_env atoi env (screenshotFrames st)
       | [] => screenshotFrames st
       end.

(** The image a present would capture: the one at the first image index in
    the list of the first swapchain. *)
Definition presented_image (st : layer) (pPresentInfo : VkPresentInfoKHR) : option Z :=
  swapchain ← swapchains pPresentInfo !! 0%nat;
  sc ← mjoin (swapchainMap st !! swapchain);
  imageList ← sc_imageList sc;
  index ← imageIndices pPresentInfo !! 0%nat;
  imageList !! Z.to_nat (to_uint32 index).

Definition same_maps (st st' : layer) : Prop :=
  swapchainMap st' = swapchainMap st /\ imageMap st' = imageMap st /\
  deviceMap st' = deviceMap st /\ physDeviceMap st' = physDeviceMap st.

Definition no_maps (st' : layer) : Prop :=
  swapchainMap st' = ∅ /\ imageMap st' = ∅ /\ deviceMap st' = ∅ /\ physDeviceMap st' = ∅.

(** What [vkQueuePresentKHR] guarantees when it returns [result]. *)
Definition presented `{Vulkan} (pPresentInfo : VkPresentInfoKHR) (st : layer) (result : Z)
    (st' : layer) (log : list vk_logged) : Prop :=
  let n := frameNumber st in
  let frames := present_frames st log in
  mutex_run false log = Some false /\
  present_results log = [result] /\
  length (env_answers log) = (if screenshotEnvQueried st then 0 else 1)%nat /\
  frameNumber st' = n + 1 /\
  screenshotEnvQueried st' = true /\
  if bool_decide (result = VK_SUCCESS /\ n ∈ frames) then
    (exists image im memory start rowPitch,
       presented_image st pPresentInfo = Some image /\
       imageMap st !! image = Some (Some im) /\
       files_written log =
         [(to_string n +:+ ".ppm", ppm_content im memory start rowPitch)]) /\
    (exists it,
       list_find (eq n) frames = Some (it, n) /\
       screenshotFrames st' = delete it frames) /\
    (if bool_decide (screenshotFrames st' = []) then no_maps st' else same_maps st st')
  else
    files_written log = [] /\ screenshotFrames st' = frames /\ same_maps st st'.

Definition present_post `{Vulkan} (pPresentInfo : VkPresentInfoKHR) (st : layer)
    (r : vk_outcome Z) (st' : layer) (log : list vk_logged) : Prop :=
  is_Some (mutex_run false log) /\
  deviceExtMap st' = deviceExtMap st /\
  globalLockInitialized st' = globalLockInitialized st /\
  (all_done st = true ->
   files_written log = [] /\ env_answers log = [] /\ all_done st' = true /\
   same_maps st st') /\
  (forall result, r = Finished result -> presented pPresentInfo st result st' log).

(** The state differs at most in the named map. *)
Definition only_physDeviceMap (st st' : layer) : Prop :=
  st' = set_physDeviceMap (physDeviceMap st') st.

Definition only_imageMap (st st' : layer) : Prop :=
  st' = set_imageMap (imageMap st') st.

Definition only_deviceExtMap (st st' : layer) : Prop :=
  st' = set_deviceExtMap (deviceExtMap st') st.

(** The image map after the images of a swapchain have been entered. *)
Definition register_images (sc : SwapchainMapStruct) (images : list Z)
    (m : gmap Z (option ImageMapStruct)) : gmap Z (option ImageMapStruct) :=
  foldl (fun m image =>
           <[image := Some {| im_device := sc_device sc;
                              im_imageExtent := sc_imageExtent sc;
                              im_format := sc_format sc |}]> m) m images.

(** A log without files, looks at the environment, presents or use of the
    mutex. *)
Definition silent (log : list vk_logged) : Prop :=
  files_written log = [] /\ env_answers log = [] /\ present_results log = [] /\
  Forall (fun ev => mutex_op ev = None) log.

(** Whether the swapchain extension is among the first [count] names. *)
Definition swapchain_extension_enabled `{Vulkan} (ppEnabledExtensionNames : list string)
    (enabledExtensionNameCount : Z) : bool :=
  bool_decide (VK_EXT_KHR_DEVICE_SWAPCHAIN_EXTENSION_NAME
                 ∈ take (Z.to_nat (to_uint32 enabledExtensionNameCount))
                     ppEnabledExtensionNames).

(** What [vkCreateDevice] guarantees when it returns. *)
Definition device_created `{Vulkan} (gpu : Z) (names : list string) (count : Z)
    (st : layer) (result device : Z) (st' : layer) (log : list vk_logged) : Prop :=
  if result =? VK_SUCCESS then
    (exists pDisp,
       pDisp ∈ dispatch_tables device log /\
       deviceExtMap st' =
       <[pDisp := swapchain_extension_enabled names count]> (deviceExtMap st)) /\
    deviceMap st' =
      <[device := Some (assign_physicalDevice gpu
                          (existing_or fresh_device (deviceMap st !! device)))]>
        (deviceMap st) /\
    globalLockInitialized st' <> 0
  else st' = st.

(** The names [vkGetDeviceProcAddr] answers itself: four always, three for
    devices with the swapchain extension. *)
Definition intercepted_always : list string :=
  ["vkGetDeviceProcAddr"; "vkCreateDevice"; "vkGetDeviceQueue"; "vkCreateCommandPool"].

Definition intercepted_wsi : list string :=
  ["vkCreateSwapchainKHR"; "vkGetSwapchainImagesKHR"; "vkQueuePresentKHR"].

(** [wsi_enabled] is recorded as true for the dispatch table that the log
    shows for the device. *)
Definition wsi_recorded (st : layer) (dev : Z) (log : list vk_logged) : Prop :=
  exists pDisp,
    pDisp ∈ dispatch_tables dev log /\ deviceExtMap st !! pDisp = Some true.

Definition device_proc_addr_post (dev : Z) (funcName : string) (st : layer)
    (r : vk_outcome PFN_vkVoidFunction) (st' : layer) (log : list vk_logged) : Prop :=
  only_deviceExtMap st st' /\
  (forall name, r = Finished (own_function name) ->
     name = funcName /\ dev <> 0 /\
     (name ∈ intercepted_always \/ name ∈ intercepted_wsi /\ wsi_recorded st dev log)) /\
  (dev <> 0 -> funcName ∈ intercepted_always -> r = Finished (own_function funcName)) /\
  (dev <> 0 -> funcName ∈ intercepted_wsi -> wsi_recorded st dev log ->
   r = Finished (own_function funcName)) /\
  (dev = 0 -> r = Finished (pointer_value 0) /\ log = []).

(** What [vkGetSwapchainImagesKHR] has done when it returns [result], for a
    next layer that stored [count] and left [images] in the array. *)
Definition images_fetched `{Vulkan} (swapchain : Z) (array_given : bool) (st : layer)
    (result count : Z) (images : list Z) (st' : layer) : Prop :=
  let n := Z.to_nat (to_uint32 count) in
  if (result =? VK_SUCCESS) && array_given && negb (all_done st) &&
     bool_decide (is_Some (swapchainMap st !! swapchain))
  then
    (n <= length images)%nat /\
    forall sc,
      swapchainMap st !! swapchain = Some (Some sc) ->
      st' = set_swapchainMap
              (if bool_decide (1 <= n)%nat
               then <[swapchain := Some (assign_imageList (take n images) sc)]>
                      (swapchainMap st)
               else swapchainMap st)
              (set_imageMap (register_images sc (take n images) (imageMap st)) st)
  else st' = st.

(** The answers of the next layer's [GetSwapchainImagesKHR]. *)
Definition swapchain_images_answer (ev : vk_logged) : option (Z * Z * list Z) :=
  match ev with
  | VkLogged e a =>
      match e in vkE X return X -> option (Z * Z * list Z) with
      | GetSwapchainImagesKHR _ _ _ _ => fun a => Some a
      | _ => fun _ => None
      end a
  end.

(** What the two blocks of [vkQueuePresentKHR] guarantee. *)
Definition environment_queried `{Vulkan} (st st' : layer) (log : list vk_logged) : Prop :=
  if screenshotEnvQueried st then log = [] /\ st' = st
  else exists env,
         log = [VkLogged (getenv "_VK_SCREENSHOT") env] /\
         st' = set_screenshotEnvQueried true
                 (set_screenshotFrames
                    (parse_screenshot_env atoi env (screenshotFrames st)) st).

Definition frame_captured `{Vulkan} (pPresentInfo : VkPresentInfoKHR) (st : layer)
    (r : vk_outcome unit) (st' : layer) (log : list vk_logged) : Prop :=
  Forall (fun ev => mutex_op ev = None) log /\
  env_answers log = [] /\
  present_results log = [] /\
  match r, list_find (eq (frameNumber st)) (screenshotFrames st) with
  | Finished _, Some (it, _) =>
      (exists image im memory start rowPitch,
         presented_image st pPresentInfo = Some image /\
         imageMap st !! image = Some (Some im) /\
         files_written log =
           [(to_string (frameNumber st) +:+ ".ppm",
             ppm_content im memory start rowPitch)]) /\
      st' = let left := set_screenshotFrames (delete it (screenshotFrames st)) st in
            if bool_decide (screenshotFrames left = []) then clear_maps left else left
  | _, _ => files_written log = [] /\ st' = st
  end.

(** *** Sequences of calls *)

(** What an entry point guarantees, whichever it is. *)
Definition entry_post `{Vulkan} (c : entry_call) (st : layer) (r : vk_outcome unit)
    (st' : layer) (log : list vk_logged) : Prop :=
  match c with
  | call_vkQueuePresentKHR _ pPresentInfo =>
      exists r0 : vk_outcome Z,
        finished r0 = finished r /\ present_post pPresentInfo st r0 st' log
  | _ => quiet_post c st (finished r) st' log
  end.

(** The frames among [frames] that presents numbered from [n] on meet with a
    result of [VK_SUCCESS]. *)
Fixpoint captured_frames `{Vulkan} (frames : list Z) (n : Z) (results : list Z) : list Z :=
  match results with
  | [] => []
  | result :: results =>
      (if (result =? VK_SUCCESS) && bool_decide (n ∈ frames) then [n] else []) ++
      captured_frames frames (n + 1) results
  end.

Definition presents (c : entry_call) : bool :=
  match c with
  | call_vkQueuePresentKHR _ _ => true
  | _ => false
  end.

(** *** Inputs for examples

    A test for the undefined format, which is the only one the header's
    [icd_format_is_undef] can be meant to accept. *)
Definition sample_is_undef (format : VK_FORMAT) : bool :=
  match format with
  | VK_FMT_UNDEFINED => true
  | _ => false
  end.

(** *** A small platform to run the layer on

    Values for what the Vulkan headers and the C library define, and a next
    layer that succeeds at everything with fixed answers. *)

(** The decimal digits a string starts with, as a number. *)
Fixpoint leading_digits (acc : Z) (s : string) : Z :=
  match s with
  | EmptyString => acc
  | String ch s' =>
      if (48 <=? nat_of_ascii ch)%nat && (nat_of_ascii ch <=? 57)%nat
      then leading_digits (10 * acc + (Z.of_nat (nat_of_ascii ch) - 48)) s'
      else acc
  end.

Definition sample_vulkan : Vulkan :=
  {| VK_SUCCESS := 0;
     VK_FORMAT_B8G8R8A8_UNORM := 44;
     VK_FORMAT_R8G8B8A8_UNORM := 37;
     VK_MEMORY_PROPERTY_HOST_VISIBLE_BIT := 2;
     VK_EXT_KHR_DEVICE_SWAPCHAIN_EXTENSION_NAME := "VK_EXT_KHR_device_swapchain";
     atoi := leading_digits 0;
     to_string := pretty;
     put_int := fun v => string_bytes (pretty v) |}.

(** The next layer: every table and function pointer is 1, every call
    succeeds; the device is 7, the queue 5, the command pool 6, the swapchain
    8 with the one image 9; the environment asks for frames 0 and 2; mapped
    memory holds at each address the low byte of the address. *)
Definition sample_answer {X : Type} (e : vkE X) : X :=
  match e in vkE X return X with
  | loader_platform_thread_create_mutex => tt
  | loader_platform_thread_lock_mutex => tt
  | loader_platform_thread_unlock_mutex => tt
  | getenv _ => Some "0,2"
  | fflush_stdout => tt
  | printf _ => tt
  | ofstream _ _ => tt
  | table_map_index _ => 1
  | table_map_emplace _ _ => tt
  | get_dispatch_table _ => 1
  | instance_dispatch_table _ => 1
  | initDeviceTable _ => tt
  | initInstanceTable _ => tt
  | table_member _ _ => 1
  | table_assign _ _ _ => tt
  | GetDeviceProcAddr _ _ _ => 1
  | GetInstanceProcAddr _ _ _ => 1
  | CreateDevice _ _ _ => (0, 7)
  | EnumeratePhysicalDevices _ _ _ => (0, 1, [3])
  | GetDeviceQueue _ _ _ _ => 5
  | CreateCommandPool _ _ => (0, 6)
  | CreateSwapchainKHR _ _ _ _ => (0, 8)
  | GetSwapchainImagesKHR _ _ _ _ => (0, 1, [9])
  | QueuePresentKHR _ _ _ => 0
  | CreateImage _ _ _ _ _ => (0, 10)
  | GetImageMemoryRequirements _ _ _ => (16, 1)
  | GetPhysicalDeviceMemoryProperties _ _ => fun _ => 2
  | AllocateMemory _ _ _ _ => (0, 11)
  | BindImageMemory _ _ _ _ => 0
  | AllocateCommandBuffers _ _ _ => (0, 12)
  | BeginCommandBuffer _ _ => 0
  | CmdCopyImage _ _ _ _ _ _ => tt
  | EndCommandBuffer _ _ => 0
  | QueueSubmit _ _ _ => 0
  | QueueWaitIdle _ _ => 0
  | DeviceWaitIdle _ _ => 0
  | GetImageSubresourceLayout _ _ _ => (0, 8)
  | MapMemory _ _ _ => (0, 4096, fun address => address mod 256)
  | UnmapMemory _ _ _ => tt
  | FreeMemory _ _ _ => tt
  | FreeCommandBuffers _ _ _ _ => tt
  end.

Definition sample_platform : platform :=
  {| vk_world := unit; vk_respond := fun X e w => (sample_answer e, w) |}.

(** An application that sets up a device with one swapchain of 2 by 1
    pixels and presents three times. *)
Definition sample_present : VkPresentInfoKHR :=
  {| swapchains := [8]; imageIndices := [0] |}.

Definition sample_setup : list entry_call :=
  [call_vkEnumeratePhysicalDevices 2 true;
   call_vkCreateDevice 3 ["VK_EXT_KHR_device_swapchain"] 1 7;
   call_vkGetDeviceQueue 7 0 0;
   call_vkCreateCommandPool 7;
   call_vkCreateSwapchainKHR 7 {| extent_width := 2; extent_height := 1 |} 44 8;
   call_vkGetSwapchainImagesKHR 7 8 true].

Definition sample_application : list entry_call :=
  sample_setup ++
  [call_vkQueuePresentKHR 5 sample_present;
   call_vkQueuePresentKHR 5 sample_present;
   call_vkQueuePresentKHR 5 sample_present].

(** ** Generic facts about running programs *)

Definition prepend {R W : Type} (log : list logged) (x : execution R W) : execution R W :=
  {| result := result x; final := final x; calls := log ++ calls x |}.

Section Running.

Context (M : libdrm).

Lemma run_ret {R : Type} (r : R) (w : world M) :
  run M (mret r) w = {| result := Returned r; final := w; calls := [] |}.
Proof. reflexivity. Qed.

Lemma run_call {X : Type} (e : drmE X) (w : world M) :
  run M (call e) w =
  {| result := Returned (respond M e w).1; final := (respond M e w).2;
     calls := [Logged e (respond M e w).1] |}.
Proof. unfold call. simpl. by destruct (respond M e w). Qed.

Lemma prepend_nil {R W : Type} (x : execution R W) : prepend [] x = x.
Proof. by destruct x. Qed.

(** Sequencing: the second program starts in the world the first one left,
    and the logs are concatenated; an abort cuts the sequence short. *)
Lemma run_bind {A B : Type} (p : prog A) (f : A -> prog B) (w : world M) :
  run M (p ≫= f) w =
  match result (run M p w) with
  | Returned a => prepend (calls (run M p w)) (run M (f a) (final (run M p w)))
  | Aborted msg =>
      {| result := Aborted msg; final := final (run M p w);
         calls := calls (run M p w) |}
  end.
Proof.
  unfold mbind, prog_mbind. revert w.
  induction p as [a|X e k IH|bo fl k IH|msg]; intros w; simpl.
  - by rewrite prepend_nil.
  - destruct (respond M e w) as [x w']. rewrite IH.
    destruct (run M (k x) w') as [[a|msg] wf log]; reflexivity.
  - apply IH.
  - reflexivity.
Qed.

Lemma outstanding_app (held : gmultiset resource) log1 log2 :
  outstanding held (log1 ++ log2) = outstanding (outstanding held log1) log2.
Proof. apply foldl_app. Qed.

End Running.

(** ** Reference counting: [intel_bo_ref], [intel_bo_unref] *)

Section Properties.

Context `{Headers} (M : libdrm).

Lemma intel_bo_ref_nonnull (bo : intel_bo) (w : world M) :
  run M (intel_bo_ref (Some bo)) w =
  {| result := Returned (Some bo);
     final := (respond M (drm_intel_bo_reference bo) w).2;
     calls := [Logged (drm_intel_bo_reference bo) tt] |}.
Proof.
  unfold intel_bo_ref, gem_bo. rewrite run_bind, run_call. simpl.
  by destruct (respond M (drm_intel_bo_reference bo) w) as [[] w'].
Qed.

Lemma intel_bo_unref_nonnull (bo : intel_bo) (w : world M) :
  run M (intel_bo_unref (Some bo)) w =
  {| result := Returned tt;
     final := (respond M (drm_intel_bo_unreference bo) w).2;
     calls := [Logged (drm_intel_bo_unreference bo) tt] |}.
Proof.
  unfold intel_bo_unref, gem_bo. rewrite run_call.
  by destruct (respond M (drm_intel_bo_unreference bo) w) as [[] w'].
Qed.

(** C9.  [intel_bo_ref] returns the very handle it was given, whatever the
    handle and whatever libdrm does; on a null handle [intel_bo_ref] and
    [intel_bo_unref] call nothing, leave the world (hence every reference
    count) as it was, and return normally. *)
Theorem ref_returns_argument_and_null_is_noop (w : world M) :
  (forall bo : option intel_bo, result (run M (intel_bo_ref bo) w) = Returned bo) /\
  run M (intel_bo_ref None) w = {| result := Returned None; final := w; calls := [] |} /\
  run M (intel_bo_unref None) w = {| result := Returned tt; final := w; calls := [] |}.
Proof.
  split; [|split]; try reflexivity.
  intros [bo|]; [|reflexivity]. by rewrite intel_bo_ref_nonnull.
Qed.

(** ** Tiling: [intel_bo_set_tiling] *)

Lemma precheck_passes tiling pitch :
  pitch_aligned tiling pitch ->
  match tiling with
  | INTEL_TILING_X => truthy (pitch mod 512)
  | INTEL_TILING_Y => truthy (pitch mod 128)
  | _ => false
  end = false.
Proof.
  unfold truthy. intros Hal.
  destruct tiling; simpl in Hal; try rewrite Hal; reflexivity.
Qed.

Lemma set_tiling_reaches_kernel (bo : intel_bo) tiling pitch (w : world M) :
  pitch_aligned tiling pitch ->
  exists answer,
    calls (run M (intel_bo_set_tiling bo tiling pitch) w) =
    [Logged (drm_intel_bo_set_tiling bo (to_uint32 (tiling_value tiling)) pitch) answer].
Proof.
  intros Hal. unfold intel_bo_set_tiling, gem_bo.
  rewrite (precheck_passes _ _ Hal), run_bind, run_call. simpl.
  destruct (respond M _ w) as [[err real] w']. simpl.
  exists (err, real). unfold assert.
  by destruct (_ || _), NDEBUG.
Qed.

(** C3.  An X-tiled request whose pitch is not a multiple of 512 and a
    Y-tiled request whose pitch is not a multiple of 128 return -1 without a
    single external call and without touching the world; an untiled request
    goes to the kernel with any pitch at all. *)
Theorem set_tiling_alignment_precheck (bo : intel_bo) (pitch : Z) (w : world M) :
  (forall tiling,
     (tiling = INTEL_TILING_X /\ pitch mod 512 <> 0) \/
     (tiling = INTEL_TILING_Y /\ pitch mod 128 <> 0) ->
     run M (intel_bo_set_tiling bo tiling pitch) w =
     {| result := Returned (-1); final := w; calls := [] |}) /\
  (exists answer,
     calls (run M (intel_bo_set_tiling bo INTEL_TILING_NONE pitch) w) =
     [Logged (drm_intel_bo_set_tiling bo (to_uint32 (tiling_value INTEL_TILING_NONE)) pitch)
        answer]).
Proof.
  split.
  - intros tiling [[-> Hp]|[-> Hp]]; unfold intel_bo_set_tiling, truthy;
      apply Z.eqb_neq in Hp; by rewrite Hp.
  - by apply set_tiling_reaches_kernel.
Qed.

(** C8.  Once the request is past the alignment test and has reached the
    kernel, an error status or an applied mode other than the requested one
    makes the call fail, and how depends on the build: with assertions the
    failed assertion "tiling mismatch" ends the program and the call does not
    return; with assertions compiled out ([NDEBUG]) the call returns -1. *)
Theorem set_tiling_mismatch_fatal_or_error (bo : intel_bo) tiling pitch (w w' : world M)
    (err applied : Z) :
  pitch_aligned tiling pitch ->
  respond M (drm_intel_bo_set_tiling bo (to_uint32 (tiling_value tiling)) pitch) w
    = ((err, applied), w') ->
  err <> 0 \/ applied <> to_uint32 (tiling_value tiling) ->
  run M (intel_bo_set_tiling bo tiling pitch) w =
  {| result := if NDEBUG then Returned (-1) else Aborted "tiling mismatch";
     final := w';
     calls := [Logged (drm_intel_bo_set_tiling bo (to_uint32 (tiling_value tiling)) pitch)
                 (err, applied)] |}.
Proof.
  intros Hal Hans Hbad. unfold intel_bo_set_tiling, gem_bo.
  rewrite (precheck_passes _ _ Hal), run_bind, run_call, Hans. simpl.
  assert (Hc : truthy err || negb (applied =? to_uint32 (tiling_value tiling)) = true).
  { unfold truthy. destruct Hbad as [Hb|Hb]; apply Z.eqb_neq in Hb; rewrite Hb;
      simpl; [reflexivity | apply orb_true_r]. }
  rewrite Hc. unfold assert. by destruct NDEBUG.
Qed.

(** The build without assertions and the request the kernel honours, each
    on its own. *)
Lemma set_tiling_mismatch_release_build (bo : intel_bo) tiling pitch (w w' : world M)
    (err applied : Z) :
  NDEBUG = true ->
  pitch_aligned tiling pitch ->
  respond M (drm_intel_bo_set_tiling bo (to_uint32 (tiling_value tiling)) pitch) w
    = ((err, applied), w') ->
  err <> 0 \/ applied <> to_uint32 (tiling_value tiling) ->
  result (run M (intel_bo_set_tiling bo tiling pitch) w) = Returned (-1).
Proof.
  intros Hrel Hal Hans Hbad. unfold intel_bo_set_tiling, gem_bo.
  rewrite (precheck_passes _ _ Hal), run_bind, run_call, Hans. simpl.
  assert (Hc : truthy err || negb (applied =? to_uint32 (tiling_value tiling)) = true).
  { unfold truthy. destruct Hbad as [Hb|Hb]; apply Z.eqb_neq in Hb; rewrite Hb;
      simpl; [reflexivity | apply orb_true_r]. }
  rewrite Hc. unfold assert. rewrite Hrel. reflexivity.
Qed.

Lemma set_tiling_applied (bo : intel_bo) tiling pitch (w w' : world M) :
  pitch_aligned tiling pitch ->
  respond M (drm_intel_bo_set_tiling bo (to_uint32 (tiling_value tiling)) pitch) w
    = ((0, to_uint32 (tiling_value tiling)), w') ->
  result (run M (intel_bo_set_tiling bo tiling pitch) w) = Returned 0.
Proof.
  intros Hal Hans. unfold intel_bo_set_tiling, gem_bo.
  rewrite (precheck_passes _ _ Hal), run_bind, run_call, Hans. simpl.
  by rewrite Z.eqb_refl.
Qed.

(** ** Relocations: [intel_bo_add_reloc] *)

Lemma add_reloc_run (bo : intel_bo) offset (target_bo : intel_bo) target_offset flags
    (w : world M) :
  let rd_wd :=
    if truthy (Z.land flags INTEL_RELOC_WRITE) then
      if truthy (Z.land flags INTEL_RELOC_GGTT)
      then (I915_GEM_DOMAIN_INSTRUCTION, I915_GEM_DOMAIN_INSTRUCTION)
      else (I915_GEM_DOMAIN_RENDER, I915_GEM_DOMAIN_RENDER)
    else
      (Z.lor (Z.lor (Z.lor I915_GEM_DOMAIN_RENDER I915_GEM_DOMAIN_SAMPLER)
                I915_GEM_DOMAIN_INSTRUCTION) I915_GEM_DOMAIN_VERTEX, 0) in
  let e :=
    if truthy (Z.land flags INTEL_RELOC_FENCE)
    then drm_intel_bo_emit_reloc_fence bo offset target_bo target_offset rd_wd.1 rd_wd.2
    else drm_intel_bo_emit_reloc bo offset target_bo target_offset rd_wd.1 rd_wd.2 in
  run M (intel_bo_add_reloc bo offset target_bo target_offset flags) w =
  {| result := Returned ((respond M e w).1,
                         to_uint64 (field M (respond M e w).2 target_bo offset64
                                    + target_offset));
     final := (respond M e w).2;
     calls := [Logged e (respond M e w).1] |}.
Proof.
  unfold intel_bo_add_reloc, gem_bo.
  destruct (truthy (Z.land flags INTEL_RELOC_WRITE)),
           (truthy (Z.land flags INTEL_RELOC_GGTT)),
           (truthy (Z.land flags INTEL_RELOC_FENCE)); cbv zeta; cbn [fst snd];
    rewrite run_bind, run_call; reflexivity.
Qed.

(** C1.  The read and write domains a relocation is recorded with depend on
    the flags only through the tests [flags & INTEL_RELOC_WRITE] and
    [flags & INTEL_RELOC_GGTT]: WRITE and GGTT give INSTRUCTION for both,
    WRITE without GGTT gives RENDER for both, and without WRITE the write
    domain is 0 and the read domains are RENDER|SAMPLER|INSTRUCTION|VERTEX,
    GGTT or not.  Any other call whose flags pass and fail the same two tests
    records the same domains, whatever its buffers, offsets, other flags and
    the state of the world. *)
Theorem add_reloc_domains (bo : intel_bo) offset (target_bo : intel_bo) target_offset
    flags (w : world M) :
  let recorded :=
    reloc_domains <$>
      calls (run M (intel_bo_add_reloc bo offset target_bo target_offset flags) w) in
  (Z.land flags INTEL_RELOC_WRITE <> 0 -> Z.land flags INTEL_RELOC_GGTT <> 0 ->
   recorded = [Some (I915_GEM_DOMAIN_INSTRUCTION, I915_GEM_DOMAIN_INSTRUCTION)]) /\
  (Z.land flags INTEL_RELOC_WRITE <> 0 -> Z.land flags INTEL_RELOC_GGTT = 0 ->
   recorded = [Some (I915_GEM_DOMAIN_RENDER, I915_GEM_DOMAIN_RENDER)]) /\
  (Z.land flags INTEL_RELOC_WRITE = 0 ->
   recorded =
   [Some (Z.lor (Z.lor (Z.lor I915_GEM_DOMAIN_RENDER I915_GEM_DOMAIN_SAMPLER)
                   I915_GEM_DOMAIN_INSTRUCTION) I915_GEM_DOMAIN_VERTEX, 0)]) /\
  (forall (bo' : intel_bo) offset' (target_bo' : intel_bo) target_offset' flags'
          (w' : world M),
     (Z.land flags INTEL_RELOC_WRITE = 0 <-> Z.land flags' INTEL_RELOC_WRITE = 0) ->
     (Z.land flags INTEL_RELOC_GGTT = 0 <-> Z.land flags' INTEL_RELOC_GGTT = 0) ->
     reloc_domains <$>
       calls (run M (intel_bo_add_reloc bo' offset' target_bo' target_offset' flags') w')
     = recorded).
Proof.
  intros recorded. subst recorded. rewrite add_reloc_run. simpl. unfold truthy.
  split_and!.
  - intros Hw%Z.eqb_neq Hg%Z.eqb_neq. rewrite Hw, Hg. simpl.
    by destruct (negb _).
  - intros Hw%Z.eqb_neq Hg%Z.eqb_eq. rewrite Hw, Hg. simpl.
    by destruct (negb _).
  - intros Hw%Z.eqb_eq. rewrite Hw. simpl.
    by destruct (negb _).
  - intros bo' offset' target_bo' target_offset' flags' w' Hw Hg.
    rewrite add_reloc_run. simpl. unfold truthy.
    destruct (Z.eqb_spec (Z.land flags INTEL_RELOC_WRITE) 0),
             (Z.eqb_spec (Z.land flags' INTEL_RELOC_WRITE) 0),
             (Z.eqb_spec (Z.land flags INTEL_RELOC_GGTT) 0),
             (Z.eqb_spec (Z.land flags' INTEL_RELOC_GGTT) 0);
      try tauto; simpl;
      by destruct (negb (Z.land flags INTEL_RELOC_FENCE =? 0)),
                  (negb (Z.land flags' INTEL_RELOC_FENCE =? 0)).
Qed.

(** C2.  The value stored through [presumed_offset] is the target's
    [offset64], as it stands in the world right after the relocation was
    recorded, plus [target_offset], computed in 64-bit unsigned arithmetic;
    it is the plain sum whenever that sum is a 64-bit address. *)
Theorem add_reloc_presumed_offset (bo : intel_bo) offset (target_bo : intel_bo)
    target_offset flags (w : world M) :
  let x := run M (intel_bo_add_reloc bo offset target_bo target_offset flags) w in
  let base := field M (final x) target_bo offset64 in
  exists err presumed,
    result x = Returned (err, presumed) /\
    presumed = to_uint64 (base + target_offset) /\
    (0 <= base + target_offset < 2 ^ 64 -> presumed = base + target_offset).
Proof.
  intros x base. subst x base. rewrite add_reloc_run. simpl.
  eexists _, _. split; [reflexivity|]. split; [reflexivity|].
  intros Hrange. unfold to_uint64. by apply Z.mod_small.
Qed.

(** ** Waiting: [intel_bo_wait] *)

(** C5.  With a negative timeout the only call is the unbounded
    [drm_intel_bo_wait_rendering] and the status is 0.  With a timeout of 0 or
    more the only call is [drm_intel_gem_bo_wait] with that timeout, and its
    status is passed on if it is [-ETIME] and replaced by 0 (idle) in every
    other case. *)
Theorem wait_folds_errors (bo : intel_bo) (timeout : Z) (w : world M) :
  let x := run M (intel_bo_wait bo timeout) w in
  (timeout < 0 ->
   calls x = [Logged (drm_intel_bo_wait_rendering bo) tt] /\ result x = Returned 0) /\
  (0 <= timeout ->
   exists err,
     calls x = [Logged (drm_intel_gem_bo_wait bo timeout) err] /\
     result x = Returned (if err =? - ETIME then - ETIME else 0)).
Proof.
  intros x. subst x. unfold intel_bo_wait, gem_bo. split.
  - intros Hneg. apply Z.leb_gt in Hneg. rewrite Hneg.
    rewrite !run_bind, run_call. simpl.
    by destruct (respond M (drm_intel_bo_wait_rendering bo) w) as [[] w'].
  - intros Hpos. apply Z.leb_le in Hpos. rewrite Hpos.
    rewrite run_bind, run_call. simpl.
    destruct (respond M (drm_intel_gem_bo_wait bo timeout) w) as [err w']. simpl.
    exists err. split; [reflexivity|]. unfold truthy.
    destruct (err =? - ETIME) eqn:Het; simpl.
    + apply Z.eqb_eq in Het. by rewrite andb_false_r, Het.
    + rewrite andb_true_r. by destruct (err =? 0) eqn:Hz; [apply Z.eqb_eq in Hz; subst|].
Qed.

(** ** Submission: [intel_winsys_can_submit_bo], [intel_winsys_submit_bo] *)

Lemma can_submit_run (winsys : intel_winsys) bo_array count (w : world M) :
  let e := drm_intel_bufmgr_check_aperture_space bo_array count in
  run M (intel_winsys_can_submit_bo winsys bo_array count) w =
  {| result := Returned ((respond M e w).1 =? 0); final := (respond M e w).2;
     calls := [Logged e (respond M e w).1] |}.
Proof.
  cbv zeta. unfold intel_winsys_can_submit_bo, truthy.
  rewrite run_bind, run_call. simpl. by rewrite negb_involutive.
Qed.

(** C4.  When libdrm's answer to the aperture check is the one the
    specification describes, [intel_winsys_can_submit_bo] answers true exactly
    when the deduplicated total size of the working set is within the
    aperture, and false exactly when it exceeds it. *)
Theorem can_submit_iff_fits (size_of : drm_intel_bo -> Z) (aperture : Z)
    (winsys : intel_winsys) (bo_array : list intel_bo) (count : Z) (w : world M) :
  check_aperture_space_spec size_of aperture bo_array count
    (respond M (drm_intel_bufmgr_check_aperture_space bo_array count) w).1 ->
  let answer := result (run M (intel_winsys_can_submit_bo winsys bo_array count) w) in
  let total := deduplicated_size size_of (working_set bo_array count) in
  (answer = Returned true <-> total <= aperture) /\
  (answer = Returned false <-> aperture < total).
Proof.
  intros Hspec answer total. subst answer total. rewrite can_submit_run. simpl.
  unfold check_aperture_space_spec in Hspec.
  destruct (_ =? 0) eqn:Hz.
  - apply Z.eqb_eq in Hz. apply Hspec in Hz. split; split; try done; lia.
  - apply Z.eqb_neq in Hz.
    assert (Hover : ¬ deduplicated_size size_of (working_set bo_array count)
                      <= aperture) by (intros Hfit; by apply Hspec in Hfit).
    split; split; try done; lia.
Qed.

Lemma exec_flags_low_bits (ring flags : Z) :
  to_uint32 (Z.lor (to_uint64 ring) flags) = Z.lor (to_uint32 ring) (to_uint32 flags).
Proof.
  unfold to_uint32, to_uint64.
  rewrite <- !Z.land_ones by lia.
  rewrite Z.land_lor_distr_l, <- Z.land_assoc.
  by change (Z.land (Z.ones 64) (Z.ones 32)) with (Z.ones 32).
Qed.

(** C7.  A submission makes exactly one execution call.  It is the
    context-bound one, with the winsys's context, exactly when the ring is the
    render ring and the winsys has a context.  The flags it passes are the
    ring (as an unsigned long) or-ed with the caller's flags and then cut to
    the 32 bits of libdrm's parameter: the low 32 bits of the ring or-ed with
    the low 32 bits of the flags.  When ring and flags are both below 2^32,
    that is ring | flags itself. *)
Theorem submit_selects_context_and_flags (winsys : intel_winsys) (ring : Z)
    (bo : intel_bo) (used flags : Z) (w : world M) :
  let x := run M (intel_winsys_submit_bo winsys ring bo used flags) w in
  exists ev status selected,
    calls x = [ev] /\ result x = Returned status /\
    exec_request ev = Some (selected, Z.lor (to_uint32 ring) (to_uint32 flags)) /\
    (forall c, selected = Some c <-> ring = INTEL_RING_RENDER /\ ctx winsys = Some c) /\
    (0 <= ring < 2 ^ 32 -> 0 <= flags < 2 ^ 32 ->
     Z.lor (to_uint32 ring) (to_uint32 flags) = Z.lor ring flags).
Proof.
  intros x. subst x. unfold intel_winsys_submit_bo, gem_bo.
  rewrite exec_flags_low_bits.
  assert (Hcast : 0 <= ring < 2 ^ 32 -> 0 <= flags < 2 ^ 32 ->
            Z.lor (to_uint32 ring) (to_uint32 flags) = Z.lor ring flags).
  { intros Hr Hf. unfold to_uint32. by rewrite !Z.mod_small. }
  destruct (ring =? INTEL_RING_RENDER) eqn:Hring.
  - apply Z.eqb_eq in Hring. destruct (ctx winsys) as [c|] eqn:Hctx.
    + rewrite run_call. eexists _, _, (Some c).
      split_and!; [reflexivity..| |exact Hcast]. intros c'. intuition congruence.
    + rewrite run_call. eexists _, _, None.
      split_and!; [reflexivity..| |exact Hcast]. intros c'. intuition congruence.
  - apply Z.eqb_neq in Hring. rewrite run_call. eexists _, _, None.
    split_and!; [reflexivity..| |exact Hcast]. intros c'. intuition congruence.
Qed.

(** ** Handle exchange: [intel_winsys_import_handle], [intel_winsys_export_handle] *)

Lemma export_kms_run (winsys : intel_winsys) (bo : intel_bo) tiling pitch height
    (h : intel_winsys_handle) (w : world M) :
  type h = INTEL_WINSYS_HANDLE_KMS ->
  run M (intel_winsys_export_handle winsys bo tiling pitch height h) w =
  {| result := Returned (0, set_stride pitch (set_handle (field M w bo bo_handle) h));
     final := w; calls := [] |}.
Proof. intros Hk. unfold intel_winsys_export_handle. by rewrite Hk. Qed.

(** C10.  A handle of the KMS kind, or of a kind that is none of the three
    enumerators, is refused by [intel_winsys_import_handle]: NULL comes back,
    nothing was called and the world is as before.  That includes the KMS
    handles [intel_winsys_export_handle] itself hands out with status 0. *)
Theorem import_refuses_kms_and_unknown (winsys : intel_winsys) (name : string)
    (height : Z) (w : world M) :
  (forall h,
     type h = INTEL_WINSYS_HANDLE_KMS \/
     (exists raw, type h = INTEL_WINSYS_HANDLE_unrecognized raw) ->
     run M (intel_winsys_import_handle winsys name h height) w =
     {| result := Returned None; final := w; calls := [] |}) /\
  (forall (bo : intel_bo) tiling pitch h,
     type h = INTEL_WINSYS_HANDLE_KMS ->
     exists h',
       result (run M (intel_winsys_export_handle winsys bo tiling pitch height h) w)
         = Returned (0, h') /\
       type h' = INTEL_WINSYS_HANDLE_KMS /\
       run M (intel_winsys_import_handle winsys name h' height) w =
       {| result := Returned None; final := w; calls := [] |}).
Proof.
  assert (Hrefuse : forall h,
     type h = INTEL_WINSYS_HANDLE_KMS \/
     (exists raw, type h = INTEL_WINSYS_HANDLE_unrecognized raw) ->
     run M (intel_winsys_import_handle winsys name h height) w =
     {| result := Returned None; final := w; calls := [] |}).
  { intros h [Hk|[raw Hk]]; unfold intel_winsys_import_handle; by rewrite Hk. }
  split; [exact Hrefuse|].
  intros bo tiling pitch h Hk. rewrite export_kms_run by done.
  eexists. split; [reflexivity|]. split; [exact Hk|].
  apply Hrefuse. by left.
Qed.

(** ** Construction: [probe_winsys], [intel_winsys_create_for_fd] *)

Lemma neutral_call (ev : logged) :
  acquired ev = None -> released ev = None -> neutral [ev].
Proof. intros Ha Hr held. simpl. unfold account. by rewrite Ha, Hr. Qed.

Lemma get_param_run (winsys : intel_winsys) (param : Z) (w : world M) :
  let e := drmCommandWriteRead_getparam (fd winsys) DRM_I915_GETPARAM param in
  run M (get_param winsys param) w =
  {| result := Returned (if truthy (respond M e w).1.1 then (false, 0)
                         else (true, (respond M e w).1.2));
     final := (respond M e w).2;
     calls := [Logged e (respond M e w).1] |}.
Proof.
  cbv zeta. unfold get_param. rewrite run_bind, run_call. simpl.
  destruct (respond M _ w) as [[err v] w']. simpl.
  by destruct (truthy err).
Qed.

Ltac tidy := cbn [result final calls prepend logging fst snd app].

Ltac exec_call := rewrite ?run_bind, run_call; tidy.

Lemma test_address_swizzling_spec (winsys : intel_winsys) (w : world M) :
  let x := run M (test_address_swizzling winsys) w in
  exists b, result x = Returned b /\ neutral (calls x) /\ existsb refused (calls x) = false.
Proof.
  cbv zeta. unfold test_address_swizzling. exec_call.
  destruct (respond M _ w) as [[bo|] w1]; tidy.
  - exec_call.
    destruct (respond M (drm_intel_bo_get_tiling bo) w1) as [[[err t] sw] w2]. tidy.
    exec_call.
    destruct (respond M (drm_intel_bo_unreference bo) w2) as [[] w3]. simpl.
    eexists. split; [reflexivity|]. split; [|reflexivity].
    intros held. simpl. unfold account. simpl. multiset_solver.
  - simpl. eexists. split; [reflexivity|]. split; [|reflexivity].
    by apply neutral_call.
Qed.

Lemma test_reg_read_spec (winsys : intel_winsys) (reg : Z) (w : world M) :
  let x := run M (test_reg_read winsys reg) w in
  exists b, result x = Returned b /\ neutral (calls x) /\ existsb refused (calls x) = false.
Proof.
  cbv zeta. unfold test_reg_read. rewrite run_bind, run_call. simpl.
  destruct (respond M _ w) as [[err v] w1]. simpl.
  eexists. split; [reflexivity|]. split; [|reflexivity].
  by apply neutral_call.
Qed.

Lemma probe_winsys_spec (winsys : intel_winsys) (w : world M) :
  let x := run M (probe_winsys winsys) w in
  exists ok winsys',
    result x = Returned (ok, winsys') /\
    bufmgr winsys' = bufmgr winsys /\
    probe_refused (calls x) = negb ok /\
    (ok = false -> neutral (calls x)) /\
    (ok = true ->
     exists c, ctx winsys' = Some c /\
       forall held, outstanding held (calls x) = held ⊎ {[+ Context c +]}).
Proof.
  cbv zeta. remember (run M (probe_winsys winsys) w) as x eqn:Hx.
  unfold probe_winsys in Hx. rewrite run_bind, get_param_run in Hx.
  cbn [result final calls] in Hx.
  destruct (respond M _ w) as [[err1 v1] w1]. cbn [fst snd] in Hx.
  set (val1 := if truthy err1 then 0 else v1) in *.
  assert (Hval1 : (if truthy err1 then (false, 0) else (true, v1)) =
                  (negb (truthy err1), val1)) by (subst val1; by destruct (truthy err1)).
  rewrite Hval1 in Hx. clear Hval1.
  assert (Habsent : truthy err1 || (v1 =? 0) = negb (truthy val1)).
  { subst val1. unfold truthy. destruct (err1 =? 0); simpl; [|reflexivity].
    by rewrite negb_involutive. }
  destruct (truthy val1) eqn:Hcap; cbn [negb] in Hx.
  2:{ rewrite run_ret in Hx. subst x. simpl. exists false, winsys.
      split_and!; try done.
      unfold probe_refused. cbn [head from_option capability_absent fst snd].
      by rewrite Habsent. }
  rewrite run_bind, run_call in Hx. cbn [result final calls] in Hx.
  destruct (respond M (drm_intel_bufmgr_gem_get_devid _) w1) as [id w2].
  cbn [fst snd] in Hx.
  rewrite run_bind, run_call in Hx. cbn [result final calls] in Hx.
  destruct (respond M (drm_intel_get_aperture_sizes _) w2) as [[[err2 mappable] total] w3].
  cbn [fst snd] in Hx.
  destruct (truthy err2) eqn:Hap.
  { rewrite run_ret in Hx. subst x. simpl. eexists false, _.
    split_and!; try done.
    unfold probe_refused. cbn [head from_option capability_absent fst snd].
    rewrite Habsent. cbn [negb orb existsb refused fst snd].
    by rewrite Hap. }
  rewrite run_bind, get_param_run in Hx. cbn [result final calls] in Hx.
  destruct (respond M (drmCommandWriteRead_getparam _ _ I915_PARAM_HAS_LLC) w3)
    as [[err3 v3] w4]. cbn [fst snd] in Hx.
  set (val3 := if truthy err3 then 0 else v3) in *.
  assert (Hval3 : (if truthy err3 then (false, 0) else (true, v3)) =
                  (negb (truthy err3), val3)) by (subst val3; by destruct (truthy err3)).
  rewrite Hval3 in Hx. clear Hval3.
  rewrite run_bind in Hx.
  match type of Hx with context [run M (test_address_swizzling ?ws) ?w'] =>
    destruct (test_address_swizzling_spec ws w') as (swz & Hswz & Hneu_swz & Href_swz);
    cbv zeta in *;
    remember (run M (test_address_swizzling ws) w') as xs eqn:Hxs; clear Hxs
  end.
  rewrite Hswz in Hx.
  rewrite run_bind, run_call in Hx. cbn [result final calls] in Hx.
  destruct (respond M (drm_intel_gem_context_create _) (final xs)) as [c w5].
  cbn [fst snd] in Hx.
  destruct c as [c|]; cbn [ctx set_ctx] in Hx.
  2:{ rewrite bool_decide_eq_false_2 in Hx by (by intros [? ?]). cbn [negb] in Hx.
      rewrite run_ret in Hx. subst x. simpl. eexists false, _.
      split_and!; try done.
      - unfold probe_refused. cbn [head from_option capability_absent fst snd].
        rewrite Habsent. cbn [negb orb existsb refused fst snd].
        rewrite Hap, existsb_app, Href_swz. reflexivity.
      - intros _ held. simpl.
        rewrite outstanding_app, Hneu_swz. reflexivity. }
  rewrite bool_decide_eq_true_2 in Hx by (by eexists). cbn [negb] in Hx.
  rewrite run_bind, get_param_run in Hx. cbn [result final calls] in Hx.
  destruct (respond M (drmCommandWriteRead_getparam _ _ I915_PARAM_HAS_ALIASING_PPGTT) w5)
    as [[err4 v4] w6]. cbn [fst snd] in Hx.
  set (val4 := if truthy err4 then 0 else v4) in *.
  assert (Hval4 : (if truthy err4 then (false, 0) else (true, v4)) =
                  (negb (truthy err4), val4)) by (subst val4; by destruct (truthy err4)).
  rewrite Hval4 in Hx. clear Hval4.
  rewrite run_bind in Hx.
  match type of Hx with context [run M (test_reg_read ?ws ?reg) ?w'] =>
    destruct (test_reg_read_spec ws reg w') as (ts & Hts & Hneu_ts & Href_ts);
    cbv zeta in *;
    remember (run M (test_reg_read ws reg) w') as xt eqn:Hxt; clear Hxt
  end.
  rewrite Hts in Hx.
  rewrite run_bind, get_param_run in Hx. cbn [result final calls] in Hx.
  destruct (respond M (drmCommandWriteRead_getparam _ _ I915_PARAM_HAS_GEN7_SOL_RESET)
              (final xt)) as [[err5 v5] w7]. cbn [fst snd] in Hx.
  set (val5 := if truthy err5 then 0 else v5) in *.
  assert (Hval5 : (if truthy err5 then (false, 0) else (true, v5)) =
                  (negb (truthy err5), val5)) by (subst val5; by destruct (truthy err5)).
  rewrite Hval5 in Hx. clear Hval5.
  rewrite run_ret in Hx. subst x. simpl. eexists true, _.
  split_and!; try done.
  - unfold probe_refused. cbn [head from_option capability_absent fst snd].
    rewrite Habsent. cbn [negb orb existsb refused fst snd].
    rewrite Hap, existsb_app, Href_swz. cbn [orb existsb refused].
    rewrite bool_decide_eq_true_2 by (by eexists).
    by rewrite existsb_app, Href_ts.
  - intros _. exists c. split; [reflexivity|]. intros held.
    unfold account. cbn [acquired released].
    rewrite outstanding_app, Hneu_swz. cbn [outstanding foldl].
    fold (outstanding (account (account held
            (Logged (drm_intel_gem_context_create (bufmgr winsys)) (Some c)))
            (Logged (drmCommandWriteRead_getparam (fd winsys) DRM_I915_GETPARAM
                       I915_PARAM_HAS_ALIASING_PPGTT) (err4, v4)))
            (calls xt ++ [Logged (drmCommandWriteRead_getparam (fd winsys)
                       DRM_I915_GETPARAM I915_PARAM_HAS_GEN7_SOL_RESET) (err5, v5)])).
    rewrite outstanding_app, Hneu_ts. reflexivity.
Qed.

Lemma create_for_fd_cases (inst fd_ : Z) (w : world M) :
  let x := run M (intel_winsys_create_for_fd inst fd_) w in
  (result x = Returned None /\
   construction_failed (calls x) = true /\
   outstanding ∅ (calls x) = ∅) \/
  (exists mem b c winsys,
     result x = Returned (Some (mem, winsys)) /\
     bufmgr winsys = Some b /\ ctx winsys = Some c /\
     construction_failed (calls x) = false /\
     outstanding ∅ (calls x) = {[+ Memory mem; Manager b; Context c +]}).
Proof.
  cbv zeta. remember (run M (intel_winsys_create_for_fd inst fd_) w) as x eqn:Hx.
  unfold intel_winsys_create_for_fd in Hx.
  rewrite run_bind, run_call in Hx. cbn [result final calls] in Hx.
  destruct (respond M (icd_instance_alloc _ _ _ _) w) as [[mem|] w1]; cbn [fst snd] in Hx.
  2:{ rewrite run_ret in Hx. subst x. by left. }
  rewrite run_bind, run_call in Hx. cbn [result final calls fd] in Hx.
  destruct (respond M (drm_intel_bufmgr_gem_init _ _) w1) as [[b|] w2];
    cbn [fst snd bufmgr set_bufmgr] in Hx.
  2:{ rewrite bool_decide_eq_false_2 in Hx by (by intros [? ?]). cbn [negb] in Hx.
      rewrite run_bind, run_call in Hx. cbn [result final calls] in Hx.
      destruct (respond M (icd_instance_free inst mem) w2) as [[] w3].
      rewrite run_ret in Hx. subst x. left. do 2 (split; [reflexivity|]).
      simpl. unfold account. simpl. multiset_solver. }
  rewrite bool_decide_eq_true_2 in Hx by (by eexists). cbn [negb] in Hx.
  rewrite run_bind in Hx.
  match type of Hx with context [run M (probe_winsys ?ws) ?w'] =>
    destruct (probe_winsys_spec ws w') as (ok & ws' & Hres & Hbuf & Href & Hfail & Hok);
    cbv zeta in *;
    remember (run M (probe_winsys ws) w') as xp eqn:Hxp; clear Hxp
  end.
  rewrite Hres in Hx. cbn [bufmgr] in Hbuf.
  destruct ok; cbn [negb] in Hx.
  - destruct (Hok eq_refl) as (c & Hctx & Hown). clear Hok Hfail.
    rewrite run_bind, run_call in Hx. cbn [result final calls] in Hx.
    destruct (respond M (drm_intel_bufmgr_gem_enable_fenced_relocs _) (final xp)) as [[] w3].
    rewrite run_bind, run_call in Hx. cbn [result final calls fst snd] in Hx.
    destruct (respond M (drm_intel_bufmgr_gem_enable_reuse _) w3) as [[] w4].
    rewrite run_bind, run_call in Hx. cbn [result final calls fst snd] in Hx.
    destruct (respond M (drm_intel_bufmgr_gem_set_vma_cache_size _ _) w4) as [[] w5].
    rewrite run_ret in Hx. subst x. right. exists mem, b, c, ws'.
    cbn [result calls prepend fst snd app].
    split_and!; try done.
    + unfold construction_failed. cbn [firstn skipn existsb refused app orb].
      rewrite !bool_decide_eq_true_2 by (by eexists). rewrite take_0, drop_0.
      cbn [negb orb existsb].
      assert (Hp : probe_refused (calls xp) = false)
        by (destruct (probe_refused (calls xp)); [by apply Href|done]).
      unfold probe_refused in *. apply orb_false_iff in Hp as [Hhead Hrest].
      rewrite existsb_app, Hrest.
      destruct (calls xp); [reflexivity|]. cbn [head app from_option] in *.
      by rewrite Hhead.
    + cbn [outstanding foldl]. unfold account at 1 2. cbn [acquired released fmap option_fmap option_map].
      fold (outstanding (∅ ⊎ {[+ Memory mem +]} ⊎ {[+ Manager b +]}) (calls xp ++
              [Logged (drm_intel_bufmgr_gem_enable_fenced_relocs (bufmgr ws')) ();
               Logged (drm_intel_bufmgr_gem_enable_reuse (bufmgr ws')) ();
               Logged (drm_intel_bufmgr_gem_set_vma_cache_size (bufmgr ws') (-1)) ()])).
      rewrite outstanding_app, Hown. cbn [outstanding foldl]. unfold account.
      cbn [acquired released]. multiset_solver.
  - specialize (Hfail eq_refl). clear Hok.
    rewrite run_bind, run_call in Hx. cbn [result final calls] in Hx.
    destruct (respond M (drm_intel_bufmgr_destroy _) (final xp)) as [[] w3].
    rewrite run_bind, run_call in Hx. cbn [result final calls fst snd] in Hx.
    destruct (respond M (icd_instance_free _ _) w3) as [[] w4].
    rewrite run_ret in Hx. subst x. left.
    cbn [result calls prepend fst snd app]. split; [reflexivity|]. split.
    { unfold construction_failed. cbn [firstn skipn existsb refused app orb].
      rewrite !bool_decide_eq_true_2 by (by eexists). rewrite take_0, drop_0.
      cbn [negb orb existsb]. cbn [negb] in Href.
      unfold probe_refused in *. rewrite existsb_app.
      destruct (calls xp); [done|]. cbn [head app from_option] in *.
      apply orb_true_iff in Href as [Hhead|Hrest]; rewrite ?Hhead, ?Hrest;
        [done|]. by rewrite orb_true_r. }
    cbn [outstanding foldl]. unfold account at 1 2. cbn [acquired released fmap option_fmap option_map].
    fold (outstanding (∅ ⊎ {[+ Memory mem +]} ⊎ {[+ Manager b +]}) (calls xp ++
              [Logged (drm_intel_bufmgr_destroy (bufmgr ws')) ();
               Logged (icd_instance_free inst mem) ()])).
    rewrite outstanding_app, Hfail, Hbuf. cbn [outstanding foldl]. unfold account.
    cbn [acquired released fmap option_fmap option_map]. multiset_solver.
Qed.

(** C6.  Creating a winsys always returns.  It returns NULL exactly when the
    log shows the allocation of the structure, the buffer manager, the
    aperture query or the logical context refused, or the required capability
    absent at the start of the probe.  Whenever it returns NULL, everything the calls
    handed out (the structure's memory, the buffer manager, the probe's test
    buffer) was given back before returning.  A winsys that is returned has
    its buffer manager and its logical context. *)
Theorem create_failure_releases_everything (inst fd_ : Z) (w : world M) :
  let x := run M (intel_winsys_create_for_fd inst fd_) w in
  (exists r, result x = Returned r) /\
  (result x = Returned None <-> construction_failed (calls x) = true) /\
  (result x = Returned None -> outstanding ∅ (calls x) = ∅) /\
  (forall mem winsys,
     result x = Returned (Some (mem, winsys)) ->
     is_Some (bufmgr winsys) /\ is_Some (ctx winsys)).
Proof.
  cbv zeta.
  destruct (create_for_fd_cases inst fd_ w)
    as [(Hnull & Hfailed & Hfree)|(mem & b & c & winsys & Hres & Hb & Hc & Hfine & Hown)];
    cbv zeta in *.
  - rewrite Hnull, Hfailed. split_and!; [by eexists|done|done|done].
  - rewrite Hres, Hfine. split_and!; [by eexists|done|done|].
    intros mem' winsys' [= <- <-]. by rewrite Hb, Hc.
Qed.

(** What a successful creation leaves in the caller's hands is what
    [intel_winsys_destroy] gives back. *)
Lemma destroy_releases_winsys (mem : address) (winsys : intel_winsys)
    (b : drm_intel_bufmgr) (c : drm_intel_context) (w : world M) :
  bufmgr winsys = Some b -> ctx winsys = Some c ->
  outstanding {[+ Memory mem; Manager b; Context c +]}
    (calls (run M (intel_winsys_destroy mem winsys) w)) = ∅.
Proof.
  intros Hb Hc. unfold intel_winsys_destroy. rewrite Hb, Hc.
  rewrite run_bind, run_call. tidy.
  destruct (respond M (drm_intel_gem_context_destroy _) w) as [[] w1].
  rewrite run_bind, run_call. tidy.
  destruct (respond M (drm_intel_bufmgr_destroy _) w1) as [[] w2].
  rewrite run_call. tidy.
  destruct (respond M (icd_instance_free _ _) w2) as [[] w3].
  simpl. unfold account. simpl. multiset_solver.
Qed.

End Properties.

(** ** The properties on the simulated device

    Each statement above that has a premise is applied here to concrete
    arguments on [simulator], with the Linux constants of [i915_abi]. *)

Lemma add_reloc_domains_witness :
  Z.land 6 INTEL_RELOC_WRITE <> 0 /\ Z.land 6 INTEL_RELOC_GGTT <> 0 /\
  reloc_domains <$>
    calls (run simulator (intel_bo_add_reloc 1%positive 16 2%positive 0 6) sim0) =
  [Some (I915_GEM_DOMAIN_INSTRUCTION, I915_GEM_DOMAIN_INSTRUCTION)].
Proof.
  split; [done|]. split; [done|].
  destruct (add_reloc_domains simulator 1%positive 16 2%positive 0 6 sim0)
    as (Hwg & _ & _ & _).
  apply Hwg; done.
Defined.

Lemma add_reloc_presumed_offset_witness :
  0 <= 0x20000 + 8 < 2 ^ 64 /\
  exists err,
    result (run simulator (intel_bo_add_reloc 1%positive 16 2%positive 8 4) sim0) =
    Returned (err, 0x20000 + 8).
Proof.
  split; [lia|].
  destruct (add_reloc_presumed_offset simulator 1%positive 16 2%positive 8 4 sim0)
    as (err & presumed & Hres & _ & Hexact).
  exists err. rewrite Hres. do 2 f_equal.
  apply Hexact. split; by vm_compute.
Defined.

Lemma set_tiling_alignment_precheck_witness :
  (INTEL_TILING_X = INTEL_TILING_X /\ 500 mod 512 <> 0) /\
  run simulator (intel_bo_set_tiling 1%positive INTEL_TILING_X 500) sim0 =
  {| result := Returned (-1); final := sim0; calls := [] |}.
Proof.
  split; [done|].
  destruct (set_tiling_alignment_precheck simulator 1%positive 500 sim0) as [Hreject _].
  apply Hreject. by left.
Defined.

Lemma can_submit_iff_fits_witness :
  check_aperture_space_spec (sim_size sim0) 12288 [1; 2; 1]%positive 3
    (respond simulator
       (drm_intel_bufmgr_check_aperture_space [1; 2; 1]%positive 3) sim0).1 /\
  deduplicated_size (sim_size sim0) (working_set [1; 2; 1]%positive 3) <= 12288 /\
  result (run simulator
            (intel_winsys_can_submit_bo winsys9 [1; 2; 1]%positive 3) sim0) = Returned true.
Proof.
  assert (Hspec : check_aperture_space_spec (sim_size sim0) 12288 [1; 2; 1]%positive 3
    (respond simulator
       (drm_intel_bufmgr_check_aperture_space [1; 2; 1]%positive 3) sim0).1).
  { split; intros _; [by vm_compute | reflexivity]. }
  split; [exact Hspec|]. split; [by vm_compute|].
  destruct (can_submit_iff_fits simulator (sim_size sim0) 12288 winsys9
              [1; 2; 1]%positive 3 sim0 Hspec) as [Htrue _].
  apply Htrue. by vm_compute.
Defined.

Lemma wait_folds_errors_witness :
  (-1 < 0 /\
   result (run simulator (intel_bo_wait 1%positive (-1)) sim_busy) = Returned 0) /\
  (0 <= 1000 /\
   exists err,
     calls (run simulator (intel_bo_wait 1%positive 1000) sim_busy) =
       [Logged (drm_intel_gem_bo_wait 1%positive 1000) err] /\
     result (run simulator (intel_bo_wait 1%positive 1000) sim_busy) =
       Returned (if err =? - ETIME then - ETIME else 0)).
Proof.
  split.
  - split; [lia|].
    destruct (wait_folds_errors simulator 1%positive (-1) sim_busy) as [Hneg _].
    apply Hneg. lia.
  - split; [lia|].
    destruct (wait_folds_errors simulator 1%positive 1000 sim_busy) as [_ Hpos].
    apply Hpos. lia.
Defined.

Lemma create_failure_releases_everything_witness :
  construction_failed
    (calls (run simulator (intel_winsys_create_for_fd 7 3) sim_no_relaxed_delta)) = true /\
  result (run simulator (intel_winsys_create_for_fd 7 3) sim_no_relaxed_delta) =
    Returned None /\
  outstanding ∅
    (calls (run simulator (intel_winsys_create_for_fd 7 3) sim_no_relaxed_delta)) = ∅.
Proof.
  destruct (create_failure_releases_everything simulator 7 3 sim_no_relaxed_delta)
    as (_ & Hnull & Hfree & _).
  assert (Hfailed : construction_failed
    (calls (run simulator (intel_winsys_create_for_fd 7 3) sim_no_relaxed_delta)) = true)
    by (vm_compute; reflexivity).
  split; [exact Hfailed|]. split; [by apply Hnull|].
  by apply Hfree, Hnull.
Defined.

Lemma submit_selects_context_and_flags_witness :
  0 <= 1 < 2 ^ 32 /\ 0 <= 256 < 2 ^ 32 /\
  exists ev status,
    calls (run simulator (intel_winsys_submit_bo winsys9 1 1%positive 64 256) sim0) = [ev] /\
    result (run simulator (intel_winsys_submit_bo winsys9 1 1%positive 64 256) sim0)
      = Returned status /\
    exec_request ev = Some (Some 9%positive, Z.lor 1 256).
Proof.
  split; [lia|]. split; [lia|].
  destruct (submit_selects_context_and_flags simulator winsys9 1 1%positive 64 256 sim0)
    as (ev & status & selected & Hcalls & Hres & Hreq & Hsel & Hflags).
  exists ev, status. split; [exact Hcalls|]. split; [exact Hres|].
  rewrite Hreq, Hflags by lia.
  assert (Hc : selected = Some 9%positive) by (apply Hsel; split; reflexivity).
  by rewrite Hc.
Defined.

(** Flags above bit 31 do not reach the kernel: with the render ring (1) and
    the flags 2^32 + 256 the call receives 257, not 1 | (2^32 + 256). *)
Lemma submit_drops_flags_above_bit_31 :
  calls (run simulator (intel_winsys_submit_bo winsys9 1 1%positive 64 (2 ^ 32 + 256)) sim0)
    = [Logged (drm_intel_gem_bo_context_exec 1%positive 9%positive 64 257) 0] /\
  Z.lor 1 (2 ^ 32 + 256) = 4294967553 /\
  (forall ev selected,
     calls (run simulator (intel_winsys_submit_bo winsys9 1 1%positive 64 (2 ^ 32 + 256))
              sim0) = [ev] ->
     exec_request ev <> Some (selected, Z.lor 1 (2 ^ 32 + 256))).
Proof.
  assert (Hcalls :
    calls (run simulator (intel_winsys_submit_bo winsys9 1 1%positive 64 (2 ^ 32 + 256))
             sim0)
    = [Logged (drm_intel_gem_bo_context_exec 1%positive 9%positive 64 257) 0])
    by reflexivity.
  split; [exact Hcalls|]. split; [reflexivity|].
  intros ev selected Hev. rewrite Hcalls in Hev. injection Hev as <-.
  cbn [exec_request]. intros Heq. discriminate Heq.
Qed.

Lemma set_tiling_mismatch_fatal_or_error_witness :
  pitch_aligned INTEL_TILING_X 512 /\
  respond simulator
    (drm_intel_bo_set_tiling 1%positive (to_uint32 (tiling_value INTEL_TILING_X)) 512)
    sim_downgrading
  = ((0, 0),
     with_objects (<[1%positive := {| refcount := 1; bo_size := 4096;
                                      gpu_address := 0x10000; bo_tiling := 0 |}]>)
       sim_downgrading) /\
  (0 <> 0 \/ 0 <> to_uint32 (tiling_value INTEL_TILING_X)) /\
  result (run simulator (intel_bo_set_tiling 1%positive INTEL_TILING_X 512) sim_downgrading)
  = Aborted "tiling mismatch".
Proof.
  assert (Hans : respond simulator
    (drm_intel_bo_set_tiling 1%positive (to_uint32 (tiling_value INTEL_TILING_X)) 512)
    sim_downgrading
    = ((0, 0),
       with_objects (<[1%positive := {| refcount := 1; bo_size := 4096;
                                        gpu_address := 0x10000; bo_tiling := 0 |}]>)
         sim_downgrading)) by reflexivity.
  assert (Hbad : 0 <> 0 \/ 0 <> to_uint32 (tiling_value INTEL_TILING_X))
    by (right; vm_compute; discriminate).
  split; [by vm_compute|]. split; [exact Hans|]. split; [exact Hbad|].
  by rewrite (set_tiling_mismatch_fatal_or_error (H := i915_abi) simulator 1%positive
                INTEL_TILING_X 512 sim_downgrading _ 0 0 eq_refl Hans Hbad).
Defined.

(** The same request in the build without assertions: the kernel applies
    linear tiling to an X-tiled request with an aligned pitch, no assertion
    fires and the caller gets -1 back. *)
Lemma set_tiling_mismatch_returns_without_assertions :
  @NDEBUG i915_abi_release = true /\
  @pitch_aligned INTEL_TILING_X 512 /\
  (respond (@simulator i915_abi_release)
     (drm_intel_bo_set_tiling 1%positive
        (to_uint32 (@tiling_value i915_abi_release INTEL_TILING_X)) 512)
     sim_downgrading).1 = (0, 0) /\
  0 <> to_uint32 (@tiling_value i915_abi_release INTEL_TILING_X) /\
  result (run (@simulator i915_abi_release)
            (@intel_bo_set_tiling i915_abi_release 1%positive INTEL_TILING_X 512)
            sim_downgrading) = Returned (-1) /\
  result (run (@simulator i915_abi_release)
            (@intel_bo_set_tiling i915_abi_release 1%positive INTEL_TILING_X 512)
            sim_downgrading) <> Aborted "tiling mismatch".
Proof.
  split; [reflexivity|]. split; [by vm_compute|]. split; [reflexivity|].
  split; [vm_compute; discriminate|]. split; [reflexivity|].
  vm_compute. discriminate.
Qed.

Lemma import_refuses_kms_and_unknown_witness :
  type {| type := INTEL_WINSYS_HANDLE_KMS; handle := 1; stride := 256 |}
    = INTEL_WINSYS_HANDLE_KMS /\
  run simulator
    (intel_winsys_import_handle winsys9 "scanout"
       {| type := INTEL_WINSYS_HANDLE_KMS; handle := 1; stride := 256 |} 16) sim0 =
  {| result := Returned None; final := sim0; calls := [] |}.
Proof.
  split; [reflexivity|].
  destruct (import_refuses_kms_and_unknown simulator winsys9 "scanout" 16 sim0)
    as [Hrefuse _].
  apply Hrefuse. by left.
Defined.

(** ** Scenarios of the specification, run on the simulated device *)

(** A relocation from buffer 1 at offset 16 into buffer 2 at offset 0 with
    WRITE set reports the base address of buffer 2. *)
Example scenario_relocation :
  result (run simulator (intel_bo_add_reloc 1%positive 16 2%positive 0 4) sim0) =
  Returned (0, 0x20000).
Proof. reflexivity. Qed.

(** With the required capability missing, creation fails after the memory
    and the buffer manager were handed out and returned. *)
Example scenario_missing_capability :
  calls (run simulator (intel_winsys_create_for_fd 7 3) sim_no_relaxed_delta) =
  [Logged (icd_instance_alloc 7 96 0 1) (Some 100%positive);
   Logged (drm_intel_bufmgr_gem_init 3 614400) (Some 101%positive);
   Logged (drmCommandWriteRead_getparam 3 6 15) (-22, 0);
   Logged (drm_intel_bufmgr_destroy (Some 101%positive)) ();
   Logged (icd_instance_free 7 100%positive) ()].
Proof. reflexivity. Qed.

Example scenario_no_manager :
  calls (run simulator (intel_winsys_create_for_fd 7 3) sim_no_manager) =
  [Logged (icd_instance_alloc 7 96 0 1) (Some 100%positive);
   Logged (drm_intel_bufmgr_gem_init 3 614400) None;
   Logged (icd_instance_free 7 100%positive) ()].
Proof. reflexivity. Qed.

(** A successful creation owns its memory, its buffer manager and its
    context, and nothing else: the probe's test buffer is gone. *)
Example scenario_creation :
  outstanding ∅ (calls (run simulator (intel_winsys_create_for_fd 7 3) sim0)) =
  {[+ Memory 100%positive; Manager 101%positive; Context 103%positive +]}.
Proof. vm_compute. reflexivity. Qed.

(** X tiling with a pitch of 500. *)
Example scenario_misaligned_pitch :
  run simulator (intel_bo_set_tiling 1%positive INTEL_TILING_X 500) sim0 =
  {| result := Returned (-1); final := sim0; calls := [] |}.
Proof. reflexivity. Qed.

(** A working set that fills the aperture exactly can be submitted, listed
    twice or not; one byte more cannot. *)
Example scenario_aperture_exact :
  result (run simulator
            (intel_winsys_can_submit_bo winsys9 [1; 2; 1]%positive 3) sim0) =
  Returned true.
Proof. reflexivity. Qed.

Example scenario_aperture_one_byte_over :
  result (run simulator
            (intel_winsys_can_submit_bo winsys9 [1; 2; 3]%positive 3)
            sim_one_byte_over) =
  Returned false.
Proof. reflexivity. Qed.

(** A wait of 1000 ns on a buffer that stays busy for 5000 ns expires. *)
Example scenario_wait_expires :
  result (run simulator (intel_bo_wait 1%positive 1000) sim_busy) = Returned (-62).
Proof. reflexivity. Qed.

(** The kernel that applies linear tiling to an X-tiled request: the build
    with assertions stops, the build without returns -1. *)
Example scenario_tiling_mismatch_release_build :
  result (run (@simulator i915_abi_release)
            (@intel_bo_set_tiling i915_abi_release 1%positive INTEL_TILING_X 512)
            sim_downgrading) =
  Returned (-1).
Proof. reflexivity. Qed.

(** Taking and dropping a reference on the simulated device. *)
Example scenario_reference_counting :
  refcount <$> objects (final (run simulator (intel_bo_ref (Some 1%positive)) sim0))
     !! 1%positive = Some 2 /\
  objects (final (run simulator (intel_bo_unref (Some 1%positive)) sim0))
     !! 1%positive = None.
Proof. split; reflexivity. Qed.


(** ** More about the winsys *)

Section WinsysProperties.

Context `{Headers} (M : libdrm).

Ltac tidy := cbn [result final calls prepend logging fst snd app].

Lemma import_owns_what_it_returns_aux (winsys : intel_winsys) (name : string)
    (h : intel_winsys_handle) (height : Z) (w : world M) :
  let x := run M (intel_winsys_import_handle winsys name h height) w in
  (result x = Returned None /\ outstanding ∅ (calls x) = ∅) \/
  (exists bo tiling swizzle,
     result x = Returned (Some (bo, tiling, stride h)) /\
     outstanding ∅ (calls x) = {[+ Reference bo +]} /\
     last (calls x) = Some (Logged (drm_intel_bo_get_tiling bo) (0, tiling, swizzle))).
Proof.
  cbv zeta. unfold intel_winsys_import_handle.
  assert (Hrest : forall (bo : drm_intel_bo) (w1 : world M) (first : logged),
    acquired first = Some (Reference bo) -> released first = None ->
    let x := prepend [first]
      (run M ('(err, real_tiling, swizzle) ← call (drm_intel_bo_get_tiling bo);
              if truthy err then call (drm_intel_bo_unreference bo);; mret None
              else mret (Some (bo, real_tiling, stride h))) w1) in
    (result x = Returned None /\ outstanding ∅ (calls x) = ∅) \/
    (exists bo tiling swizzle,
       result x = Returned (Some (bo, tiling, stride h)) /\
       outstanding ∅ (calls x) = {[+ Reference bo +]} /\
       last (calls x) = Some (Logged (drm_intel_bo_get_tiling bo) (0, tiling, swizzle)))).
  { intros bo w1 first Hacq Hrel. cbv zeta. rewrite run_bind, run_call. tidy.
    destruct (respond M (drm_intel_bo_get_tiling bo) w1) as [[[err tiling] swizzle] w2].
    tidy. unfold truthy. destruct (err =? 0) eqn:Herr; cbn [negb].
    - apply Z.eqb_eq in Herr as ->. rewrite run_ret. tidy.
      right. exists bo, tiling, swizzle. split_and!; [done| |done].
      cbn [outstanding foldl]. unfold account. rewrite Hacq, Hrel. simpl.
      multiset_solver.
    - rewrite run_bind, run_call. tidy.
      destruct (respond M (drm_intel_bo_unreference bo) w2) as [[] w3].
      rewrite run_ret. tidy. left. split; [done|].
      cbn [outstanding foldl]. unfold account. rewrite Hacq, Hrel. simpl.
      multiset_solver. }
  destruct (type h) eqn:Htype.
  - rewrite run_bind, run_call. tidy.
    destruct (respond M (drm_intel_bo_gem_create_from_name _ _ _) w) as [[bo|] w1]; tidy.
    + by apply Hrest.
    + rewrite run_ret. tidy. left. split; [done|]. simpl. unfold account. simpl.
      multiset_solver.
  - left. by rewrite run_bind, !run_ret.
  - rewrite run_bind, run_call. tidy.
    destruct (respond M (drm_intel_bo_gem_create_from_prime _ _ _) w) as [[bo|] w1]; tidy.
    + by apply Hrest.
    + rewrite run_ret. tidy. left. split; [done|]. simpl. unfold account. simpl.
      multiset_solver.
  - left. by rewrite run_bind, !run_ret.
Qed.

(** X1.  What [intel_winsys_import_handle] leaves in the caller's hands is the
    buffer object it returns and nothing else.  When it returns NULL, a
    buffer object that was created along the way has been unreferenced
    again.  When it returns one, the caller holds the one reference that
    creating it gave, the tiling reported is the one [drm_intel_bo_get_tiling]
    answered with status 0, and the pitch is the stride of the handle. *)
Theorem import_owns_what_it_returns (winsys : intel_winsys) (name : string)
    (h : intel_winsys_handle) (height : Z) (w : world M) :
  let x := run M (intel_winsys_import_handle winsys name h height) w in
  (result x = Returned None /\ outstanding ∅ (calls x) = ∅) \/
  (exists bo tiling swizzle,
     result x = Returned (Some (bo, tiling, stride h)) /\
     outstanding ∅ (calls x) = {[+ Reference bo +]} /\
     last (calls x) = Some (Logged (drm_intel_bo_get_tiling bo) (0, tiling, swizzle))).
Proof. apply import_owns_what_it_returns_aux. Qed.

Lemma export_status_and_handle_aux (winsys : intel_winsys) (bo : intel_bo)
    (tiling : intel_tiling_mode) (pitch height : Z) (h : intel_winsys_handle)
    (w : world M) :
  let x := run M (intel_winsys_export_handle winsys bo tiling pitch height h) w in
  exists status h',
    result x = Returned (status, h') /\
    type h' = type h /\
    (status <> 0 -> h' = h) /\
    (status = 0 -> stride h' = pitch) /\
    (forall raw, type h = INTEL_WINSYS_HANDLE_unrecognized raw ->
                 status = - EINVAL /\ calls x = [] /\ final x = w).
Proof.
  cbv zeta. unfold intel_winsys_export_handle, load, gem_bo, truthy.
  destruct h as [ty hv st]. cbn [type]. destruct ty.
  - rewrite !run_bind, run_call. tidy.
    destruct (respond M (drm_intel_bo_flink bo) w) as [[err name] w1]. tidy.
    rewrite run_ret. tidy.
    destruct (err =? 0) eqn:Herr; cbn [negb]; rewrite run_ret; tidy.
    + apply Z.eqb_eq in Herr as ->. exists 0, (set_stride pitch (set_handle name
        {| type := INTEL_WINSYS_HANDLE_SHARED; handle := hv; stride := st |})).
      split_and!; try done.
    + apply Z.eqb_neq in Herr. eexists err, _. split_and!; try done.
  - simpl. eexists 0, _. split_and!; try done.
  - rewrite !run_bind, run_call. tidy.
    destruct (respond M (drm_intel_bo_gem_export_to_prime bo) w) as [[err fd_] w1]. tidy.
    rewrite run_ret. tidy.
    destruct (err =? 0) eqn:Herr; cbn [negb]; rewrite run_ret; tidy.
    + apply Z.eqb_eq in Herr as ->. exists 0, (set_stride pitch (set_handle fd_
        {| type := INTEL_WINSYS_HANDLE_FD; handle := hv; stride := st |})).
      split_and!; try done.
    + apply Z.eqb_neq in Herr. eexists err, _. split_and!; try done.
  - rewrite !run_bind, run_ret. tidy.
    destruct (- EINVAL =? 0) eqn:Herr; cbn [negb]; rewrite run_ret; tidy.
    + apply Z.eqb_eq in Herr. eexists 0, _. split_and!; try done.
    + apply Z.eqb_neq in Herr. eexists (- EINVAL), _. split_and!; try done.
Qed.

(** X2.  [intel_winsys_export_handle] always returns, and never changes the kind
    of the handle.  With a status other than 0 the handle is returned exactly
    as it came; with status 0 its stride is the pitch.  A kind that is none
    of the three enumerators gives -EINVAL without a call to libdrm. *)
Theorem export_status_and_handle (winsys : intel_winsys) (bo : intel_bo)
    (tiling : intel_tiling_mode) (pitch height : Z) (h : intel_winsys_handle)
    (w : world M) :
  let x := run M (intel_winsys_export_handle winsys bo tiling pitch height h) w in
  exists status h',
    result x = Returned (status, h') /\
    type h' = type h /\
    (status <> 0 -> h' = h) /\
    (status = 0 -> stride h' = pitch) /\
    (forall raw, type h = INTEL_WINSYS_HANDLE_unrecognized raw ->
                 status = - EINVAL /\ calls x = [] /\ final x = w).
Proof. apply export_status_and_handle_aux. Qed.

(** X3.  A handle exported as a file descriptor or as a flink name can be handed
    straight back to [intel_winsys_import_handle]: the import asks libdrm for
    the very descriptor or name that the export obtained (cut to int and to
    uint32_t), with the size height times the exported pitch for a
    descriptor (a size that fits an int), and an import that succeeds reports
    the exported pitch. *)
Theorem export_then_import (winsys winsys' : intel_winsys) (bo : intel_bo)
    (tiling : intel_tiling_mode) (pitch height height' : Z) (name : string)
    (h h' : intel_winsys_handle) (w w' : world M) :
  type h = INTEL_WINSYS_HANDLE_FD \/ type h = INTEL_WINSYS_HANDLE_SHARED ->
  result (run M (intel_winsys_export_handle winsys bo tiling pitch height h) w)
    = Returned (0, h') ->
  let y := run M (intel_winsys_import_handle winsys' name h' height') w' in
  (type h = INTEL_WINSYS_HANDLE_FD ->
   0 <= height' * pitch < 2 ^ 31 ->
   exists fd_ answer,
     calls (run M (intel_winsys_export_handle winsys bo tiling pitch height h) w)
       = [Logged (drm_intel_bo_gem_export_to_prime bo) (0, fd_)] /\
     head (calls y) =
       Some (Logged (drm_intel_bo_gem_create_from_prime (bufmgr winsys')
                       (to_int32 fd_) (height' * pitch)) answer)) /\
  (type h = INTEL_WINSYS_HANDLE_SHARED ->
   exists gem_name answer,
     calls (run M (intel_winsys_export_handle winsys bo tiling pitch height h) w)
       = [Logged (drm_intel_bo_flink bo) (0, gem_name)] /\
     head (calls y) =
       Some (Logged (drm_intel_bo_gem_create_from_name (bufmgr winsys') name
                       (to_uint32 gem_name)) answer)) /\
  (forall bo' tiling' pitch',
     result y = Returned (Some (bo', tiling', pitch')) -> pitch' = pitch).
Proof.
  intros Hkind Hexp. cbv zeta.
  assert (Hpitch : stride h' = pitch).
  { destruct (export_status_and_handle_aux winsys bo tiling pitch height h w)
      as (status & h'' & Hres & _ & _ & Hstride & _); cbv zeta in *.
    rewrite Hres in Hexp. injection Hexp as -> ->. by apply Hstride. }
  split_and!.
  - intros Hfd Hsize. revert Hexp.
    assert (Hfits : to_uint64 (height' * pitch) = height' * pitch)
      by (unfold to_uint64; rewrite Z.mod_small; lia).
    unfold intel_winsys_export_handle, gem_bo, truthy. rewrite Hfd.
    rewrite !run_bind, run_call. tidy.
    destruct (respond M (drm_intel_bo_gem_export_to_prime bo) w) as [[err fd_] w1]. tidy.
    rewrite run_ret. tidy.
    destruct (err =? 0) eqn:Herr; cbn [negb]; rewrite run_ret; tidy;
      [|intros [= -> _]; done].
    apply Z.eqb_eq in Herr as ->. intros [= <-].
    unfold intel_winsys_import_handle. cbn [type set_stride set_handle handle stride].
    rewrite Hfd, Hfits, run_bind, run_call. tidy.
    destruct (respond M (drm_intel_bo_gem_create_from_prime _ _ _) w') as [answer w2].
    exists fd_, answer. split; [done|]. cbn [head fst]. do 3 f_equal.
    unfold to_int32, to_uint32. by rewrite Z.add_mod_idemp_l.
  - intros Hshared. revert Hexp.
    unfold intel_winsys_export_handle, gem_bo, truthy. rewrite Hshared.
    rewrite !run_bind, run_call. tidy.
    destruct (respond M (drm_intel_bo_flink bo) w) as [[err gem_name] w1]. tidy.
    rewrite run_ret. tidy.
    destruct (err =? 0) eqn:Herr; cbn [negb]; rewrite run_ret; tidy;
      [|intros [= -> _]; done].
    apply Z.eqb_eq in Herr as ->. intros [= <-].
    unfold intel_winsys_import_handle. cbn [type set_stride set_handle handle stride].
    rewrite Hshared, run_bind, run_call. tidy.
    destruct (respond M (drm_intel_bo_gem_create_from_name _ _ _) w') as [answer w2].
    exists gem_name, answer. split; [done|]. cbn [head fst]. do 3 f_equal.
    unfold to_uint32. by rewrite Z.mod_mod.
  - intros bo' tiling' pitch' Hres.
    destruct (import_owns_what_it_returns_aux winsys' name h' height' w')
      as [[Hnone _]|(bo2 & t2 & s2 & Hsome & _)]; cbv zeta in *; congruence.
Qed.

(** X4.  A winsys that [intel_winsys_create_for_fd] returned and that is then
    destroyed owes nothing: memory, buffer manager and context are all given
    back, whatever else happened in between as long as it was neutral. *)
Theorem create_then_destroy_neutral (inst fd_ : Z) (mem : address)
    (winsys : intel_winsys) (between : list logged) (w w' : world M) :
  result (run M (intel_winsys_create_for_fd inst fd_) w) = Returned (Some (mem, winsys)) ->
  neutral between ->
  outstanding ∅
    (calls (run M (intel_winsys_create_for_fd inst fd_) w) ++ between ++
     calls (run M (intel_winsys_destroy mem winsys) w')) = ∅.
Proof.
  intros Hres Hbetween.
  destruct (create_for_fd_cases M inst fd_ w)
    as [(Hnull & _)|(mem' & b & c & winsys' & Hres' & Hb & Hc & _ & Hown)];
    cbv zeta in *; [congruence|].
  rewrite Hres in Hres'. injection Hres' as <- <-.
  rewrite !outstanding_app, Hown, Hbetween.
  by apply destroy_releases_winsys.
Qed.

(** X5.  For a pitch that fits the 32 bits of libdrm's stride,
    [intel_bo_set_tiling] returns 0 exactly when the pitch passes the
    alignment test and the kernel answers with status 0 and the mode that was
    asked for; whenever it returns something else, that is -1. *)
Theorem set_tiling_succeeds_iff (bo : intel_bo) (tiling : intel_tiling_mode)
    (pitch : Z) (w : world M) :
  0 <= pitch < 2 ^ 32 ->
  let x := run M (intel_bo_set_tiling bo tiling pitch) w in
  let request := drm_intel_bo_set_tiling bo (to_uint32 (tiling_value tiling)) pitch in
  (result x = Returned 0 <->
   pitch_aligned tiling pitch /\
   (respond M request w).1 = (0, to_uint32 (tiling_value tiling))) /\
  (forall status, result x = Returned status -> status = 0 \/ status = -1).
Proof.
  intros _. cbv zeta. unfold intel_bo_set_tiling, gem_bo, truthy, assert.
  assert (Hmis : exists misaligned,
            match tiling with
            | INTEL_TILING_X => negb (pitch mod 512 =? 0)
            | INTEL_TILING_Y => negb (pitch mod 128 =? 0)
            | _ => false
            end = misaligned /\
            (misaligned = false <-> pitch_aligned tiling pitch)).
  { eexists. split; [reflexivity|].
    destruct tiling; simpl; [done| |];
      (destruct (_ =? 0) eqn:Hal; simpl;
       [apply Z.eqb_eq in Hal|apply Z.eqb_neq in Hal]; by split). }
  destruct Hmis as (misaligned & -> & Hal).
  destruct misaligned; [|apply proj1 in Hal; specialize (Hal eq_refl)].
  { rewrite run_ret. tidy. split; [split; [done|intros [Hp _]; by apply Hal in Hp]|].
    intros status [= <-]. by right. }
  rewrite run_bind, run_call. tidy.
  destruct (respond M (drm_intel_bo_set_tiling _ _ _) w) as [[err applied] w1]. tidy.
  destruct (err =? 0) eqn:Herr; cbn [negb orb].
  - apply Z.eqb_eq in Herr as ->.
    destruct (applied =? to_uint32 (tiling_value tiling)) eqn:Happ; cbn [negb].
    + apply Z.eqb_eq in Happ as ->. rewrite run_ret. tidy.
      split; [done|]. intros status [= <-]. by left.
    + apply Z.eqb_neq in Happ.
      destruct NDEBUG; simpl; (split; [split; [done|intros [_ [= ?]]; done]|]).
      * intros status [= <-]. by right.
      * done.
  - apply Z.eqb_neq in Herr.
    destruct NDEBUG; simpl; (split; [split; [done|intros [_ [= ? ?]]; done]|]).
    + intros status [= <-]. by right.
    + done.
Qed.

End WinsysProperties.


(** ** Pixel formats *)

Section FormatProperties.

Context `{Headers} (M : libdrm).

(** X6.  The numeric kinds are exclusive: a format is at most one of depth/stencil,
    normalized, integer, float and sRGB, and a depth/stencil format is never a
    compressed one. *)
Theorem format_kinds_exclusive (format : VK_FORMAT) :
  (icd_format_is_ds format = true ->
   icd_format_is_norm format = false /\ icd_format_is_int format = false /\
   icd_format_is_float format = false /\ icd_format_is_srgb format = false /\
   icd_format_is_compressed format = false) /\
  (icd_format_is_norm format = true ->
   icd_format_is_int format = false /\ icd_format_is_float format = false /\
   icd_format_is_srgb format = false) /\
  (icd_format_is_int format = true ->
   icd_format_is_float format = false /\ icd_format_is_srgb format = false) /\
  (icd_format_is_float format = true -> icd_format_is_srgb format = false).
Proof. destruct format; repeat split; intros; (reflexivity || discriminate). Qed.

(** X7.  What the table says, format by format: a size of at most 32 bytes and at
    most 4 channels; no channels exactly when the size is 0, which only
    happens for the undefined format and for compressed ones; 1 to 4 bytes
    and 1 or 2 channels for depth/stencil; 0, 8 or 16 bytes for compressed
    formats. *)
Theorem format_table_ranges (format : VK_FORMAT) :
  0 <= icd_format_get_size format <= 32 /\
  0 <= icd_format_get_channel_count format <= 4 /\
  (icd_format_get_size format = 0 <-> icd_format_get_channel_count format = 0) /\
  (icd_format_get_size format = 0 ->
   format = VK_FMT_UNDEFINED \/ icd_format_is_compressed format = true) /\
  (icd_format_is_ds format = true ->
   1 <= icd_format_get_size format <= 4 /\
   1 <= icd_format_get_channel_count format <= 2) /\
  (icd_format_is_compressed format = true ->
   icd_format_get_size format = 0 \/ icd_format_get_size format = 8 \/
   icd_format_get_size format = 16).
Proof.
  destruct format; vm_compute; split_and!; try split; intros;
    try discriminate; try (left; reflexivity); try (right; reflexivity);
    try (right; left; reflexivity); try (right; right; reflexivity);
    try (split; discriminate).
Qed.

Lemma get_class_cases (is_undef : VK_FORMAT -> bool) (format : VK_FORMAT) (w : world M) :
  let x := run M (icd_format_get_class is_undef format) w in
  ((NDEBUG = true \/ is_undef format = false) /\
   1 <= icd_format_get_size format <= 16 /\
   exists c, result x = Returned (Some c) /\
             class_bytes c = icd_format_get_size format /\
             c <> VK_IMAGE_FORMAT_CLASS_D32S8) \/
  (~ ((NDEBUG = true \/ is_undef format = false) /\
      1 <= icd_format_get_size format <= 16) /\
   forall c, result x <> Returned (Some c)).
Proof.
  cbv zeta. unfold icd_format_get_class, assert.
  destruct NDEBUG eqn:Hbuild, (is_undef format) eqn:Hundef; destruct format;
    first
      [ left; split; [auto|]; split; [by vm_compute|];
        eexists; split; [reflexivity|]; split; [reflexivity|discriminate]
      | right; split; [|intros c; vm_compute; discriminate];
        intros [[?|?] [? ?]]; (discriminate || (vm_compute in *; congruence)) ].
Qed.

(** X8.  [icd_format_get_class] returns a class exactly for the formats of 1 to 16
    bytes that pass the test for the undefined format (a test that only the
    build with assertions makes).  For the others -- the undefined format, the
    compressed formats whose table entry is still 0, the 24- and 32-byte
    float formats -- an assertion fails or, without assertions, the function
    ends without returning a value. *)
Theorem get_class_returns_iff (is_undef : VK_FORMAT -> bool) (format : VK_FORMAT)
    (w : world M) :
  (exists c, result (run M (icd_format_get_class is_undef format) w) = Returned (Some c))
  <->
  (NDEBUG = true \/ is_undef format = false) /\ 1 <= icd_format_get_size format <= 16.
Proof.
  destruct (get_class_cases is_undef format w)
    as [(Hok & Hsize & c & Hres & _)|[Hno Hnone]]; cbv zeta in *.
  - split; [done|]. intros _. by exists c.
  - split; [|done]. intros [c Hres]. by destruct (Hnone c).
Qed.

(** X9.  Two formats that get the same class have the same size. *)
Theorem same_class_same_size (is_undef : VK_FORMAT -> bool) (f g : VK_FORMAT)
    (c : VK_IMAGE_FORMAT_CLASS) (w w' : world M) :
  result (run M (icd_format_get_class is_undef f) w) = Returned (Some c) ->
  result (run M (icd_format_get_class is_undef g) w') = Returned (Some c) ->
  icd_format_get_size f = icd_format_get_size g.
Proof.
  intros Hf Hg.
  destruct (get_class_cases is_undef f w)
    as [(_ & _ & cf & Hcf & Hbf & _)|[_ Hnone]]; cbv zeta in *;
    [|by destruct (Hnone c)].
  destruct (get_class_cases is_undef g w')
    as [(_ & _ & cg & Hcg & Hbg & _)|[_ Hnone]]; cbv zeta in *;
    [|by destruct (Hnone c)].
  congruence.
Qed.

(** X10.  The class D32S8 is never returned, for any format and in either build;
    the format with a 32-bit depth and a stencil is put in D24S8. *)
Theorem get_class_never_d32s8 (is_undef : VK_FORMAT -> bool) (w : world M) :
  (forall format,
     result (run M (icd_format_get_class is_undef format) w)
       <> Returned (Some VK_IMAGE_FORMAT_CLASS_D32S8)) /\
  (NDEBUG = true \/ is_undef VK_FMT_D32_SFLOAT_S8_UINT = false ->
   result (run M (icd_format_get_class is_undef VK_FMT_D32_SFLOAT_S8_UINT) w)
     = Returned (Some VK_IMAGE_FORMAT_CLASS_D24S8)).
Proof.
  split.
  - intros format Hres.
    destruct (get_class_cases is_undef format w)
      as [(_ & _ & c & Hc & _ & Hne)|[_ Hnone]]; cbv zeta in *;
      [congruence|by destruct (Hnone VK_IMAGE_FORMAT_CLASS_D32S8)].
  - unfold icd_format_get_class, assert.
    intros [Hbuild|Hundef]; [rewrite Hbuild|rewrite Hundef];
      by destruct (is_undef _), NDEBUG.
Qed.

Lemma write_all_from (stores : list (nat * Z)) (done rest : list Z) :
  stores.*1 = seq (length done) (length stores) ->
  (length stores <= length rest)%nat ->
  write_all stores (done ++ rest) =
  Some (done ++ stores.*2 ++ drop (length stores) rest).
Proof.
  revert done rest. induction stores as [|[i b] stores IH]; intros done rest Hseq Hlen.
  - by rewrite drop_0.
  - simpl in *. injection Hseq as -> Hseq.
    destruct rest as [|r rest]; [simpl in Hlen; lia|].
    rewrite decide_True by (rewrite length_app; simpl; lia).
    rewrite insert_app_r_alt, Nat.sub_diag by lia. simpl.
    rewrite (cons_middle b done rest), app_assoc.
    rewrite IH; [|by rewrite length_app, Nat.add_1_r|simpl in Hlen; lia].
    by rewrite <- app_assoc.
Qed.

Lemma write_all_length (stores : list (nat * Z)) (value value' : list Z) :
  write_all stores value = Some value' -> length value' = length value.
Proof.
  revert value. induction stores as [|[i b] stores IH]; intros value; simpl.
  - by intros [= ->].
  - case_decide; [|done]. intros Hw. apply IH in Hw. by rewrite length_insert in Hw.
Qed.

Lemma write_all_outside (stores : list (nat * Z)) (value : list Z) (i : nat) :
  i ∈ stores.*1 -> (length value <= i)%nat -> write_all stores value = None.
Proof.
  revert value. induction stores as [|[j b] stores IH]; intros value Hin Hlen.
  - by apply elem_of_nil in Hin.
  - simpl in *. case_decide; [|done].
    apply elem_of_cons in Hin as [->|Hin]; [lia|].
    apply IH; [done|]. by rewrite length_insert.
Qed.

(** X11.  The bytes that [icd_format_get_raw_value] writes.  For a format it
    handles, they are written at the start of [value] and the rest of the
    buffer is left alone; their number is [icd_format_get_size], as the
    comment of the function promises, except for D32_SFLOAT_S8_UINT, where it
    is one more: a buffer of [icd_format_get_size] bytes is then too small
    and the last store falls outside it. *)
Theorem raw_value_extent (format : VK_FORMAT) (color : list Z) :
  is_Some (raw_value_stores format color) ->
  exists bytes,
    (format <> VK_FMT_D32_SFLOAT_S8_UINT ->
     Z.of_nat (length bytes) = icd_format_get_size format) /\
    (format = VK_FMT_D32_SFLOAT_S8_UINT ->
     Z.of_nat (length bytes) = icd_format_get_size format + 1) /\
    forall (value : list Z) (w : world M),
      let x := run M (icd_format_get_raw_value format color value) w in
      ((length bytes <= length value)%nat ->
       result x = Returned (Some (bytes ++ drop (length bytes) value))) /\
      ((length value < length bytes)%nat -> result x = Returned None).
Proof.
  intros [stores Hstores]. exists stores.*2.
  assert (Hseq : stores.*1 = seq 0 (length stores))
    by (destruct format; try discriminate; injection Hstores as <-; reflexivity).
  split_and!.
  - intros Hne. rewrite length_fmap.
    destruct format; try discriminate; try done; injection Hstores as <-; reflexivity.
  - intros ->. rewrite length_fmap. injection Hstores as <-. reflexivity.
  - intros value w. cbv zeta. unfold icd_format_get_raw_value. rewrite Hstores.
    rewrite length_fmap. simpl. split; intros Hlen.
    + pose proof (write_all_from stores [] value Hseq Hlen) as Hw.
      simpl in Hw. by rewrite Hw.
    + rewrite (write_all_outside stores value (length value)); [done| |done].
      rewrite Hseq. apply elem_of_seq. lia.
Qed.

(** X12.  A format whose size the table does not know is never written: the
    undefined format stores nothing and returns, every other one ends in the
    "unknown format" assertion (or, without assertions, returns with the
    buffer as it was). *)
Theorem raw_value_unknown_size (format : VK_FORMAT) (color value : list Z)
    (w : world M) :
  icd_format_get_size format = 0 ->
  result (run M (icd_format_get_raw_value format color value) w) =
  if NDEBUG then Returned (Some value)
  else match format with
       | VK_FMT_UNDEFINED => Returned (Some value)
       | _ => Aborted "unknown format"
       end.
Proof.
  unfold icd_format_get_raw_value, assert.
  destruct format; try discriminate; intros _; by destruct NDEBUG.
Qed.

Lemma load_le_bytes (v : Z) (s n : nat) :
  load_le ((fun k => byte_of v k) <$> seq s n) =
  Z.land (Z.shiftr v (8 * Z.of_nat s)) (Z.ones (8 * Z.of_nat n)).
Proof.
  revert s. induction n as [|n IH]; intros s.
  - simpl. by rewrite Z.land_0_r.
  - cbn [seq fmap list_fmap load_le foldr]. fold (load_le (byte_of v <$> seq (S s) n)).
    rewrite IH. clear IH. unfold byte_of. change 255 with (Z.ones 8).
    replace (8 * Z.of_nat (S s)) with (8 * Z.of_nat s + 8) by lia.
    replace (8 * Z.of_nat (S n)) with (8 * Z.of_nat n + 8) by lia.
    assert (Ha : 0 <= 8 * Z.of_nat s) by lia. assert (Hb : 0 <= 8 * Z.of_nat n) by lia.
    revert Ha Hb. generalize (8 * Z.of_nat s). generalize (8 * Z.of_nat n).
    intros a b Ha Hb. Z.bitblast.
Qed.

Lemma load_le_store (width index : nat) (v : Z) :
  load_le (store_le width index v).*2 = Z.land v (Z.ones (8 * Z.of_nat width)).
Proof.
  unfold store_le. rewrite <- list_fmap_compose.
  change (snd ∘ _) with (fun k => byte_of v k).
  by rewrite load_le_bytes, Z.shiftr_0_r.
Qed.

Ltac masks_to_ones :=
  repeat match goal with
    | |- context [Z.land ?a 1] => progress change (Z.land a 1) with (Z.land a (Z.ones 1))
    | |- context [Z.land ?a 3] => progress change (Z.land a 3) with (Z.land a (Z.ones 2))
    | |- context [Z.land ?a 15] => progress change (Z.land a 15) with (Z.land a (Z.ones 4))
    | |- context [Z.land ?a 31] => progress change (Z.land a 31) with (Z.land a (Z.ones 5))
    | |- context [Z.land ?a 63] => progress change (Z.land a 63) with (Z.land a (Z.ones 6))
    | |- context [Z.land ?a 511] => progress change (Z.land a 511) with (Z.land a (Z.ones 9))
    | |- context [Z.land ?a 1023] => progress change (Z.land a 1023) with (Z.land a (Z.ones 10))
    | |- context [Z.land ?a 2047] => progress change (Z.land a 2047) with (Z.land a (Z.ones 11))
    end.


End FormatProperties.


(** ** The screenshot layer *)

Lemma land_1_testbit (typeBits i : Z) :
  0 <= i -> (Z.land (Z.shiftr typeBits i) 1 =? 1) = Z.testbit typeBits i.
Proof.
  intros Hi. change 1 with (Z.ones 1) at 1. rewrite Z.land_ones by lia.
  change (2 ^ 1) with 2. rewrite <- Z.bit0_mod, Z.shiftr_spec by lia.
  rewrite Z.add_0_l. by destruct (Z.testbit typeBits i).
Qed.

Lemma memory_type_search_spec (remaining : nat) (i : Z) (propertyFlags : Z -> Z)
    (typeBits requirements_mask : Z) (found : option Z) :
  0 <= i ->
  memory_type_search remaining i propertyFlags (Z.shiftr typeBits i) requirements_mask
    = found ->
  match found with
  | Some k =>
      i <= k < i + Z.of_nat remaining /\
      memory_type_suits propertyFlags typeBits requirements_mask k /\
      forall j, i <= j < k ->
                ~ memory_type_suits propertyFlags typeBits requirements_mask j
  | None =>
      forall j, i <= j < i + Z.of_nat remaining ->
                ~ memory_type_suits propertyFlags typeBits requirements_mask j
  end.
Proof.
  revert i found. induction remaining as [|n IH]; intros i found Hi <-.
  - simpl. intros j Hj. lia.
  - cbn [memory_type_search]. rewrite land_1_testbit by done.
    destruct (Z.testbit typeBits i) eqn:Hbit; cbn [andb].
    + destruct (Z.eqb_spec (Z.land (propertyFlags i) requirements_mask) requirements_mask)
        as [Hflags|Hflags].
      * split; [lia|]. split; [done|]. intros j Hj. lia.
      * rewrite Z.shiftr_shiftr by lia.
        specialize (IH (i + 1) _ ltac:(lia) eq_refl).
        destruct (memory_type_search n (i + 1) _ _ _) as [k|].
        -- destruct IH as (Hk & Hsuits & Hfirst). split; [lia|]. split; [done|].
           intros j Hj Hsj. destruct (decide (j = i)) as [->|Hne];
             [by destruct Hsj|by apply (Hfirst j ltac:(lia))].
        -- intros j Hj Hsj. destruct (decide (j = i)) as [->|Hne];
             [by destruct Hsj|by apply (IH j ltac:(lia))].
    + rewrite Z.shiftr_shiftr by lia.
      specialize (IH (i + 1) _ ltac:(lia) eq_refl).
      destruct (memory_type_search n (i + 1) _ _ _) as [k|].
      * destruct IH as (Hk & Hsuits & Hfirst). split; [lia|]. split; [done|].
        intros j Hj Hsj. destruct (decide (j = i)) as [->|Hne];
          [destruct Hsj; congruence|by apply (Hfirst j ltac:(lia))].
      * intros j Hj Hsj. destruct (decide (j = i)) as [->|Hne];
          [destruct Hsj; congruence|by apply (IH j ltac:(lia))].
Qed.

(** X14.  [memory_type_from_properties] is a first-fit search: it succeeds with
    index [i] exactly when [i] is the lowest of the 32 memory types that is
    allowed by [typeBits] and has every property of the mask. *)
Theorem memory_type_first_fit (propertyFlags : Z -> Z) (typeBits requirements_mask i : Z) :
  memory_type_from_properties propertyFlags typeBits requirements_mask = Some i <->
  0 <= i < 32 /\
  memory_type_suits propertyFlags typeBits requirements_mask i /\
  forall j, 0 <= j < i -> ~ memory_type_suits propertyFlags typeBits requirements_mask j.
Proof.
  unfold memory_type_from_properties.
  pose proof (memory_type_search_spec 32 0 propertyFlags typeBits requirements_mask
                _ ltac:(lia) eq_refl) as Hspec.
  rewrite Z.shiftr_0_r in Hspec.
  destruct (memory_type_search 32 0 _ _ _) as [k|].
  - destruct Hspec as (Hk & Hsuits & Hfirst). split.
    + intros [= <-]. split; [lia|done].
    + intros (Hi & Hsuitsi & Hfirsti). f_equal.
      destruct (Z.lt_trichotomy k i) as [Hlt|[->|Hgt]]; [|done|].
      * by destruct (Hfirsti k ltac:(lia)).
      * by destruct (Hfirst i ltac:(lia)).
  - split; [done|]. intros (Hi & Hsuitsi & _). by destruct (Hspec i ltac:(lia)).
Qed.

(** X15.  It fails exactly when none of the 32 memory types suits; memory types
    from 32 on are never looked at. *)
Theorem memory_type_none (propertyFlags : Z -> Z) (typeBits requirements_mask : Z) :
  memory_type_from_properties propertyFlags typeBits requirements_mask = None <->
  forall j, 0 <= j < 32 ->
            ~ memory_type_suits propertyFlags typeBits requirements_mask j.
Proof.
  unfold memory_type_from_properties.
  pose proof (memory_type_search_spec 32 0 propertyFlags typeBits requirements_mask
                _ ltac:(lia) eq_refl) as Hspec.
  rewrite Z.shiftr_0_r in Hspec.
  destruct (memory_type_search 32 0 _ _ _) as [k|].
  - destruct Hspec as (Hk & Hsuits & _). split; [done|].
    intros Hnone. by destruct (Hnone k ltac:(lia)).
  - by split.
Qed.


(** *** The list of frames to capture *)

Section FrameList.

Context (atoi : string -> Z).

Lemma parse_frames_loop_eq (spec : string) (start : nat) (frames : list Z) :
  parse_frames_loop atoi spec start frames =
  if decide (start < String.length spec)%nat then
    match string_find ","%char spec start with
    | None => add_frame atoi (String.substring start (String.length spec - start) spec) frames
    | Some comma =>
        parse_frames_loop atoi spec (comma + 1)
          (add_frame atoi (String.substring start (comma - start) spec) frames)
    end
  else frames.
Proof.
  funelim (parse_frames_loop atoi spec start frames).
  - by rewrite Heq.
  - by rewrite Heq, e.
  - by rewrite Heq, e.
Qed.

Lemma string_find_bounds (c : ascii) (s : string) (pos i : nat) :
  string_find c s pos = Some i -> (pos <= i < String.length s)%nat.
Proof.
  revert pos i. induction s as [|a s IH]; intros pos i; simpl; [done|].
  destruct pos as [|pos].
  - case_decide; [intros [= <-]; lia|].
    destruct (string_find c s 0) as [j|] eqn:Hj; [|done].
    intros [= <-]. apply IH in Hj. lia.
  - destruct (string_find c s pos) as [j|] eqn:Hj; [|done].
    intros [= <-]. apply IH in Hj. lia.
Qed.

(** The loop does not look at what lies before [start]. *)
Lemma parse_frames_loop_shift (a : ascii) (spec : string) (start : nat) (frames : list Z) :
  parse_frames_loop atoi (String a spec) (S start) frames =
  parse_frames_loop atoi spec start frames.
Proof.
  remember (String.length spec - start)%nat as m eqn:Hm.
  revert start frames Hm. induction (lt_wf m) as [m _ IH]. intros start frames ->.
  rewrite (parse_frames_loop_eq (String a spec)), (parse_frames_loop_eq spec).
  cbn [String.length string_find String.substring].
  destruct (decide (start < String.length spec)%nat) as [Hlt|Hge].
  - rewrite decide_True by lia.
    destruct (string_find ","%char spec start) as [comma|] eqn:Hfind; simpl.
    + apply string_find_bounds in Hfind.
      replace (S comma - S start)%nat with (comma - start)%nat by lia.
      apply (IH (String.length spec - (comma + 1))%nat); [lia|done].
    + done.
  - by rewrite decide_False by lia.
Qed.

Lemma parse_frames_loop_drop (spec : string) (start : nat) (frames : list Z) :
  parse_frames_loop atoi spec start frames =
  parse_frames_loop atoi (string_drop start spec) 0 frames.
Proof.
  revert spec. induction start as [|start IH]; intros spec; [done|].
  destruct spec as [|a spec]; simpl.
  - by rewrite !parse_frames_loop_eq.
  - by rewrite parse_frames_loop_shift.
Qed.

Lemma substring_all (s : string) : String.substring 0 (String.length s) s = s.
Proof. induction s as [|a s IH]; simpl; [done|by rewrite IH]. Qed.

Lemma append_cons (a : ascii) (s1 s2 : string) :
  String a s1 +:+ s2 = String a (s1 +:+ s2).
Proof. reflexivity. Qed.

Lemma append_empty_l (s : string) : EmptyString +:+ s = s.
Proof. reflexivity. Qed.

Lemma append_assoc (s1 s2 s3 : string) : (s1 +:+ s2) +:+ s3 = s1 +:+ (s2 +:+ s3).
Proof.
  induction s1 as [|a s1 IH]; [done|]. by rewrite !append_cons, IH.
Qed.

Lemma append_empty_r (s : string) : s +:+ EmptyString = s.
Proof. induction s as [|a s IH]; [done|]. by rewrite append_cons, IH. Qed.

Lemma split_commas_from_unfold (word s : string) :
  split_commas_from word s =
  match string_find ","%char s 0 with
  | None => [word +:+ s]
  | Some comma =>
      (word +:+ String.substring 0 comma s) :: split_commas (string_drop (comma + 1) s)
  end.
Proof.
  revert word. induction s as [|a s IH]; intros word; simpl.
  - by rewrite append_empty_r.
  - case_decide as Ha.
    + simpl. by rewrite append_empty_r.
    + rewrite IH. destruct (string_find ","%char s 0) as [comma|]; simpl.
      * by rewrite append_assoc, append_cons, append_empty_l.
      * by rewrite append_assoc, append_cons, append_empty_l.
Qed.

Lemma string_drop_length (n : nat) (s : string) :
  String.length (string_drop n s) = (String.length s - n)%nat.
Proof.
  revert s. induction n as [|n IH]; intros [|a s]; simpl; auto with lia.
Qed.

Lemma add_frame_empty (frames : list Z) : add_frame atoi EmptyString frames = frames.
Proof. reflexivity. Qed.

Lemma parse_frames_loop_split (spec : string) (frames : list Z) :
  parse_frames_loop atoi spec 0 frames =
  foldl (fun frames word => add_frame atoi word frames) frames (split_commas spec).
Proof.
  remember (String.length spec) as m eqn:Hm.
  revert spec frames Hm. induction (lt_wf m) as [m _ IH]. intros spec frames ->.
  rewrite parse_frames_loop_eq. unfold split_commas.
  rewrite split_commas_from_unfold. rewrite Nat.sub_0_r, substring_all.
  destruct (decide (0 < String.length spec)%nat) as [Hlt|Hge].
  - destruct (string_find ","%char spec 0) as [comma|] eqn:Hfind; simpl; [|done].
    apply string_find_bounds in Hfind.
    rewrite Nat.sub_0_r, parse_frames_loop_drop.
    apply (IH (String.length (string_drop (comma + 1) spec))); [|done].
    rewrite string_drop_length. lia.
  - destruct spec; [done|simpl in Hge; lia].
Qed.

Lemma parse_screenshot_env_words_aux (env : option string) (frames : list Z) :
  parse_screenshot_env atoi env frames =
  foldl (fun frames word => add_frame atoi word frames) frames
        (from_option split_commas [] env).
Proof.
  destruct env as [[|a spec]|]; [done| |done].
  apply parse_frames_loop_split.
Qed.

(** X16.  Reading _VK_SCREENSHOT comes to this: cut the string at its commas and
    take the words in order; a word counts if it starts with a digit and
    [atoi] of it is not in the list yet.  An unset or empty variable leaves
    the list as it is. *)
Theorem parse_screenshot_env_words (env : option string) (frames : list Z) :
  parse_screenshot_env atoi env frames =
  foldl (fun frames word => add_frame atoi word frames) frames
        (from_option split_commas [] env).
Proof. apply parse_screenshot_env_words_aux. Qed.

Lemma add_frames_extend (words : list string) (frames : list Z) :
  exists added,
    foldl (fun frames word => add_frame atoi word frames) frames words = frames ++ added /\
    (NoDup frames -> NoDup (frames ++ added)) /\
    (forall x, x ∈ added -> exists word,
        word ∈ words /\ starts_with_digit word = true /\ x = atoi word) /\
    (forall word, word ∈ words -> starts_with_digit word = true ->
                  atoi word ∈ frames ++ added).
Proof.
  revert frames. induction words as [|word words IH]; intros frames; simpl.
  - exists []. rewrite app_nil_r. split_and!; try done.
    + intros x Hx. by apply elem_of_nil in Hx.
    + intros word Hw. by apply elem_of_nil in Hw.
  - destruct (IH (add_frame atoi word frames)) as (added & -> & Hnodup & Hfrom & Hall).
    unfold add_frame in *.
    destruct (starts_with_digit word) eqn:Hdigit; simpl in *;
      [case_bool_decide as Hnew; simpl in *|].
    + exists (atoi word :: added). rewrite <- app_assoc in *. simpl in *.
      split_and!; try done.
      * intros Hnd. apply Hnodup. apply NoDup_app. split; [done|].
        split; [|apply NoDup_singleton].
        intros x Hx ->%list_elem_of_singleton. done.
      * intros x [->|Hx]%elem_of_cons.
        -- exists word. split; [left|done].
        -- destruct (Hfrom x Hx) as (w' & Hw' & Hd & ->).
           exists w'. split; [by right|done].
      * intros w' [->|Hw']%elem_of_cons Hd; [|by apply Hall].
        apply elem_of_app. right. left.
    + exists added. split_and!; try done.
      * intros x Hx. destruct (Hfrom x Hx) as (w' & Hw' & Hd & ->).
        exists w'. split; [by right|done].
      * intros w' [->|Hw']%elem_of_cons Hd; [|by apply Hall].
        apply elem_of_app. left. by destruct (decide (atoi word ∈ frames)).
    + exists added. split_and!; try done.
      * intros x Hx. destruct (Hfrom x Hx) as (w' & Hw' & Hd & ->).
        exists w'. split; [by right|done].
      * intros w' [->|Hw']%elem_of_cons Hd; [congruence|by apply Hall].
Qed.

(** X17.  Reading the variable only appends: the frames already listed stay in
    front, in their order; a list without repetitions stays without; every
    frame that is added is [atoi] of a word that starts with a digit, and
    every such word ends up represented in the list. *)
Theorem parse_screenshot_env_extends (env : option string) (frames : list Z) :
  exists added,
    parse_screenshot_env atoi env frames = frames ++ added /\
    (NoDup frames -> NoDup (frames ++ added)) /\
    (forall x, x ∈ added -> exists word,
        word ∈ from_option split_commas [] env /\
        starts_with_digit word = true /\ x = atoi word) /\
    (forall word, word ∈ from_option split_commas [] env ->
                  starts_with_digit word = true -> atoi word ∈ frames ++ added).
Proof.
  rewrite parse_screenshot_env_words_aux. apply add_frames_extend.
Qed.

End FrameList.


(** ** The screenshot layer: running it *)

Section LayerRunning.

Lemma vk_always_run {R : Type} (P : platform) (p : vk R) (st : layer) (w : vk_world P)
    (Q : vk_outcome R -> layer -> list vk_logged -> Prop) :
  vk_always p st Q ->
  Q (vk_result (vk_run P p st w)) (vk_state (vk_run P p st w)) (vk_calls (vk_run P p st w)).
Proof.
  revert st w Q. induction p as [r|X e k IH|k IH|st' k IH| |msg]; intros st w Q Hp; simpl in *.
  - done.
  - destruct (vk_respond P e w) as [a w']. simpl.
    apply (IH a st w' (fun r st' log => Q r st' (VkLogged e a :: log))), Hp.
  - by apply IH.
  - by apply IH.
  - done.
  - done.
Qed.

Lemma vk_always_mono {R : Type} (p : vk R) (st : layer)
    (Q Q' : vk_outcome R -> layer -> list vk_logged -> Prop) :
  vk_always p st Q -> (forall r st' log, Q r st' log -> Q' r st' log) -> vk_always p st Q'.
Proof.
  revert st Q Q'. induction p as [r|X e k IH|k IH|st' k IH| |msg];
    intros st Q Q' Hp Himp; simpl in *.
  - by apply Himp.
  - intros a. eapply IH; [apply Hp|]. intros r st' log. apply Himp.
  - by eapply IH.
  - by eapply IH.
  - by apply Himp.
  - by apply Himp.
Qed.

Lemma vk_always_bind {A B : Type} (p : vk A) (f : A -> vk B) (st : layer)
    (Q : vk_outcome B -> layer -> list vk_logged -> Prop) :
  vk_always p st (vk_then f Q) -> vk_always (p ≫= f) st Q.
Proof.
  unfold mbind, vk_mbind.
  revert st Q. induction p as [r|X e k IH|k IH|st' k IH| |msg]; intros st Q Hp; simpl in *.
  - eapply vk_always_mono; [apply Hp|]. by intros r' st' log.
  - intros a. apply IH. eapply vk_always_mono; [apply Hp|].
    intros [b| |msg] st' log; simpl; [|done..].
    intros Hf. eapply vk_always_mono; [apply Hf|]. by intros r' st'' log'.
  - by apply IH.
  - by apply IH.
  - done.
  - done.
Qed.

Lemma vk_always_assoc {A B C : Type} (p : vk A) (f : A -> vk B) (g : B -> vk C)
    (st : layer) (Q : vk_outcome C -> layer -> list vk_logged -> Prop) :
  vk_always (p ≫= fun a => f a ≫= g) st Q -> vk_always ((p ≫= f) ≫= g) st Q.
Proof.
  unfold mbind, vk_mbind.
  revert st Q. induction p as [r|X e k IH|k IH|st' k IH| |msg]; intros st Q Hp; simpl in *.
  - done.
  - intros a. by apply IH.
  - by apply IH.
  - by apply IH.
  - done.
  - done.
Qed.

Lemma vk_always_through_bind {X B : Type} (p : Z) (e : vkE X) (f : X -> vk B)
    (st : layer) (Q : vk_outcome B -> layer -> list vk_logged -> Prop) :
  (p = 0 -> Q UndefinedBehaviour st []) ->
  (p <> 0 -> forall a, vk_always (f a) st (fun r st' log => Q r st' (VkLogged e a :: log))) ->
  vk_always (through p e ≫= f) st Q.
Proof.
  intros Hnull Hcall. unfold through. destruct (p =? 0) eqn:Hp.
  - apply Z.eqb_eq in Hp. by apply Hnull.
  - apply Z.eqb_neq in Hp. simpl. intros a. by apply Hcall.
Qed.

Lemma vk_always_through {X : Type} (p : Z) (e : vkE X) (st : layer)
    (Q : vk_outcome X -> layer -> list vk_logged -> Prop) :
  (p = 0 -> Q UndefinedBehaviour st []) ->
  (p <> 0 -> forall a, Q (Finished a) st [VkLogged e a]) ->
  vk_always (through p e) st Q.
Proof.
  intros Hnull Hcall. unfold through. destruct (p =? 0) eqn:Hp.
  - apply Z.eqb_eq in Hp. by apply Hnull.
  - apply Z.eqb_neq in Hp. simpl. intros a. by apply Hcall.
Qed.

Lemma vk_always_assert_bind `{Headers} {B : Type} (c : bool) (msg : string)
    (f : unit -> vk B) (st : layer) (Q : vk_outcome B -> layer -> list vk_logged -> Prop) :
  (NDEBUG = false -> c = false -> Q (AssertionFailed msg) st []) ->
  (NDEBUG = true \/ c = true -> vk_always (f tt) st Q) ->
  vk_always (vk_assert c msg ≫= f) st Q.
Proof.
  intros Hfail Hpass. unfold vk_assert.
  destruct NDEBUG; [apply Hpass; by left|].
  destruct c; [apply Hpass; by right|]. by apply Hfail.
Qed.

Lemma files_written_app (log1 log2 : list vk_logged) :
  files_written (log1 ++ log2) = files_written log1 ++ files_written log2.
Proof. apply omap_app. Qed.

Lemma env_answers_app (log1 log2 : list vk_logged) :
  env_answers (log1 ++ log2) = env_answers log1 ++ env_answers log2.
Proof. apply omap_app. Qed.

Lemma present_results_app (log1 log2 : list vk_logged) :
  present_results (log1 ++ log2) = present_results log1 ++ present_results log2.
Proof. apply omap_app. Qed.

Lemma mutex_run_app (held : bool) (log1 log2 : list vk_logged) :
  mutex_run held (log1 ++ log2) = mutex_run held log1 ≫= fun held' => mutex_run held' log2.
Proof.
  revert held. induction log1 as [|ev log1 IH]; intros held; simpl; [done|].
  destruct (mutex_op ev) as [[]|]; destruct held; simpl; by rewrite ?IH.
Qed.

Lemma mutex_run_neutral (held : bool) (log : list vk_logged) :
  Forall (fun ev => mutex_op ev = None) log -> mutex_run held log = Some held.
Proof.
  induction 1 as [|ev log Hev _ IH]; simpl; [done|]. by rewrite Hev.
Qed.

Lemma silent_nil : silent [].
Proof. by split_and!. Qed.

Lemma silent_app (log1 log2 : list vk_logged) :
  silent log1 -> silent log2 -> silent (log1 ++ log2).
Proof.
  intros (Hf1 & He1 & Hp1 & Hm1) (Hf2 & He2 & Hp2 & Hm2). split_and!.
  - by rewrite files_written_app, Hf1, Hf2.
  - by rewrite env_answers_app, He1, He2.
  - by rewrite present_results_app, Hp1, Hp2.
  - by apply Forall_app.
Qed.

End LayerRunning.


(** ** The screenshot layer: the pixels of [writePPM] *)

Lemma load_le_four (b0 b1 b2 b3 : Z) :
  load_le [to_uint8 b0; to_uint8 b1; to_uint8 b2; to_uint8 b3] =
  Z.lor (Z.land b0 (Z.ones 8))
    (Z.lor (Z.shiftl (Z.land b1 (Z.ones 8)) 8)
       (Z.lor (Z.shiftl (Z.land b2 (Z.ones 8)) 16) (Z.shiftl (Z.land b3 (Z.ones 8)) 24))).
Proof.
  unfold load_le, to_uint8. cbn [foldr]. rewrite <- !Z.land_ones by lia.
  rewrite Z.shiftl_0_l, Z.lor_0_r. rewrite !Z.shiftl_lor, !Z.shiftl_shiftl by lia.
  reflexivity.
Qed.

Lemma load_le_four_bytes (b0 b1 b2 b3 : Z) :
  let pixel := load_le [to_uint8 b0; to_uint8 b1; to_uint8 b2; to_uint8 b3] in
  byte_of pixel 0 = to_uint8 b0 /\ byte_of pixel 1 = to_uint8 b1 /\
  byte_of pixel 2 = to_uint8 b2.
Proof.
  cbv zeta. rewrite load_le_four. unfold byte_of, to_uint8.
  rewrite <- !Z.land_ones by lia. change 255 with (Z.ones 8).
  change (8 * Z.of_nat 0) with 0. change (8 * Z.of_nat 1) with 8.
  change (8 * Z.of_nat 2) with 16.
  split_and!; Z.bitblast.
Qed.

(** The swap exchanges the first and the third byte of a pixel. *)
Lemma swapped_exchanges (pixel : Z) :
  byte_of (swapped pixel) 0 = byte_of pixel 2 /\
  byte_of (swapped pixel) 1 = byte_of pixel 1 /\
  byte_of (swapped pixel) 2 = byte_of pixel 0.
Proof.
  unfold byte_of, swapped, to_uint32.
  rewrite <- !Z.land_ones by lia.
  change 0xff00ff00 with (Z.lor (Z.shiftl (Z.ones 8) 8) (Z.shiftl (Z.ones 8) 24)).
  change 0x00ff0000 with (Z.shiftl (Z.ones 8) 16).
  change 0x000000ff with (Z.ones 8).
  change (8 * Z.of_nat 0) with 0. change (8 * Z.of_nat 1) with 8.
  change (8 * Z.of_nat 2) with 16.
  split_and!; Z.bitblast.
Qed.

Lemma swapped_bytes (b0 b1 b2 b3 : Z) :
  let pixel := load_le [to_uint8 b0; to_uint8 b1; to_uint8 b2; to_uint8 b3] in
  byte_of (swapped pixel) 0 = to_uint8 b2 /\
  byte_of (swapped pixel) 1 = to_uint8 b1 /\
  byte_of (swapped pixel) 2 = to_uint8 b0.
Proof.
  cbv zeta.
  destruct (swapped_exchanges
              (load_le [to_uint8 b0; to_uint8 b1; to_uint8 b2; to_uint8 b3]))
    as (-> & -> & ->).
  destruct (load_le_four_bytes b0 b1 b2 b3) as (-> & -> & ->). done.
Qed.

Lemma bgra_pixels_length (memory : Z -> Z) (row : Z) (width : nat) :
  length (bgra_pixels memory row width) = (3 * width)%nat.
Proof.
  revert row. induction width as [|width IH]; intros row; simpl; [done|].
  rewrite IH. lia.
Qed.

Lemma rgba_pixels_length (memory : Z -> Z) (row : Z) (width : nat) :
  length (rgba_pixels memory row width) = (3 * width)%nat.
Proof.
  revert row. induction width as [|width IH]; intros row; simpl; [done|].
  rewrite IH. lia.
Qed.

Lemma bgra_pixels_lookup (memory : Z -> Z) (row : Z) (width x c : nat) :
  (x < width)%nat -> (c < 3)%nat ->
  bgra_pixels memory row width !! (3 * x + c)%nat =
  Some (to_uint8 (memory (row + 4 * Z.of_nat x + (2 - Z.of_nat c)))).
Proof.
  revert row x. induction width as [|width IH]; intros row x Hx Hc; [lia|].
  cbn [bgra_pixels].
  destruct x as [|x].
  - destruct (swapped_bytes (memory (row + Z.of_nat 0)) (memory (row + Z.of_nat 1))
                (memory (row + Z.of_nat 2)) (memory (row + Z.of_nat 3)))
      as (H0 & H1 & H2).
    unfold read_unsigned_int. cbn [seq fmap list_fmap] in *.
    destruct c as [|[|[|c]]]; [| | |lia]; cbn [Nat.mul Nat.add lookup list_lookup app];
      rewrite ?H0, ?H1, ?H2; do 3 f_equal; lia.
  - rewrite lookup_app_r by (rewrite length_fmap, length_seq; lia).
    rewrite length_fmap, length_seq.
    replace (3 * S x + c - 3)%nat with (3 * x + c)%nat by lia.
    rewrite IH by lia. do 3 f_equal. lia.
Qed.

Lemma rgba_pixels_lookup (memory : Z -> Z) (row : Z) (width x c : nat) :
  (x < width)%nat -> (c < 3)%nat ->
  rgba_pixels memory row width !! (3 * x + c)%nat =
  Some (to_uint8 (memory (row + 4 * Z.of_nat x + Z.of_nat c))).
Proof.
  revert row x. induction width as [|width IH]; intros row x Hx Hc; [lia|].
  cbn [rgba_pixels].
  destruct x as [|x].
  - destruct c as [|[|[|c]]]; [| | |lia]; cbn; do 3 f_equal; lia.
  - rewrite lookup_app_r by (rewrite length_fmap, length_seq; lia).
    rewrite length_fmap, length_seq.
    replace (3 * S x + c - 3)%nat with (3 * x + c)%nat by lia.
    rewrite IH by lia. do 3 f_equal. lia.
Qed.

Section Pixels.

Context `{Vulkan}.

Lemma ppm_rows_recognized (format_ : Z) (memory : Z -> Z) (ptr rowPitch width : Z)
    (height : nat) :
  recognized format_ = true ->
  length (ppm_rows format_ memory ptr rowPitch width height).1
    = (3 * Z.to_nat width * height)%nat /\
  (ppm_rows format_ memory ptr rowPitch width height).2 = false /\
  forall x y c : nat,
    (x < Z.to_nat width)%nat -> (y < height)%nat -> (c < 3)%nat ->
    (ppm_rows format_ memory ptr rowPitch width height).1
      !! (3 * (y * Z.to_nat width + x) + c)%nat =
    Some (to_uint8 (memory (ptr + Z.of_nat y * rowPitch + 4 * Z.of_nat x
                            + component_offset format_ c))).
Proof.
  unfold recognized, component_offset. intros Hfmt.
  revert ptr. induction height as [|height IH]; intros ptr.
  - split_and!; [simpl; lia|done|intros; lia].
  - cbn [ppm_rows].
    destruct (IH (ptr + rowPitch)) as (Hlen & Hflag & Hpix). clear IH.
    destruct (ppm_rows format_ memory (ptr + rowPitch) rowPitch width height)
      as [rest flag]. cbn [fst snd] in *. subst flag.
    destruct (format_ =? VK_FORMAT_B8G8R8A8_UNORM) eqn:Hb;
      [|destruct (format_ =? VK_FORMAT_R8G8B8A8_UNORM) eqn:Hr; [|done]];
      cbn [fst snd]; (split_and!; [rewrite length_app, ?bgra_pixels_length,
        ?rgba_pixels_length; lia|done|]); intros x y c Hx Hy Hc.
    + destruct y as [|y].
      * replace (3 * (0 * Z.to_nat width + x) + c)%nat with (3 * x + c)%nat by lia.
        rewrite lookup_app_l by (rewrite bgra_pixels_length; lia).
        rewrite bgra_pixels_lookup by done.
        do 3 f_equal. lia.
      * rewrite lookup_app_r by (rewrite bgra_pixels_length; lia).
        rewrite bgra_pixels_length.
        replace (3 * (S y * Z.to_nat width + x) + c - 3 * Z.to_nat width)%nat
          with (3 * (y * Z.to_nat width + x) + c)%nat by lia.
        rewrite Hpix by lia. do 3 f_equal. lia.
    + destruct y as [|y].
      * replace (3 * (0 * Z.to_nat width + x) + c)%nat with (3 * x + c)%nat by lia.
        rewrite lookup_app_l by (rewrite rgba_pixels_length; lia).
        rewrite rgba_pixels_lookup by done.
        do 3 f_equal. lia.
      * rewrite lookup_app_r by (rewrite rgba_pixels_length; lia).
        rewrite rgba_pixels_length.
        replace (3 * (S y * Z.to_nat width + x) + c - 3 * Z.to_nat width)%nat
          with (3 * (y * Z.to_nat width + x) + c)%nat by lia.
        rewrite Hpix by lia. do 3 f_equal. lia.
Qed.



End Pixels.


(** ** The screenshot layer: [writePPM] *)

Section WritePPM.

Context `{Headers} `{Vulkan}.

Ltac vk_cbn :=
  cbn [vk_always mbind vk_mbind vk_bind mret vk_ret ask get_state put_state modify_state
       deref determinate fst snd].

Ltac vk_stop := split_and!; [done|repeat constructor|done|done|done].

(** One step of a program: a pointer that may be null, an assertion, an
    answer of the other side. *)
Ltac vk_step :=
  lazymatch goal with
  | |- vk_always (through _ _ ≫= _) _ _ =>
      apply vk_always_through_bind; [intros ?; first [congruence|vk_stop]|intros ?; vk_cbn]
  | |- vk_always (vk_assert _ _ ≫= _) _ _ =>
      apply vk_always_assert_bind; [intros ? ?; vk_stop|intros ?; vk_cbn]
  | |- forall _ : _ * _ * _, _ => intros [[? ?] ?]; vk_cbn
  | |- forall _ : _ * _, _ => intros [? ?]; vk_cbn
  | |- forall _, _ => intro; vk_cbn
  end.

Lemma writePPM_always (filename : string) (image1 : Z) (st : layer) :
  vk_always (writePPM filename image1) st (writePPM_post filename image1 st).
Proof.
  unfold writePPM. vk_cbn.
  destruct (imageMap st !! image1) as [[im|]|] eqn:Him; vk_cbn; [|by repeat split..].
  destruct (deviceMap st !! im_device im) as [[dm|]|] eqn:Hdm; vk_cbn; [|by repeat split..].
  destruct (dm_physicalDevice dm) as [physicalDevice|] eqn:Hpd; vk_cbn; [|by repeat split].
  destruct (physDeviceMap st !! physicalDevice) as [[pd|]|] eqn:Hpdm; vk_cbn;
    [|by repeat split..].
  destruct (dm_queue dm) as [queue|] eqn:Hq; vk_cbn; [|by repeat split].
  destruct (dm_commandPool dm) as [commandPool|] eqn:Hcp; vk_cbn; [|by repeat split].
  intros pTableDevice pTableQueue.
  rewrite (bool_decide_eq_false_2 (imageMap st = ∅)) by (intros Hempty; by rewrite Hempty in Him).
  rewrite (bool_decide_eq_false_2 (Some (Some im) = None)) by done.
  cbn [orb].
  do 60 (try vk_step).
  match goal with
  | |- context [ppm_rows ?f ?m ?p ?r ?w ?h] =>
      destruct (ppm_rows f m p r w h) as [pixels unrecognized] eqn:Hrows
  end.
  destruct unrecognized; vk_cbn; do 8 (try vk_step);
    rewrite Hdm; vk_cbn; rewrite Hcp; vk_cbn;
    (apply vk_always_through; [congruence|]); intros _ [].
  all: split; [done|].
  all: split; [repeat constructor|].
  all: do 2 (split; [done|]).
  all: cbv beta iota; exists im; do 10 eexists.
  all: split; [done|].
  all: split; [repeat first [apply list_elem_of_here|apply list_elem_of_further]|].
  all: split; [repeat first [apply list_elem_of_here|apply list_elem_of_further]|].
  all: split;
    [intros Hbuild;
     match goal with
     | Hok : NDEBUG = true \/ negb (truthy ?e) = true |- ?e = 0 =>
         destruct Hok as [Hok|Hok]; [congruence|];
         unfold truthy in Hok; rewrite negb_involutive in Hok; by apply Z.eqb_eq
     end|].
  all: unfold ppm_content; by rewrite Hrows.
Qed.

(** X20.  [writePPM] leaves the book-keeping as it is and does not touch the
    mutex.  If it returns, it has written exactly one file, under the name
    it was given: the header for the size recorded for the image and the
    rows read from the memory that [MapMemory] handed out, from the offset
    and with the row pitch that [GetImageSubresourceLayout] reported; in a
    build with assertions that mapping had succeeded.  The test for an image
    that is not in the map never makes it return early, as the image has
    been looked up before.  If it does not return, because of an assertion
    or of a pointer that cannot be followed, no file has been written. *)
Theorem writePPM_writes_one_file (P : platform) (filename : string) (image1 : Z)
    (st : layer) (w : vk_world P) :
  let x := vk_run P (writePPM filename image1) st w in
  vk_state x = st /\
  Forall (fun ev => mutex_op ev = None) (vk_calls x) /\
  match vk_result x with
  | Finished _ =>
      exists im t device mem err ptr memory t' image2 offset rowPitch,
        imageMap st !! image1 = Some (Some im) /\
        VkLogged (MapMemory t device mem) (err, ptr, memory) ∈ vk_calls x /\
        VkLogged (GetImageSubresourceLayout t' device image2) (offset, rowPitch)
          ∈ vk_calls x /\
        (NDEBUG = false -> err = 0) /\
        files_written (vk_calls x) =
          [(filename, ppm_content im memory (ptr + offset) rowPitch)]
  | _ => files_written (vk_calls x) = []
  end.
Proof.
  cbv zeta.
  pose proof (vk_always_run P _ st w _ (writePPM_always filename image1 st)) as Hpost.
  destruct Hpost as (Hst & Hmutex & _ & _ & Hfiles). by split_and!.
Qed.

End WritePPM.


(** ** The screenshot layer: the entry points *)

Section EntryPoints.

Context `{Headers} `{Vulkan}.

Ltac vk_cbn :=
  cbn [vk_always mbind vk_mbind vk_bind mret vk_ret ask get_state put_state modify_state
       deref determinate fst snd].

Ltac vk_quiet :=
  unfold quiet_post;
  cbn [files_written env_answers present_results omap list_omap file_written env_answer
       present_result mutex_run mutex_op screenshotFrames screenshotEnvQueried frameNumber
       swapchainMap imageMap deviceMap physDeviceMap deviceExtMap globalLockInitialized
       set_swapchainMap set_imageMap set_deviceMap set_physDeviceMap set_deviceExtMap
       set_globalLockInitialized creates_device enumerates finished];
  split_and!; try done; try (by eexists); try congruence;
  try (intros; split_and!; (done || congruence)).

Ltac vk_step :=
  lazymatch goal with
  | |- vk_always (through _ _ ≫= _) _ _ =>
      apply vk_always_through_bind; [intros ?|intros ?; vk_cbn]
  | |- vk_always (through _ _) _ _ =>
      apply vk_always_through; [intros ?|intros ?; vk_cbn]
  | |- vk_always (vk_assert _ _ ≫= _) _ _ =>
      apply vk_always_assert_bind; [intros ? ?|intros ?; vk_cbn]
  | |- vk_always ((_ ≫= _) ≫= _) _ _ => apply vk_always_assoc; vk_cbn
  | |- vk_always ((if ?c then _ else _) ≫= _) _ _ => destruct c eqn:?; vk_cbn
  | |- vk_always (if ?c then _ else _) _ _ => destruct c eqn:?; vk_cbn
  | |- vk_always (match ?x with Some _ => _ | None => _ end ≫= _) _ _ =>
      destruct x eqn:?; vk_cbn
  | |- vk_always (match ?x with Some _ => _ | None => _ end) _ _ =>
      destruct x eqn:?; vk_cbn
  | |- forall _ : _ * _ * _, _ => intros [[? ?] ?]; vk_cbn
  | |- forall _ : _ * _, _ => intros [? ?]; vk_cbn
  | |- forall _, _ => intro; vk_cbn
  end.

Lemma vkGetDeviceQueue_always (device queueNodeIndex queueIndex : Z) (st : layer) :
  vk_always (vkGetDeviceQueue device queueNodeIndex queueIndex) st
    (fun r st' log =>
       quiet_post (call_vkGetDeviceQueue device queueNodeIndex queueIndex) st (finished r)
         st' log).
Proof.
  unfold vkGetDeviceQueue. vk_cbn. repeat vk_step; vk_quiet.
Qed.

Lemma vkCreateCommandPool_always (device : Z) (st : layer) :
  vk_always (vkCreateCommandPool device) st
    (fun r st' log => quiet_post (call_vkCreateCommandPool device) st (finished r) st' log).
Proof.
  unfold vkCreateCommandPool. vk_cbn. repeat vk_step; vk_quiet.
Qed.

Lemma vkCreateSwapchainKHR_always (device : Z) (imageExtent : VkExtent2D)
    (imageFormat pSwapchain : Z) (st : layer) :
  vk_always (vkCreateSwapchainKHR device imageExtent imageFormat pSwapchain) st
    (fun r st' log =>
       quiet_post (call_vkCreateSwapchainKHR device imageExtent imageFormat pSwapchain) st
         (finished r) st' log).
Proof.
  unfold vkCreateSwapchainKHR. vk_cbn. repeat vk_step; vk_quiet.
Qed.

Lemma map_physical_devices_always (instance_ : Z) (pPhysicalDevices : list Z) (i : Z)
    (count : nat) (st : layer) :
  vk_always (map_physical_devices instance_ pPhysicalDevices i count) st
    (fun r st' log => log = [] /\ only_physDeviceMap st st').
Proof.
  revert i st. induction count as [|count IH]; intros i st; cbn [map_physical_devices].
  - split; [done|]. by destruct st.
  - vk_cbn. destruct (pPhysicalDevices !! Z.to_nat i) as [physicalDevice|]; vk_cbn.
    + eapply vk_always_mono; [apply IH|]. intros r st' log [-> Honly]. split; [done|].
      unfold only_physDeviceMap in *. rewrite Honly. reflexivity.
    + split; [done|]. by destruct st.
Qed.

Lemma vkEnumeratePhysicalDevices_always (instance_ : Z) (array_given : bool) (st : layer) :
  vk_always (vkEnumeratePhysicalDevices instance_ array_given) st
    (fun r st' log =>
       quiet_post (call_vkEnumeratePhysicalDevices instance_ array_given) st (finished r)
         st' log).
Proof.
  unfold vkEnumeratePhysicalDevices. vk_cbn. intros pTable.
  apply vk_always_through_bind; [intros ?; vk_quiet|]. intros Hp [[result count] devices].
  vk_cbn. destruct (_ && _).
  - apply vk_always_bind. eapply vk_always_mono; [apply map_physical_devices_always|].
    intros r st' log [-> Honly]. unfold only_physDeviceMap in Honly.
    destruct r; cbn [vk_then vk_always]; rewrite Honly; vk_quiet.
  - vk_cbn. vk_quiet.
Qed.

Ltac vk_silent :=
  unfold silent;
  cbn [files_written env_answers present_results omap list_omap file_written env_answer
       present_result mutex_op];
  split_and!; try done; repeat constructor.

Lemma register_extensions_always (pDisp : Z) (names : list string) (i : Z) (count : nat)
    (st : layer) :
  0 <= i ->
  vk_always (register_extensions pDisp names i count) st
    (fun r st' log =>
       log = [] /\ only_deviceExtMap st st' /\
       (finished r = true ->
        deviceExtMap st' =
        if bool_decide (VK_EXT_KHR_DEVICE_SWAPCHAIN_EXTENSION_NAME
                          ∈ take count (drop (Z.to_nat i) names))
        then <[pDisp := true]> (deviceExtMap st) else deviceExtMap st)).
Proof.
  revert i st. induction count as [|count IH]; intros i st Hi; cbn [register_extensions].
  - split_and!; [done|by destruct st|]. intros _.
    rewrite bool_decide_eq_false_2; [done|]. rewrite take_0. apply not_elem_of_nil.
  - vk_cbn. destruct (names !! Z.to_nat i) as [name|] eqn:Hname; vk_cbn;
      [|split_and!; [done|by destruct st|done]].
    assert (Hnext : take (S count) (drop (Z.to_nat i) names) =
                    name :: take count (drop (Z.to_nat (i + 1)) names)).
    { rewrite (drop_S _ _ _ Hname). cbn [take]. do 3 f_equal. lia. }
    rewrite Hnext. clear Hnext.
    case_bool_decide as Hext; vk_cbn.
    + eapply vk_always_mono; [apply IH; lia|]. intros r st' log (-> & Honly & Hmap).
      split_and!; [done|unfold only_deviceExtMap in *; by rewrite Honly|].
      intros Hfin. rewrite (Hmap Hfin). cbn [deviceExtMap set_deviceExtMap].
      rewrite (bool_decide_eq_true_2 (_ ∈ _ :: _)) by (subst; apply list_elem_of_here).
      case_bool_decide; [by rewrite insert_insert_eq|done].
    + eapply vk_always_mono; [apply IH; lia|]. intros r st' log (-> & Honly & Hmap).
      split_and!; [done|done|]. intros Hfin. rewrite (Hmap Hfin).
      case_bool_decide as Hin; case_bool_decide as Hin'; try done.
      * exfalso. apply Hin'. by apply list_elem_of_further.
      * exfalso. apply elem_of_cons in Hin' as [Heq|Hin']; [by subst name|done].
Qed.

Lemma createDeviceRegisterExtensions_always (names : list string) (count device : Z)
    (st : layer) :
  vk_always (createDeviceRegisterExtensions names count device) st
    (fun r st' log =>
       silent log /\ only_deviceExtMap st st' /\
       (finished r = true ->
        exists pDisp,
          dispatch_tables device log = [pDisp] /\
          deviceExtMap st' =
          <[pDisp := swapchain_extension_enabled names count]> (deviceExtMap st))).
Proof.
  unfold createDeviceRegisterExtensions, resolve. vk_cbn.
  do 60 (try vk_step);
    try (split_and!; [vk_silent|by destruct st|done]).
  eapply vk_always_mono; [by apply register_extensions_always|].
  intros r st' log (-> & Honly & Hmap).
  assert (Hst : only_deviceExtMap st st').
  { unfold only_deviceExtMap in *. by rewrite Honly. }
  split_and!; [vk_silent|done|].
  intros Hfin. eexists. split.
  { cbn [dispatch_tables omap list_omap dispatch_table_of].
    by rewrite bool_decide_eq_true_2. }
  rewrite (Hmap Hfin). cbn [deviceExtMap set_deviceExtMap].
  unfold swapchain_extension_enabled. change (Z.to_nat 0) with 0%nat. rewrite drop_0.
  destruct (bool_decide _); [by rewrite insert_insert_eq|done].
Qed.

Lemma silent_quiet (c : entry_call) (st st' : layer) (returned : bool)
    (log : list vk_logged) :
  silent log ->
  screenshotFrames st' = screenshotFrames st ->
  screenshotEnvQueried st' = screenshotEnvQueried st ->
  frameNumber st' = frameNumber st ->
  (all_done st = true ->
   swapchainMap st' = swapchainMap st /\
   imageMap st' = imageMap st /\
   (creates_device c = false -> deviceMap st' = deviceMap st) /\
   (enumerates c = false -> physDeviceMap st' = physDeviceMap st)) ->
  quiet_post c st returned st' log.
Proof.
  intros (Hf & He & Hp & Hm) Hframes Hq Hn Hmaps. unfold quiet_post.
  rewrite (mutex_run_neutral false log Hm). split_and!; try done; by eexists.
Qed.

Lemma vkCreateDevice_always (gpu : Z) (names : list string) (count device_before : Z)
    (st : layer) :
  vk_always (vkCreateDevice gpu names count device_before) st
    (fun r st' log =>
       quiet_post (call_vkCreateDevice gpu names count device_before) st (finished r)
         st' log /\
       forall result device,
         r = Finished (result, device) ->
         device_created gpu names count st result device st' log).
Proof.
  unfold vkCreateDevice. vk_cbn. intros pDisp.
  apply vk_always_through_bind; [intros _; split; [vk_quiet|done]|].
  intros Hp [result device]. vk_cbn.
  destruct (result =? VK_SUCCESS) eqn:Hres; vk_cbn.
  2:{ split; [vk_quiet|]. intros ? ? [= <- <-]. unfold device_created. by rewrite Hres. }
  apply vk_always_assoc. unfold init_screenshot. vk_cbn.
  assert (Hrest : forall st1 before,
    st1 = st \/ st1 = set_globalLockInitialized 1 st ->
    globalLockInitialized st1 <> 0 ->
    silent before ->
    vk_always
      ((createDeviceRegisterExtensions names count device
        ≫= fun _ : () =>
             GetState (fun st0 : layer =>
               PutState
                 (set_deviceMap
                    (<[device := Some (assign_physicalDevice gpu
                                         (existing_or fresh_device
                                            (deviceMap st0 !! device)))]>
                       (deviceMap st0)) st0) (Done ())))
       ≫= fun _ : () => mret (result, device)) st1
      (fun r st' log =>
         quiet_post (call_vkCreateDevice gpu names count device_before) st (finished r)
           st' (before ++ log) /\
         forall result' device',
           r = Finished (result', device') ->
           device_created gpu names count st result' device' st' (before ++ log))).
  { intros st1 before Hst1 Hlock Hbefore.
    apply vk_always_assoc, vk_always_bind.
    eapply vk_always_mono; [apply createDeviceRegisterExtensions_always|].
    intros r st2 log (Hsilent & Honly & Hmap).
    assert (Hst2 : screenshotFrames st2 = screenshotFrames st /\
                   screenshotEnvQueried st2 = screenshotEnvQueried st /\
                   frameNumber st2 = frameNumber st /\
                   swapchainMap st2 = swapchainMap st /\
                   imageMap st2 = imageMap st /\
                   deviceMap st2 = deviceMap st /\
                   physDeviceMap st2 = physDeviceMap st /\
                   globalLockInitialized st2 = globalLockInitialized st1 /\
                   deviceExtMap st1 = deviceExtMap st).
    { unfold only_deviceExtMap in Honly. rewrite Honly.
      destruct Hst1 as [->| ->]; by split_and!. }
    destruct Hst2 as (Hf & Hq & Hn & Hsc & Him & Hdm & Hpd & Hgl & Hext).
    destruct r as [[]| |msg]; cbn [vk_then]; vk_cbn.
    - rewrite app_nil_r. split.
      + apply silent_quiet; [by apply silent_app|done..|].
        intros _. by split_and!.
      + intros ? ? [= <- <-]. unfold device_created. rewrite Hres.
        destruct (Hmap eq_refl) as (pDisp' & Htables & Hmap').
        cbn [deviceExtMap deviceMap globalLockInitialized set_deviceMap].
        split_and!.
        * exists pDisp'. split; [|by rewrite Hmap', Hext].
          unfold dispatch_tables in *. rewrite omap_app, Htables.
          apply elem_of_app. right. apply list_elem_of_here.
        * by rewrite Hdm.
        * by rewrite Hgl.
    - split; [|done].
      apply silent_quiet; [by apply silent_app|done..|].
      intros _. by split_and!.
    - split; [|done].
      apply silent_quiet; [by apply silent_app|done..|].
      intros _. by split_and!. }
  destruct (negb (truthy (globalLockInitialized st))) eqn:Hinit; vk_cbn.
  - intros [].
    eapply vk_always_mono;
      [apply (Hrest (set_globalLockInitialized 1 st)
                [VkLogged (get_dispatch_table device_before) pDisp;
                 VkLogged (CreateDevice pDisp gpu names) (result, device);
                 VkLogged loader_platform_thread_create_mutex ()]);
       [by right|done|vk_silent]|].
    intros r st' log Hpost. exact Hpost.
  - eapply vk_always_mono;
      [apply (Hrest st
                [VkLogged (get_dispatch_table device_before) pDisp;
                 VkLogged (CreateDevice pDisp gpu names) (result, device)]);
       [by left| |vk_silent]|].
    + unfold truthy in Hinit. rewrite negb_involutive in Hinit.
      by apply Z.eqb_neq in Hinit.
    + intros r st' log Hpost. exact Hpost.
Qed.

Lemma vkGetDeviceProcAddr_always (dev : Z) (funcName : string) (st : layer) :
  vk_always (vkGetDeviceProcAddr dev funcName) st
    (fun r st' log =>
       quiet_post (call_vkGetDeviceProcAddr dev funcName) st (finished r) st' log /\
       device_proc_addr_post dev funcName st r st' log).
Proof.
  unfold vkGetDeviceProcAddr, device_proc_addr_post, intercepted_always, intercepted_wsi.
  destruct (dev =? 0) eqn:Hdev.
  { apply Z.eqb_eq in Hdev as ->. vk_cbn.
    split; [vk_quiet|]. split_and!; try done. by destruct st. }
  apply Z.eqb_neq in Hdev.
  assert (Hown : forall (st' : layer) (log : list vk_logged) (name : string),
    name = funcName ->
    only_deviceExtMap st st' ->
    (name ∈ intercepted_always \/ name ∈ intercepted_wsi /\ wsi_recorded st dev log) ->
    device_proc_addr_post dev funcName st (Finished (own_function name)) st' log).
  { intros st' log name -> Honly Hwhy. unfold device_proc_addr_post.
    split_and!; try done. by intros name [= <-]. }
  assert (Hother : forall (r : vk_outcome PFN_vkVoidFunction) (st' : layer)
                          (log : list vk_logged),
    (forall name, r <> Finished (own_function name)) ->
    only_deviceExtMap st st' ->
    funcName ∉ intercepted_always ->
    (funcName ∈ intercepted_wsi -> ~ wsi_recorded st dev log) ->
    device_proc_addr_post dev funcName st r st' log).
  { intros r st' log Hr Honly Hnot Hwsi. unfold device_proc_addr_post.
    split_and!; try done.
    - intros name Hname. by destruct (Hr name).
    - intros _ Hin Hrec. by destruct (Hwsi Hin). }
  fold intercepted_always intercepted_wsi. fold (device_proc_addr_post dev funcName st).
  destruct (bool_decide (funcName = "vkGetDeviceProcAddr")) eqn:Hn1.
  { apply bool_decide_eq_true in Hn1. subst funcName. vk_cbn. intros [].
    split; [vk_quiet|]. apply Hown; [done|by destruct st|].
    left. apply list_elem_of_here. }
  destruct (bool_decide (funcName = "vkCreateDevice")) eqn:Hn2.
  { apply bool_decide_eq_true in Hn2. subst funcName. vk_cbn.
    split; [vk_quiet|]. apply Hown; [done|by destruct st|].
    left. do 1 apply list_elem_of_further. apply list_elem_of_here. }
  destruct (bool_decide (funcName = "vkGetDeviceQueue")) eqn:Hn3.
  { apply bool_decide_eq_true in Hn3. subst funcName. vk_cbn.
    split; [vk_quiet|]. apply Hown; [done|by destruct st|].
    left. do 2 apply list_elem_of_further. apply list_elem_of_here. }
  destruct (bool_decide (funcName = "vkCreateCommandPool")) eqn:Hn4.
  { apply bool_decide_eq_true in Hn4. subst funcName. vk_cbn.
    split; [vk_quiet|]. apply Hown; [done|by destruct st|].
    left. do 3 apply list_elem_of_further. apply list_elem_of_here. }
  apply bool_decide_eq_false in Hn1, Hn2, Hn3, Hn4.
  assert (Hnot : funcName ∉ intercepted_always).
  { unfold intercepted_always. rewrite !not_elem_of_cons. split_and!; try done.
    apply not_elem_of_nil. }
  vk_cbn. intros pDisp. unfold wsi_enabled. vk_cbn.
  assert (Henabled : forall rest,
    dispatch_tables dev rest = [] ->
    wsi_recorded st dev (VkLogged (get_dispatch_table dev) pDisp :: rest) <->
    deviceExtMap st !! pDisp = Some true).
  { intros rest Hrest. unfold wsi_recorded.
    cbn [dispatch_tables omap list_omap dispatch_table_of].
    rewrite bool_decide_eq_true_2 by done. fold (dispatch_tables dev rest).
    rewrite Hrest. split.
    - by intros (p & ->%list_elem_of_singleton & Hp).
    - intros Hp. exists pDisp. by rewrite list_elem_of_singleton. }
  assert (Hpass : forall (st' : layer) (enabled : bool),
    only_deviceExtMap st st' ->
    (enabled = true <-> deviceExtMap st !! pDisp = Some true) ->
    vk_always
      (if enabled && bool_decide (funcName = "vkCreateSwapchainKHR")
       then mret (own_function "vkCreateSwapchainKHR")
       else
        if enabled && bool_decide (funcName = "vkGetSwapchainImagesKHR")
        then mret (own_function "vkGetSwapchainImagesKHR")
        else
         if enabled && bool_decide (funcName = "vkQueuePresentKHR")
         then mret (own_function "vkQueuePresentKHR")
         else
          through pDisp (table_member pDisp "GetDeviceProcAddr")
          ≫= fun gpa : Z =>
               if gpa =? 0
               then mret (pointer_value 0)
               else
                Ask (GetDeviceProcAddr gpa dev funcName)
                  (fun p : Z => mret (pointer_value p)))
      st'
      (fun r st'' log =>
         quiet_post (call_vkGetDeviceProcAddr dev funcName) st (finished r) st''
           (VkLogged (get_dispatch_table dev) pDisp :: log) /\
         device_proc_addr_post dev funcName st r st''
           (VkLogged (get_dispatch_table dev) pDisp :: log))).
  { intros st' enabled Honly Hen.
    assert (Hst' : screenshotFrames st' = screenshotFrames st /\
                   screenshotEnvQueried st' = screenshotEnvQueried st /\
                   frameNumber st' = frameNumber st /\
                   swapchainMap st' = swapchainMap st /\
                   imageMap st' = imageMap st /\
                   deviceMap st' = deviceMap st /\
                   physDeviceMap st' = physDeviceMap st).
    { unfold only_deviceExtMap in Honly. rewrite Honly. by split_and!. }
    destruct Hst' as (Hf & Hq & Hnum & Hsc & Him & Hdm & Hpd).
    assert (Hquiet : forall returned log,
      silent log ->
      quiet_post (call_vkGetDeviceProcAddr dev funcName) st returned st' log).
    { intros returned log Hsilent. by apply silent_quiet. }
    destruct enabled.
    - apply proj1 in Hen. specialize (Hen eq_refl). cbn [andb].
      destruct (bool_decide (funcName = "vkCreateSwapchainKHR")) eqn:Hw1.
      { apply bool_decide_eq_true in Hw1. subst funcName. vk_cbn.
        split; [apply Hquiet; vk_silent|]. apply Hown; [done|done|].
        right. split; [|by apply (Henabled [])].
        apply list_elem_of_here. }
      destruct (bool_decide (funcName = "vkGetSwapchainImagesKHR")) eqn:Hw2.
      { apply bool_decide_eq_true in Hw2. subst funcName. vk_cbn.
        split; [apply Hquiet; vk_silent|]. apply Hown; [done|done|].
        right. split; [|by apply (Henabled [])].
        apply list_elem_of_further, list_elem_of_here. }
      destruct (bool_decide (funcName = "vkQueuePresentKHR")) eqn:Hw3.
      { apply bool_decide_eq_true in Hw3. subst funcName. vk_cbn.
        split; [apply Hquiet; vk_silent|]. apply Hown; [done|done|].
        right. split; [|by apply (Henabled [])].
        do 2 apply list_elem_of_further. apply list_elem_of_here. }
      apply bool_decide_eq_false in Hw1, Hw2, Hw3.
      assert (Hnot' : funcName ∉ intercepted_wsi).
      { unfold intercepted_wsi. rewrite !not_elem_of_cons. split_and!; try done.
        apply not_elem_of_nil. }
      repeat vk_step; (split; [apply Hquiet; vk_silent|]); by apply Hother.
    - assert (Hp : deviceExtMap st !! pDisp <> Some true).
      { intros Hp. apply Hen in Hp. done. }
      cbn [andb].
      repeat vk_step; (split; [apply Hquiet; vk_silent|]); (apply Hother; [done..|]);
        intros _ Hrec; by apply Henabled in Hrec. }
  destruct (negb (bool_decide (deviceExtMap st = ∅))) eqn:Hempty; vk_cbn.
  - apply Hpass; [done|].
    destruct (deviceExtMap st !! pDisp) as [[]|]; simpl; split; congruence.
  - apply Hpass; [by destruct st|].
    apply negb_false_iff, bool_decide_eq_true in Hempty. rewrite Hempty.
    rewrite lookup_empty. split; congruence.
Qed.

Lemma vkGetInstanceProcAddr_always (instance_ : Z) (funcName : string) (st : layer) :
  vk_always (vkGetInstanceProcAddr instance_ funcName) st
    (fun r st' log =>
       quiet_post (call_vkGetInstanceProcAddr instance_ funcName) st (finished r) st' log /\
       st' = st).
Proof.
  unfold vkGetInstanceProcAddr. repeat vk_step; (split; [vk_quiet|done]).
Qed.

Lemma map_images_always (swapchain : Z) (images : list Z) (i : Z) (count : nat)
    (st : layer) :
  0 <= i ->
  vk_always (map_images swapchain images i count) st
    (fun r st' log =>
       log = [] /\ only_imageMap st st' /\
       (finished r = true ->
        ((0 < count)%nat -> (Z.to_nat i + count <= length images)%nat) /\
        forall sc,
          swapchainMap st !! swapchain = Some (Some sc) ->
          imageMap st' =
          register_images sc (take count (drop (Z.to_nat i) images)) (imageMap st))).
Proof.
  revert i st. induction count as [|count IH]; intros i st Hi; cbn [map_images].
  - split_and!; [done|by destruct st|]. intros _. split; [lia|].
    intros sc _. by rewrite take_0.
  - vk_cbn. destruct (images !! Z.to_nat i) as [image|] eqn:Himage; vk_cbn;
      [|split_and!; [done|by destruct st|done]].
    destruct (swapchainMap st !! swapchain) as [[sc|]|] eqn:Hsc; vk_cbn;
      [|split_and!; [done|by destruct st|done]..].
    eapply vk_always_mono; [apply IH; lia|]. intros r st' log (-> & Honly & Hmap).
    split_and!; [done|unfold only_imageMap in *; by rewrite Honly|].
    intros Hfin. destruct (Hmap Hfin) as [Hlen Hreg]. split.
    { intros _. apply lookup_lt_Some in Himage. destruct count; lia. }
    intros sc' [= <-]. rewrite (Hreg sc Hsc).
    rewrite (drop_S _ _ _ Himage). cbn [take register_images foldl imageMap set_imageMap].
    unfold register_images. do 3 f_equal. lia.
Qed.

Lemma vkGetSwapchainImagesKHR_always (device swapchain : Z) (array_given : bool)
    (st : layer) :
  vk_always (vkGetSwapchainImagesKHR device swapchain array_given) st
    (fun r st' log =>
       quiet_post (call_vkGetSwapchainImagesKHR device swapchain array_given) st
         (finished r) st' log /\
       forall result,
         r = Finished result ->
         exists count images,
           omap swapchain_images_answer log = [(result, count, images)] /\
           images_fetched swapchain array_given st result count images st').
Proof.
  unfold vkGetSwapchainImagesKHR. vk_cbn. intros t.
  apply vk_always_through_bind; [intros _; split; [vk_quiet|done]|].
  intros Ht [[result count] images]. vk_cbn. intros [].
  destruct (all_done st) eqn:Hdone; vk_cbn.
  { intros []. split; [vk_quiet|]. intros ? [= <-]. exists count, images.
    split; [done|]. unfold images_fetched. by rewrite Hdone, !andb_false_r. }
  destruct ((result =? VK_SUCCESS) && array_given) eqn:Hok; cbn [andb]; vk_cbn.
  2:{ intros []. split; [vk_quiet|]. intros ? [= <-]. exists count, images.
      split; [done|]. unfold images_fetched. by rewrite Hok. }
  destruct (bool_decide (swapchainMap st = ∅)) eqn:Hempty; cbn [negb andb]; vk_cbn.
  { apply bool_decide_eq_true in Hempty. intros [].
    split; [vk_quiet|]. intros ? [= <-]. exists count, images. split; [done|].
    unfold images_fetched. rewrite Hempty, lookup_empty.
    rewrite (bool_decide_eq_false_2 (is_Some None)) by (by intros [? ?]).
    by rewrite andb_false_r. }
  destruct (bool_decide (is_Some (swapchainMap st !! swapchain))) eqn:Hfound; vk_cbn.
  2:{ intros []. split; [vk_quiet|]. intros ? [= <-]. exists count, images.
      split; [done|]. unfold images_fetched. by rewrite Hfound, andb_false_r. }
  assert (Hcond : forall st',
    images_fetched swapchain array_given st result count images st' <->
    (Z.to_nat (to_uint32 count) <= length images)%nat /\
    forall sc,
      swapchainMap st !! swapchain = Some (Some sc) ->
      st' = set_swapchainMap
              (if bool_decide (1 <= Z.to_nat (to_uint32 count))%nat
               then <[swapchain := Some (assign_imageList
                                           (take (Z.to_nat (to_uint32 count)) images) sc)]>
                      (swapchainMap st)
               else swapchainMap st)
              (set_imageMap
                 (register_images sc (take (Z.to_nat (to_uint32 count)) images)
                    (imageMap st)) st)).
  { intros st'. unfold images_fetched. by rewrite Hok, Hdone, Hfound. }
  apply vk_always_assoc, vk_always_bind.
  eapply vk_always_mono; [by apply map_images_always|].
  intros r st1 log (-> & Honly & Hmap).
  assert (Hst1 : screenshotFrames st1 = screenshotFrames st /\
                 screenshotEnvQueried st1 = screenshotEnvQueried st /\
                 frameNumber st1 = frameNumber st /\
                 swapchainMap st1 = swapchainMap st).
  { unfold only_imageMap in Honly. rewrite Honly. by split_and!. }
  destruct Hst1 as (Hf & Hq & Hn & Hsc).
  destruct r as [[]| |msg]; cbn [vk_then]; vk_cbn;
    [|split; [vk_quiet|done]..].
  rewrite Hsc.
  destruct (Hmap eq_refl) as [Hlen Hreg].
  change (Z.to_nat 0) with 0%nat in *. rewrite drop_0 in Hreg.
  destruct (swapchainMap st !! swapchain) as [[sc|]|] eqn:Hlook; vk_cbn.
  - destruct (1 <=? Z.of_nat (Z.to_nat (to_uint32 count))) eqn:Hone; vk_cbn; intros [].
    + apply Z.leb_le in Hone. split; [vk_quiet|]. intros ? [= <-].
      exists count, images. split; [done|]. apply Hcond. split; [lia|].
      intros sc' [= <-]. rewrite bool_decide_eq_true_2 by lia.
      unfold only_imageMap in Honly. rewrite Honly, (Hreg sc eq_refl). reflexivity.
    + apply Z.leb_gt in Hone. split; [vk_quiet|]. intros ? [= <-].
      exists count, images. split; [done|]. apply Hcond. split; [lia|].
      intros sc' [= <-]. rewrite bool_decide_eq_false_2 by lia.
      unfold only_imageMap in Honly. rewrite Honly, (Hreg sc eq_refl).
      by destruct st.
  - intros []. split; [vk_quiet|]. intros ? [= <-].
    exists count, images. split; [done|]. apply Hcond. split; [|done].
    destruct (Z.to_nat (to_uint32 count)); lia.
  - apply bool_decide_eq_true in Hfound. by destruct Hfound.
Qed.

Lemma query_environment_always (st : layer) :
  vk_always query_environment st
    (fun r st' log => r = Finished tt /\ environment_queried st st' log).
Proof.
  unfold query_environment, environment_queried. vk_cbn.
  destruct (screenshotEnvQueried st); vk_cbn; [done|].
  intros env. split; [done|]. by exists env.
Qed.

Lemma capture_frame_always (pPresentInfo : VkPresentInfoKHR) (st : layer) :
  vk_always (capture_frame pPresentInfo) st (frame_captured pPresentInfo st).
Proof.
  unfold capture_frame, frame_captured. vk_cbn.
  destruct (list_find (eq (frameNumber st)) (screenshotFrames st)) as [[it x]|] eqn:Hfind;
    vk_cbn; [|by split_and!].
  destruct (swapchains pPresentInfo !! 0%nat) as [swapchain|] eqn:Hsw; vk_cbn;
    [|by split_and!].
  destruct (swapchainMap st !! swapchain) as [[sc|]|] eqn:Hsc; vk_cbn; [|by split_and!..].
  destruct (sc_imageList sc) as [imageList|] eqn:Hlist; vk_cbn; [|by split_and!].
  destruct (imageIndices pPresentInfo !! 0%nat) as [index|] eqn:Hidx; vk_cbn;
    [|by split_and!].
  destruct (imageList !! Z.to_nat (to_uint32 index)) as [image|] eqn:Himage; vk_cbn;
    [|by split_and!].
  apply vk_always_bind. eapply vk_always_mono; [apply writePPM_always|].
  intros r st1 log (-> & Hmutex & Henv & Hres & Hfiles).
  destruct r as [[]| |msg]; cbn [vk_then]; vk_cbn; rewrite ?app_nil_r.
  - destruct Hfiles as (im & t & device & mem & err & ptr & memory & t' & image2 & offset
                        & rowPitch & Him & _ & _ & _ & Hfile).
    split_and!; [done..| |done].
    exists image, im, memory, (ptr + offset), rowPitch.
    split_and!; [|done|done].
    unfold presented_image. rewrite Hsw. simpl. rewrite Hsc. simpl. rewrite Hlist. simpl.
    by rewrite Hidx.
  - by split_and!.
  - by split_and!.
Qed.

Lemma list_find_eq_Some (n : Z) (l : list Z) (it : nat) (x : Z) :
  list_find (eq n) l = Some (it, x) -> x = n /\ n ∈ l.
Proof.
  intros (Hit & <- & _)%list_find_Some. split; [done|]. by eapply list_elem_of_lookup_2.
Qed.

Lemma list_find_eq_None (n : Z) (l : list Z) :
  list_find (eq n) l = None -> n ∉ l.
Proof.
  intros Hnone%list_find_None Hin. rewrite Forall_forall in Hnone. by apply (Hnone n).
Qed.

Lemma present_post_early (pPresentInfo : VkPresentInfoKHR) (st : layer)
    (r : vk_outcome Z) (log : list vk_logged) :
  silent log -> finished r = false -> present_post pPresentInfo st r st log.
Proof.
  intros (Hf & He & Hp & Hm) Hr. unfold present_post.
  rewrite (mutex_run_neutral false log Hm). split_and!; try done.
  intros result ->. done.
Qed.

(** How a present that got past the call to the next layer is put together:
    the call, the mutex, the look at the environment, the capture if there
    is one, the frame counter and the mutex again. *)
Lemma present_post_intro (pPresentInfo : VkPresentInfoKHR) (st st1 st2 st' : layer)
    (before qlog clog tlog : list vk_logged) (queue t result : Z)
    (rc : vk_outcome unit) (r : vk_outcome Z) :
  silent before ->
  environment_queried st st1 qlog ->
  (if (result =? VK_SUCCESS) && negb (bool_decide (screenshotFrames st1 = []))
   then frame_captured pPresentInfo st1 rc st2 clog
   else rc = Finished tt /\ st2 = st1 /\ clog = []) ->
  (if finished rc && negb (frameNumber st2 =? INT_MAX)
   then r = Finished result /\ st' = set_frameNumber (frameNumber st2 + 1) st2 /\
        tlog = [VkLogged loader_platform_thread_unlock_mutex ()]
   else finished r = false /\ st' = st2 /\ tlog = []) ->
  present_post pPresentInfo st r st'
    (before ++
     VkLogged (get_dispatch_table queue) t ::
     VkLogged (QueuePresentKHR t queue pPresentInfo) result ::
     VkLogged loader_platform_thread_lock_mutex () :: qlog ++ clog ++ tlog).
Proof.
  intros (Hbf & Hbe & Hbp & Hbm) Hq Hc Ht.
  (* the look at the environment *)
  assert (Hq' : screenshotEnvQueried st1 = true /\
                frameNumber st1 = frameNumber st /\
                same_maps st st1 /\
                deviceExtMap st1 = deviceExtMap st /\
                globalLockInitialized st1 = globalLockInitialized st /\
                files_written qlog = [] /\ present_results qlog = [] /\
                Forall (fun ev => mutex_op ev = None) qlog /\
                length (env_answers qlog) = (if screenshotEnvQueried st then 0 else 1)%nat /\
                (forall log', env_answers log' = env_answers qlog ->
                              screenshotFrames st1 = present_frames st log') /\
                (all_done st = true -> st1 = st /\ qlog = [])).
  { unfold environment_queried, present_frames, all_done in *.
    destruct (screenshotEnvQueried st) eqn:Hqueried.
    - destruct Hq as [-> ->]. by split_and!.
    - destruct Hq as (env & -> & ->). split_and!; try done.
      + repeat constructor.
      + intros log' ->. done. }
  destruct Hq' as (Hq1 & Hn1 & Hmaps1 & Hext1 & Hlock1 & Hqf & Hqp & Hqm & Hqe & Hframes
                   & Hdone1).
  (* the capture *)
  set (n := frameNumber st) in *.
  assert (Hc' : Forall (fun ev => mutex_op ev = None) clog /\ env_answers clog = [] /\
                present_results clog = [] /\
                deviceExtMap st2 = deviceExtMap st /\
                globalLockInitialized st2 = globalLockInitialized st /\
                frameNumber st2 = n /\ screenshotEnvQueried st2 = true /\
                (finished rc = false -> files_written clog = [] /\ st2 = st1) /\
                (screenshotFrames st1 = [] -> files_written clog = [] /\ st2 = st1) /\
                (finished rc = true ->
                 if bool_decide (result = VK_SUCCESS /\ n ∈ screenshotFrames st1) then
                   (exists image im memory start rowPitch,
                      presented_image st pPresentInfo = Some image /\
                      imageMap st !! image = Some (Some im) /\
                      files_written clog =
                        [(to_string n +:+ ".ppm", ppm_content im memory start rowPitch)]) /\
                   (exists it,
                      list_find (eq n) (screenshotFrames st1) = Some (it, n) /\
                      screenshotFrames st2 = delete it (screenshotFrames st1)) /\
                   (if bool_decide (screenshotFrames st2 = [])
                    then no_maps st2 else same_maps st st2)
                 else files_written clog = [] /\
                      screenshotFrames st2 = screenshotFrames st1 /\ same_maps st st2)).
  { destruct Hmaps1 as (Hsc1 & Him1 & Hdm1 & Hpd1).
    destruct ((result =? VK_SUCCESS) && negb (bool_decide (screenshotFrames st1 = [])))
      eqn:Hcond.
    - apply andb_true_iff in Hcond as [Hres Hne]. apply Z.eqb_eq in Hres.
      apply negb_true_iff, bool_decide_eq_false in Hne.
      unfold frame_captured in Hc. destruct Hc as (Hcm & Hce & Hcp & Hcap).
      rewrite Hn1 in Hcap.
      destruct rc as [[]| |msg].
      + destruct (list_find (eq n) (screenshotFrames st1)) as [[it x]|] eqn:Hfind.
        * destruct (list_find_eq_Some _ _ _ _ Hfind) as [-> Hin].
          destruct Hcap as [(image & im & memory & start & rowPitch & Himg & Him & Hfile)
                              Hst2].
          assert (Hst2' : screenshotFrames st2 = delete it (screenshotFrames st1) /\
                          deviceExtMap st2 = deviceExtMap st1 /\
                          globalLockInitialized st2 = globalLockInitialized st1 /\
                          frameNumber st2 = frameNumber st1 /\
                          screenshotEnvQueried st2 = screenshotEnvQueried st1 /\
                          (if bool_decide (screenshotFrames st2 = [])
                           then no_maps st2 else same_maps st1 st2)).
          { rewrite Hst2. cbv zeta. cbn [screenshotFrames set_screenshotFrames].
            destruct (bool_decide (delete it (screenshotFrames st1) = [])) eqn:Hlast;
              cbn; rewrite Hlast; by split_and!. }
          destruct Hst2' as (Hfr2 & Hext2 & Hlock2 & Hn2 & Hq2 & Hmaps2).
          cbn [finished]. split_and!; try done; try congruence.
          intros _. rewrite bool_decide_eq_true_2 by done. split_and!.
          -- exists image, im, memory, start, rowPitch. split_and!; [|congruence|done].
             rewrite <- Himg. unfold presented_image. by rewrite Hsc1.
          -- by exists it.
          -- destruct (bool_decide (screenshotFrames st2 = [])); [done|].
             destruct Hmaps2 as (? & ? & ? & ?). unfold same_maps. split_and!; congruence.
        * destruct Hcap as [Hfile ->]. apply list_find_eq_None in Hfind.
          split_and!; try done.
          intros _. rewrite bool_decide_eq_false_2 by (by intros [_ ?]).
          by split_and!.
      + destruct Hcap as [Hfile ->]. split_and!; try done.
      + destruct Hcap as [Hfile ->]. split_and!; try done.
    - destruct Hc as (-> & -> & ->). split_and!; try done.
      intros _. rewrite bool_decide_eq_false_2; [by split_and!|].
      intros [-> Hin]. rewrite Z.eqb_refl in Hcond. cbn [andb] in Hcond.
      apply negb_false_iff, bool_decide_eq_true in Hcond. rewrite Hcond in Hin.
      by apply elem_of_nil in Hin. }
  destruct Hc' as (Hcm & Hce & Hcp & Hext2 & Hlock2 & Hn2 & Hq2 & Habort & Hnone & Hcap).
  (* the log *)
  set (log := before ++ _).
  assert (Hlog : present_results log = [result] /\
                 env_answers log = env_answers qlog /\
                 files_written log = files_written clog /\
                 mutex_run false log = mutex_run true tlog).
  { subst log.
    assert (Htl : files_written tlog = [] /\ env_answers tlog = [] /\
                  present_results tlog = []).
    { destruct (finished rc && negb (frameNumber st2 =? INT_MAX));
        [destruct Ht as (_ & _ & ->)|destruct Ht as (_ & _ & ->)]; by split_and!. }
    destruct Htl as (Htf & Hte & Htp).
    rewrite present_results_app, env_answers_app, files_written_app, mutex_run_app.
    rewrite Hbf, Hbe, Hbp, (mutex_run_neutral false before Hbm). simpl.
    fold (present_results (qlog ++ clog ++ tlog)) (env_answers (qlog ++ clog ++ tlog))
         (files_written (qlog ++ clog ++ tlog)).
    rewrite !present_results_app, !env_answers_app, !files_written_app, !mutex_run_app.
    rewrite Hqp, Hcp, Htp, Hce, Hte, Hqf, Htf, !app_nil_r.
    rewrite (mutex_run_neutral true qlog Hqm). simpl.
    rewrite mutex_run_app, (mutex_run_neutral true clog Hcm). simpl.
    by split_and!. }
  destruct Hlog as (Hlp & Hle & Hlf & Hlm). clearbody log.
  assert (Hfr : screenshotFrames st1 = present_frames st log) by (by apply Hframes).
  unfold present_post.
  destruct (finished rc && negb (frameNumber st2 =? INT_MAX)) eqn:Hfin.
  - destruct Ht as (-> & -> & ->). apply andb_true_iff in Hfin as [Hrc Hmax].
    rewrite Hlm. cbn [mutex_run mutex_op].
    split_and!; try done.
    + intros Hdone. destruct (Hdone1 Hdone) as [-> ->].
      unfold all_done in Hdone. apply andb_true_iff in Hdone as [_ Hempty].
      apply bool_decide_eq_true in Hempty. destruct (Hnone Hempty) as [Hcf ->].
      rewrite Hlf, Hle. split_and!; try done.
      unfold all_done. cbn. rewrite Hq1, Hempty. done.
    + intros ? [= <-]. unfold presented. cbv zeta. fold n. rewrite <- Hfr.
      cbn [frameNumber screenshotEnvQueried screenshotFrames set_frameNumber
           swapchainMap imageMap deviceMap physDeviceMap].
      rewrite Hlp, Hle, Hlf. split_and!; try done; try congruence.
      specialize (Hcap Hrc).
      destruct (bool_decide (result = VK_SUCCESS /\ n ∈ screenshotFrames st1)); [|done].
      destruct Hcap as (Hfile & Hit & Hmaps). split_and!; try done.
  - destruct Ht as (Hr & -> & ->).
    rewrite Hlm. cbn [mutex_run].
    split_and!; try done.
    + intros Hdone. destruct (Hdone1 Hdone) as [-> ->].
      unfold all_done in Hdone. apply andb_true_iff in Hdone as [Hqd Hempty].
      apply bool_decide_eq_true in Hempty. destruct (Hnone Hempty) as [Hcf ->].
      rewrite Hlf, Hle. split_and!; try done.
      unfold all_done. by rewrite Hqd, Hempty.
    + intros result' ->. done.
Qed.

Lemma vkQueuePresentKHR_always (queue : Z) (pPresentInfo : VkPresentInfoKHR)
    (st : layer) :
  vk_always (vkQueuePresentKHR queue pPresentInfo) st (present_post pPresentInfo st).
Proof.
  unfold vkQueuePresentKHR. vk_cbn.
  assert (Hrest : forall before (t : Z),
    silent before ->
    vk_always
        ((
            through t (QueuePresentKHR t queue pPresentInfo)
            ≫= fun result : Z =>
                 Ask loader_platform_thread_lock_mutex
                   (fun _ : () =>
                      query_environment
                      ≫= fun _ : () =>
                           GetState
                             (fun st0 : layer =>
                                (if (result =? VK_SUCCESS) &&
                                    negb (bool_decide (screenshotFrames st0 = []))
                                 then capture_frame pPresentInfo
                                 else mret ())
                                ≫= fun _ : () =>
                                     GetState
                                       (fun st1 : layer =>
                                          (if frameNumber st1 =? INT_MAX
                                           then Undefined
                                           else
                                            put_state
                                              (set_frameNumber (frameNumber st1 + 1) st1))
                                          ≫= fun _ : () =>
                                               Ask loader_platform_thread_unlock_mutex
                                                 (fun _ : () => mret result))))))
      st
      (fun r st' log =>
         present_post pPresentInfo st r st'
           (before ++ VkLogged (get_dispatch_table queue) t :: log))).
  { intros before t Hbefore. vk_cbn.
    apply vk_always_through_bind.
    { intros _. apply present_post_early; [|done].
      apply silent_app; [done|vk_silent]. }
    intros Ht result. vk_cbn. intros [].
    apply vk_always_bind. eapply vk_always_mono; [apply query_environment_always|].
    intros rq st1 qlog [-> Hq]. cbn [vk_then]. vk_cbn.
    assert (Htail : forall (rc : vk_outcome unit) (st2 : layer) (clog : list vk_logged),
      (if (result =? VK_SUCCESS) && negb (bool_decide (screenshotFrames st1 = []))
       then frame_captured pPresentInfo st1 rc st2 clog
       else rc = Finished tt /\ st2 = st1 /\ clog = []) ->
      vk_then
        (fun _ : () =>
           GetState
             (fun st3 : layer =>
                (if frameNumber st3 =? INT_MAX
                 then Undefined
                 else put_state (set_frameNumber (frameNumber st3 + 1) st3))
                ≫= fun _ : () =>
                     Ask loader_platform_thread_unlock_mutex (fun _ : () => mret result)))
        (fun r st' log =>
           present_post pPresentInfo st r st'
             (before ++
              VkLogged (get_dispatch_table queue) t
              :: VkLogged (QueuePresentKHR t queue pPresentInfo) result
                 :: VkLogged loader_platform_thread_lock_mutex () :: qlog ++ log))
        rc st2 clog).
    { intros rc st2 clog Hc.
      destruct rc as [[]| |msg]; cbn [vk_then]; vk_cbn.
      - destruct (frameNumber st2 =? INT_MAX) eqn:Hmax; vk_cbn.
        + eapply (present_post_intro _ _ _ _ _ _ _ _ _ _ _ _ (Finished tt));
            [done|exact Hq|exact Hc|].
          cbn [finished andb]. by rewrite Hmax.
        + intros [].
          eapply (present_post_intro _ _ _ _ _ _ _ _ _ _ _ _ (Finished tt));
            [done|exact Hq|exact Hc|].
          cbn [finished andb]. by rewrite Hmax.
      - rewrite <- (app_nil_r clog).
        eapply (present_post_intro _ _ _ _ _ _ _ _ _ _ _ _ UndefinedBehaviour);
          [done|exact Hq|exact Hc|done].
      - rewrite <- (app_nil_r clog).
        eapply (present_post_intro _ _ _ _ _ _ _ _ _ _ _ _ (AssertionFailed msg));
          [done|exact Hq|exact Hc|done]. }
    destruct ((result =? VK_SUCCESS) && negb (bool_decide (screenshotFrames st1 = [])))
      eqn:Hcond.
    - apply vk_always_bind. eapply vk_always_mono; [apply capture_frame_always|].
      intros rc st2 clog Hc. by apply Htail.
    - vk_cbn. specialize (Htail (Finished tt) st1 [] (conj eq_refl (conj eq_refl eq_refl))).
      cbn [vk_then] in Htail.
      cbn [vk_always mbind vk_mbind vk_bind mret vk_ret ask get_state put_state] in Htail.
      eapply vk_always_mono; [apply Htail|]. intros r st' log Hpost. exact Hpost. }
  destruct (frameNumber st =? 10); vk_cbn.
  - intros [] t.
    eapply vk_always_mono; [apply (Hrest [VkLogged fflush_stdout ()] t); vk_silent|].
    intros r st' log Hpost. exact Hpost.
  - intros t. eapply vk_always_mono; [apply (Hrest [] t), silent_nil|].
    intros r st' log Hpost. exact Hpost.
Qed.

End EntryPoints.


(** ** The screenshot layer: sequences of calls *)

Section Applications.

Context `{Headers} `{Vulkan}.

Lemma entry_always (c : entry_call) (st : layer) :
  vk_always (entry c) st (entry_post c st).
Proof.
  destruct c; unfold entry; apply vk_always_bind.
  - eapply vk_always_mono; [apply vkCreateDevice_always|].
    intros [r| |msg] st' log [Hq _]; cbn [vk_then vk_always mret vk_ret entry_post finished] in *;
      by rewrite ?app_nil_r.
  - eapply vk_always_mono; [apply vkEnumeratePhysicalDevices_always|].
    intros [r| |msg] st' log Hq; cbn [vk_then vk_always mret vk_ret entry_post finished] in *;
      by rewrite ?app_nil_r.
  - eapply vk_always_mono; [apply vkGetDeviceQueue_always|].
    intros [r| |msg] st' log Hq; cbn [vk_then vk_always mret vk_ret entry_post finished] in *;
      by rewrite ?app_nil_r.
  - eapply vk_always_mono; [apply vkCreateCommandPool_always|].
    intros [r| |msg] st' log Hq; cbn [vk_then vk_always mret vk_ret entry_post finished] in *;
      by rewrite ?app_nil_r.
  - eapply vk_always_mono; [apply vkCreateSwapchainKHR_always|].
    intros [r| |msg] st' log Hq; cbn [vk_then vk_always mret vk_ret entry_post finished] in *;
      by rewrite ?app_nil_r.
  - eapply vk_always_mono; [apply vkGetSwapchainImagesKHR_always|].
    intros [r| |msg] st' log [Hq _]; cbn [vk_then vk_always mret vk_ret entry_post finished] in *;
      by rewrite ?app_nil_r.
  - eapply vk_always_mono; [apply vkQueuePresentKHR_always|].
    intros [r| |msg] st' log Hp; cbn [vk_then vk_always mret vk_ret entry_post] in *;
      rewrite ?app_nil_r; eexists; (split; [|exact Hp]); done.
  - eapply vk_always_mono; [apply vkGetDeviceProcAddr_always|].
    intros [r| |msg] st' log [Hq _]; cbn [vk_then vk_always mret vk_ret entry_post finished] in *;
      by rewrite ?app_nil_r.
  - eapply vk_always_mono; [apply vkGetInstanceProcAddr_always|].
    intros [r| |msg] st' log [Hq _]; cbn [vk_then vk_always mret vk_ret entry_post finished] in *;
      by rewrite ?app_nil_r.
Qed.

Lemma entry_post_mutex (c : entry_call) (st st' : layer) (r : vk_outcome unit)
    (log : list vk_logged) :
  entry_post c st r st' log ->
  is_Some (mutex_run false log) /\ (finished r = true -> mutex_run false log = Some false).
Proof.
  assert (Hquiet : quiet_post c st (finished r) st' log ->
            is_Some (mutex_run false log) /\
            (finished r = true -> mutex_run false log = Some false)).
  { intros (_ & _ & _ & _ & _ & _ & Hsome & Hfree & _). by split. }
  destruct c; cbn [entry_post]; try exact Hquiet.
  intros (r0 & Hr0 & Hsome & _ & _ & _ & Hpresented). split; [done|].
  intros Hfin. rewrite <- Hr0 in Hfin. destruct r0 as [result| |]; try done.
  by destruct (Hpresented result eq_refl) as (Hfree & _).
Qed.

Lemma application_mutex_always (cs : list entry_call) (st : layer) :
  vk_always (application cs) st
    (fun r st' log =>
       is_Some (mutex_run false log) /\
       (finished r = true -> mutex_run false log = Some false)).
Proof.
  revert st. induction cs as [|c cs IH]; intros st; cbn [application].
  - cbn. by split; [eexists|].
  - apply vk_always_bind. eapply vk_always_mono; [apply entry_always|].
    intros r st1 log1 Hpost. apply entry_post_mutex in Hpost as [Hsome Hfree].
    destruct r as [[]| |msg]; cbn [vk_then]; [|by split..].
    eapply vk_always_mono; [apply IH|]. intros r st' log2 [Hsome2 Hfree2].
    rewrite mutex_run_app, (Hfree eq_refl). by split.
Qed.

Lemma application_done_always (cs : list entry_call) (st : layer) :
  all_done st = true ->
  vk_always (application cs) st
    (fun r st' log =>
       files_written log = [] /\ env_answers log = [] /\ all_done st' = true /\
       swapchainMap st' = swapchainMap st /\ imageMap st' = imageMap st /\
       (forallb (fun c => negb (creates_device c)) cs = true ->
        deviceMap st' = deviceMap st) /\
       (forallb (fun c => negb (enumerates c)) cs = true ->
        physDeviceMap st' = physDeviceMap st)).
Proof.
  revert st. induction cs as [|c cs IH]; intros st Hdone; cbn [application].
  - cbn. by split_and!.
  - apply vk_always_bind. eapply vk_always_mono; [apply entry_always|].
    intros r st1 log1 Hpost.
    assert (Hstep : files_written log1 = [] /\ env_answers log1 = [] /\
              all_done st1 = true /\
              swapchainMap st1 = swapchainMap st /\ imageMap st1 = imageMap st /\
              (creates_device c = false -> deviceMap st1 = deviceMap st) /\
              (enumerates c = false -> physDeviceMap st1 = physDeviceMap st)).
    { assert (Hquiet : quiet_post c st (finished r) st1 log1 ->
                files_written log1 = [] /\ env_answers log1 = [] /\
                all_done st1 = true /\
                swapchainMap st1 = swapchainMap st /\ imageMap st1 = imageMap st /\
                (creates_device c = false -> deviceMap st1 = deviceMap st) /\
                (enumerates c = false -> physDeviceMap st1 = physDeviceMap st)).
      { intros (Hf & He & _ & Hframes & Hq & _ & _ & _ & Hmaps).
        destruct (Hmaps Hdone) as (? & ? & ? & ?).
        split_and!; try done. unfold all_done in *. by rewrite Hframes, Hq. }
      destruct c; cbn [entry_post] in Hpost; try exact (Hquiet Hpost).
      destruct Hpost as (r0 & _ & _ & _ & _ & Hd & _).
      destruct (Hd Hdone) as (? & ? & ? & ? & ? & ? & ?). by split_and!. }
    destruct Hstep as (Hf1 & He1 & Hdone1 & Hsc1 & Him1 & Hdev1 & Hphys1).
    assert (Hstop : files_written log1 = [] /\ env_answers log1 = [] /\
              all_done st1 = true /\
              swapchainMap st1 = swapchainMap st /\ imageMap st1 = imageMap st /\
              (forallb (fun c => negb (creates_device c)) (c :: cs) = true ->
               deviceMap st1 = deviceMap st) /\
              (forallb (fun c => negb (enumerates c)) (c :: cs) = true ->
               physDeviceMap st1 = physDeviceMap st)).
    { split_and!; try done; cbn [forallb]; intros [Hc _]%andb_true_iff;
        [apply Hdev1|apply Hphys1]; by apply negb_true_iff. }
    destruct r as [[]| |msg]; cbn [vk_then]; [|done..].
    eapply vk_always_mono; [apply (IH st1 Hdone1)|].
    intros r st' log2 (Hf2 & He2 & Hdone2 & Hsc2 & Him2 & Hdev2 & Hphys2).
    rewrite files_written_app, env_answers_app, Hf1, He1, Hf2, He2.
    split_and!; try done; try congruence; cbn [forallb];
      intros [Hc Hcs]%andb_true_iff; apply negb_true_iff in Hc.
    + by rewrite Hdev2, Hdev1.
    + by rewrite Hphys2, Hphys1.
Qed.

Lemma elem_of_delete_other (l : list Z) (it : nat) (n m : Z) :
  l !! it = Some n -> m <> n -> m ∈ delete it l <-> m ∈ l.
Proof.
  intros Hit Hne. rewrite delete_take_drop.
  rewrite <- (take_drop_middle l it n Hit) at 3.
  rewrite !elem_of_app, elem_of_cons. split.
  - intros [Hin|Hin]; auto.
  - intros [Hin|[Hin|Hin]]; auto. by destruct Hne.
Qed.

Lemma captured_frames_delete (frames : list Z) (it : nat) (n m : Z) (results : list Z) :
  frames !! it = Some n -> n < m ->
  captured_frames (delete it frames) m results = captured_frames frames m results.
Proof.
  intros Hit. revert m. induction results as [|result results IH]; intros m Hlt; [done|].
  cbn [captured_frames]. rewrite IH by lia.
  by rewrite (bool_decide_ext _ _ (elem_of_delete_other frames it n m Hit ltac:(lia))).
Qed.

Lemma present_frames_app (st : layer) (log1 log2 : list vk_logged) :
  length (env_answers log1) = (if screenshotEnvQueried st then 0 else 1)%nat ->
  present_frames st (log1 ++ log2) = present_frames st log1.
Proof.
  unfold present_frames. rewrite env_answers_app.
  destruct (screenshotEnvQueried st); [done|].
  by destruct (env_answers log1).
Qed.

Lemma present_frames_quiet (st st1 : layer) (log1 log2 : list vk_logged) :
  env_answers log1 = [] ->
  screenshotFrames st1 = screenshotFrames st ->
  screenshotEnvQueried st1 = screenshotEnvQueried st ->
  present_frames st (log1 ++ log2) = present_frames st1 log2.
Proof.
  unfold present_frames. rewrite env_answers_app. by intros -> -> ->.
Qed.

Lemma application_captures_always (cs : list entry_call) (st : layer) :
  vk_always (application cs) st
    (fun r st' log =>
       finished r = true ->
       (files_written log).*1 =
         (fun n => to_string n +:+ ".ppm") <$>
           captured_frames (present_frames st log) (frameNumber st) (present_results log) /\
       frameNumber st' = frameNumber st + Z.of_nat (length (present_results log)) /\
       (length (env_answers log) <= if screenshotEnvQueried st then 0 else 1)%nat).
Proof.
  revert st. induction cs as [|c cs IH]; intros st; cbn [application].
  - cbn. intros _. split_and!; [done|lia|destruct (screenshotEnvQueried st); lia].
  - apply vk_always_bind. eapply vk_always_mono; [apply entry_always|].
    intros r st1 log1 Hpost.
    destruct r as [[]| |msg]; cbn [vk_then]; [|done..].
    eapply vk_always_mono; [apply IH|]. intros r st' log2 Hrest Hfin.
    destruct (Hrest Hfin) as (Hfiles2 & Hnum2 & Henv2). clear Hrest.
    rewrite files_written_app, present_results_app, env_answers_app, fmap_app, Hfiles2.
    assert (Hquiet : quiet_post c st true st1 log1 ->
      (files_written log1).*1 ++
      ((fun n => to_string n +:+ ".ppm") <$>
         captured_frames (present_frames st1 log2) (frameNumber st1)
           (present_results log2)) =
      ((fun n => to_string n +:+ ".ppm") <$>
         captured_frames (present_frames st (log1 ++ log2)) (frameNumber st)
           (present_results log1 ++ present_results log2)) /\
      frameNumber st' =
        frameNumber st +
        Z.of_nat (length (present_results log1 ++ present_results log2)) /\
      (length (env_answers log1 ++ env_answers log2)
       <= if screenshotEnvQueried st then 0 else 1)%nat).
    { intros (Hf & He & Hp & Hframes & Hq & Hn & _).
      rewrite (present_frames_quiet st st1) by done.
      rewrite Hf, He, Hp, Hn, <- Hq. cbn [fmap list_fmap app]. split_and!; [done|lia|done]. }
    destruct c; cbn [entry_post finished] in Hpost; try exact (Hquiet Hpost).
    clear Hquiet. destruct Hpost as (r0 & Hr0 & _ & _ & _ & _ & Hpresented).
    destruct r0 as [result| |]; try done.
    destruct (Hpresented result eq_refl) as (_ & Hp & He & Hn & Hq & Hcase).
    cbv zeta in Hcase.
    rewrite (present_frames_app st log1 log2 He).
    rewrite Hp. cbn [app captured_frames length].
    rewrite Hn in Hnum2. rewrite Hn.
    assert (Hframes1 : present_frames st1 log2 = screenshotFrames st1)
      by (unfold present_frames; by rewrite Hq).
    rewrite Hframes1. split_and!.
    + destruct (bool_decide (result = VK_SUCCESS /\ frameNumber st ∈ present_frames st log1))
        eqn:Hcapture.
      * apply bool_decide_eq_true in Hcapture as [-> Hin].
        rewrite Z.eqb_refl, bool_decide_eq_true_2 by done. cbn [andb].
        destruct Hcase as ((image & im & memory & start & rowPitch & _ & _ & Hf1) &
                           (it & Hfind & Hleft) & _).
        rewrite Hf1, Hleft. apply list_find_Some in Hfind as (Hit & _ & _).
        rewrite (captured_frames_delete _ it (frameNumber st)) by (done || lia).
        done.
      * apply bool_decide_eq_false in Hcapture.
        destruct Hcase as (Hf1 & Hleft & _). rewrite Hf1, Hleft.
        destruct ((result =? VK_SUCCESS) &&
                  bool_decide (frameNumber st ∈ present_frames st log1)) eqn:Hboth; [|done].
        apply andb_true_iff in Hboth as [Hres%Z.eqb_eq Hin%bool_decide_eq_true].
        by destruct Hcapture.
    + lia.
    + rewrite length_app, He. rewrite Hq in Henv2.
      destruct (screenshotEnvQueried st); lia.
Qed.

End Applications.

(** ** The screenshot layer: what its entry points guarantee *)

Section LayerProperties.

Context `{Headers} `{Vulkan} (P : platform).


(** X22.  [vkGetSwapchainImagesKHR] asks the next layer once and returns its
    result.  It touches the maps only if the result is VK_SUCCESS, an array
    was given, screenshots are still to be taken and the swapchain is known:
    then the images stored in the array are entered in the image map with
    the device, extent and format of the swapchain, and they become the image
    list of the swapchain unless there are none. *)
Theorem swapchain_images_registered (device swapchain : Z) (array_given : bool)
    (st : layer) (w : vk_world P) (result : Z) :
  let x := vk_run P (vkGetSwapchainImagesKHR device swapchain array_given) st w in
  vk_result x = Finished result ->
  exists count images,
    omap swapchain_images_answer (vk_calls x) = [(result, count, images)] /\
    images_fetched swapchain array_given st result count images (vk_state x).
Proof.
  cbv zeta. intros Hres.
  pose proof (vk_always_run P _ st w _
                (vkGetSwapchainImagesKHR_always device swapchain array_given st))
    as [_ Hfetched].
  by apply Hfetched.
Qed.

(** X23.  A [vkCreateDevice] that fails in the next layer leaves the layer's state
    alone.  One that succeeds records, under the dispatch table of the new
    device, whether the swapchain extension is among the enabled extensions,
    and enters the device with its physical device in the device map,
    keeping the queue and command pool of an entry that was there; the lock
    is initialized afterwards. *)
Theorem device_creation_recorded (gpu : Z) (ppEnabledExtensionNames : list string)
    (enabledExtensionNameCount device_before : Z) (st : layer) (w : vk_world P)
    (result device : Z) :
  let x := vk_run P (vkCreateDevice gpu ppEnabledExtensionNames enabledExtensionNameCount
                       device_before) st w in
  vk_result x = Finished (result, device) ->
  device_created gpu ppEnabledExtensionNames enabledExtensionNameCount st result device
    (vk_state x) (vk_calls x).
Proof.
  cbv zeta. intros Hres.
  pose proof (vk_always_run P _ st w _
                (vkCreateDevice_always gpu ppEnabledExtensionNames
                   enabledExtensionNameCount device_before st))
    as [_ Hcreated].
  by apply Hcreated.
Qed.

(** X24.  [vkGetDeviceProcAddr] changes nothing but the map of device extensions.
    When it returns a function of the layer, that is the function asked for,
    the device is not null, and the name is one of the four that are always
    intercepted or one of the three swapchain functions with the extension
    recorded for the device's dispatch table; conversely those names are
    answered by the layer itself.  A null device gives a null pointer
    without any call. *)
Theorem device_proc_addr_interception (dev : Z) (funcName : string) (st : layer)
    (w : vk_world P) :
  let x := vk_run P (vkGetDeviceProcAddr dev funcName) st w in
  device_proc_addr_post dev funcName st (vk_result x) (vk_state x) (vk_calls x).
Proof.
  cbv zeta.
  by pose proof (vk_always_run P _ st w _ (vkGetDeviceProcAddr_always dev funcName st))
    as [_ Hpost].
Qed.





End LayerProperties.


(** ** Examples

    The theorems above that have a premise, each at an input that meets it:
    the winsys ones on [simulator], the layer ones on [sample_platform]. *)

Lemma export_then_import_witness :
  let h := {| type := INTEL_WINSYS_HANDLE_FD; handle := 0; stride := 0 |} in
  let h' := {| type := INTEL_WINSYS_HANDLE_FD; handle := 1; stride := 512 |} in
  let y := run simulator (intel_winsys_import_handle winsys9 "shared" h' 4) sim0 in
  result (run simulator
            (intel_winsys_export_handle winsys9 1%positive INTEL_TILING_NONE 512 4 h) sim0)
    = Returned (0, h') /\
  0 <= 4 * 512 < 2 ^ 31 /\
  (exists fd_ answer,
     head (calls y) =
       Some (Logged (drm_intel_bo_gem_create_from_prime (bufmgr winsys9)
                       (to_int32 fd_) (4 * 512)) answer)) /\
  (forall bo' tiling' pitch',
     result y = Returned (Some (bo', tiling', pitch')) -> pitch' = 512).
Proof.
  cbv zeta.
  assert (Hres :
    result (run simulator
              (intel_winsys_export_handle winsys9 1%positive INTEL_TILING_NONE 512 4
                 {| type := INTEL_WINSYS_HANDLE_FD; handle := 0; stride := 0 |}) sim0)
    = Returned (0, {| type := INTEL_WINSYS_HANDLE_FD; handle := 1; stride := 512 |}))
    by (vm_compute; reflexivity).
  assert (Hsize : 0 <= 4 * 512 < 2 ^ 31) by lia.
  split; [exact Hres|]. split; [exact Hsize|].
  destruct (export_then_import simulator winsys9 winsys9 1%positive
              INTEL_TILING_NONE 512 4 4 "shared"
              {| type := INTEL_WINSYS_HANDLE_FD; handle := 0; stride := 0 |}
              {| type := INTEL_WINSYS_HANDLE_FD; handle := 1; stride := 512 |}
              sim0 sim0 (or_introl eq_refl) Hres) as (Hfd & _ & Hpitch).
  split; [|exact Hpitch].
  destruct (Hfd eq_refl Hsize) as (fd_ & answer & _ & Hhead).
  by exists fd_, answer.
Defined.

Lemma set_tiling_succeeds_iff_witness :
  0 <= 512 < 2 ^ 32 /\
  result (run simulator (intel_bo_set_tiling 1%positive INTEL_TILING_X 512) sim0)
    = Returned 0 /\
  result (run simulator (intel_bo_set_tiling 1%positive INTEL_TILING_X 500) sim0)
    = Returned (-1).
Proof.
  assert (Hpitch : 0 <= 512 < 2 ^ 32) by lia.
  split; [exact Hpitch|].
  destruct (set_tiling_succeeds_iff simulator 1%positive INTEL_TILING_X 512 sim0 Hpitch)
    as [Hiff _].
  split; [|reflexivity].
  apply Hiff. split; [by vm_compute|reflexivity].
Defined.

Lemma create_then_destroy_neutral_witness :
  let created := run simulator (intel_winsys_create_for_fd 7 3) sim0 in
  let winsys :=
    {| instance := 7; fd := 3; bufmgr := Some 101%positive;
       info := {| devid := 358; aperture_mappable := 12288; aperture_total := 12288;
                  has_llc := true; has_address_swizzling := false;
                  has_logical_context := true; has_ppgtt := true;
                  has_timestamp := true; has_gen7_sol_reset := true |};
       ctx := Some 103%positive |} in
  result created = Returned (Some (100%positive, winsys)) /\
  neutral [] /\
  outstanding ∅
    (calls created ++ [] ++
     calls (run simulator (intel_winsys_destroy 100%positive winsys) (final created))) = ∅.
Proof.
  cbv zeta.
  assert (Hres : result (run simulator (intel_winsys_create_for_fd 7 3) sim0) =
    Returned (Some (100%positive,
      {| instance := 7; fd := 3; bufmgr := Some 101%positive;
         info := {| devid := 358; aperture_mappable := 12288; aperture_total := 12288;
                    has_llc := true; has_address_swizzling := false;
                    has_logical_context := true; has_ppgtt := true;
                    has_timestamp := true; has_gen7_sol_reset := true |};
         ctx := Some 103%positive |}))) by (vm_compute; reflexivity).
  assert (Hneutral : neutral []) by (intros held; reflexivity).
  split; [exact Hres|]. split; [exact Hneutral|].
  exact (create_then_destroy_neutral simulator 7 3 _ _ [] sim0 _ Hres Hneutral).
Defined.

Lemma same_class_same_size_witness :
  let is_undef := sample_is_undef in
  result (run simulator (icd_format_get_class is_undef VK_FMT_R8G8B8A8_UNORM) sim0)
    = Returned (Some VK_IMAGE_FORMAT_CLASS_32_BITS) /\
  result (run simulator (icd_format_get_class is_undef VK_FMT_R32_SFLOAT) sim0)
    = Returned (Some VK_IMAGE_FORMAT_CLASS_32_BITS) /\
  icd_format_get_size VK_FMT_R8G8B8A8_UNORM = icd_format_get_size VK_FMT_R32_SFLOAT.
Proof.
  cbv zeta.
  split; [reflexivity|]. split; [reflexivity|].
  exact (same_class_same_size simulator sample_is_undef VK_FMT_R8G8B8A8_UNORM VK_FMT_R32_SFLOAT
           VK_IMAGE_FORMAT_CLASS_32_BITS sim0 sim0 eq_refl eq_refl).
Defined.

Lemma raw_value_extent_witness :
  is_Some (raw_value_stores VK_FMT_R5G6B5_UNORM [1; 2; 3; 4]) /\
  exists bytes,
    Z.of_nat (length bytes) = icd_format_get_size VK_FMT_R5G6B5_UNORM /\
    result (run simulator
              (icd_format_get_raw_value VK_FMT_R5G6B5_UNORM [1; 2; 3; 4] [9; 9; 9]) sim0)
      = Returned (Some (bytes ++ [9])) /\
    result (run simulator
              (icd_format_get_raw_value VK_FMT_R5G6B5_UNORM [1; 2; 3; 4] [9]) sim0)
      = Returned None.
Proof.
  assert (Hsome : is_Some (raw_value_stores VK_FMT_R5G6B5_UNORM [1; 2; 3; 4]))
    by (eexists; reflexivity).
  split; [exact Hsome|].
  destruct (raw_value_extent simulator VK_FMT_R5G6B5_UNORM [1; 2; 3; 4] Hsome)
    as (bytes & Hlen & _ & Hrun).
  specialize (Hlen ltac:(discriminate)).
  assert (Hsize : icd_format_get_size VK_FMT_R5G6B5_UNORM = 2) by reflexivity.
  assert (Hbytes : length bytes = 2%nat) by lia.
  exists bytes. split; [exact Hlen|]. split.
  - destruct (Hrun [9; 9; 9] sim0) as [Hfits _]. rewrite Hbytes in Hfits.
    exact (Hfits ltac:(simpl; lia)).
  - destruct (Hrun [9] sim0) as [_ Hshort]. rewrite Hbytes in Hshort.
    exact (Hshort ltac:(simpl; lia)).
Defined.

Lemma raw_value_unknown_size_witness :
  icd_format_get_size VK_FMT_ASTC_4x4_UNORM = 0 /\
  result (run simulator
            (icd_format_get_raw_value VK_FMT_ASTC_4x4_UNORM [1; 2; 3; 4] [9; 9]) sim0)
    = Aborted "unknown format".
Proof.
  split; [reflexivity|].
  exact (raw_value_unknown_size simulator VK_FMT_ASTC_4x4_UNORM [1; 2; 3; 4] [9; 9] sim0
           eq_refl).
Defined.


#[local] Existing Instance sample_vulkan.




Lemma swapchain_images_registered_witness :
  let st := vk_state (vk_run sample_platform (application (take 5 sample_setup))
                        layer_start tt) in
  let x := vk_run sample_platform (vkGetSwapchainImagesKHR 7 8 true) st tt in
  vk_result x = Finished 0 /\
  exists count images,
    omap swapchain_images_answer (vk_calls x) = [(0, count, images)] /\
    images_fetched 8 true st 0 count images (vk_state x).
Proof.
  cbv zeta.
  assert (Hres :
    vk_result
      (vk_run sample_platform (vkGetSwapchainImagesKHR 7 8 true)
         (vk_state (vk_run sample_platform (application (take 5 sample_setup))
                      layer_start tt)) tt)
    = Finished 0) by (vm_compute; reflexivity).
  split; [exact Hres|].
  exact (swapchain_images_registered sample_platform 7 8 true _ tt 0 Hres).
Defined.

Lemma device_creation_recorded_witness :
  let names := ["VK_EXT_KHR_device_swapchain"] in
  let x := vk_run sample_platform (vkCreateDevice 3 names 1 7) layer_start tt in
  vk_result x = Finished (0, 7) /\
  device_created 3 names 1 layer_start 0 7 (vk_state x) (vk_calls x).
Proof.
  cbv zeta.
  assert (Hres :
    vk_result (vk_run sample_platform
                 (vkCreateDevice 3 ["VK_EXT_KHR_device_swapchain"] 1 7) layer_start tt)
    = Finished (0, 7)) by (vm_compute; reflexivity).
  split; [exact Hres|].
  exact (device_creation_recorded sample_platform 3 _ 1 7 layer_start tt 0 7 Hres).
Defined.



